(** * Frameless window helper: hit-testing, DPI resolution, window registry

    A shallow embedding of the window-chrome engine of the frameless helper:
    - [WinNativeEventFilter] (winnativeeventfilter.cpp): the native message
      filter, its hit-test, the DPI tiers and the list of frameless windows;
    - [FramelessHelperQt] (framelesshelper_qt.cpp): the table of the
      toolkit-event fallback;
    - [FramelessManagerPrivate] (framelessmanager.cpp): the list of window ids.

    Conventions.  C++ [int], [LONG] and [UINT] values are integers of [Z];
    a conversion to [UINT] is written [to_UINT], the 16-bit words of an
    [LPARAM] are cut out with [Z.land] and [Z.shiftr].  Signed arithmetic is
    taken in [Z]: an overflow of [int] or [LONG] is undefined in C++ and is
    not given a meaning here.  A [qreal] (a double) is the rational it
    stands for: the result of an operation on doubles is the exact result
    brought to the nearest double by [round_double] (53 significant bits,
    ties to the even one), in the range of the normal numbers, which no
    value here leaves.  Results of operating-system queries are fields of the record
    [Os]; calls that act on a window are appended to the [calls] of the
    state, so that "nothing happened" can be read off the state. *)

From Stdlib Require Import ZArith QArith Qround Qpower Bool List Lia Lqa.
From stdpp Require Import base option list gmap.
Import ListNotations.

Local Open Scope Z_scope.

(** ** Qt value types and numeric helpers (QtCore, QtGui) *)

Module Qt.

Definition qreal := Q.

(** *** Double precision *)

(** The largest [k] with [2 ^ k <= q], for a positive [q]. *)
Definition ilog2 (q : Q) : Z :=
  let l := Z.log2 (Qnum q) - Z.log2 (Zpos (Qden q)) in
  if Qle_bool (2 ^ l) q then l else l - 1.

(** The integer nearest to [q]; of two that are equally near, the even
    one. *)
Definition nearest_even (q : Q) : Z :=
  let n := Qfloor q in
  match (q - inject_Z n ?= 1 # 2)%Q with
  | Lt => n
  | Gt => n + 1
  | Eq => if Z.even n then n else n + 1
  end.

(** The double nearest to a positive [q]: [q] is cut to 53 significant
    bits. *)
Definition round_positive (q : Q) : Q :=
  let e := ilog2 q - 52 in
  (inject_Z (nearest_even (q / 2 ^ e)) * 2 ^ e)%Q.

(** The double nearest to [q].  Overflow and the subnormal numbers are left
    out: the values rounded here are quotients and products of 32-bit
    integers and scale factors. *)
Definition round_double (q : Q) : qreal :=
  match (q ?= 0)%Q with
  | Eq => 0%Q
  | Gt => round_positive q
  | Lt => (- round_positive (- q))%Q
  end.

(** The operators [/], [*], [+] and [-] of [double]. *)
Definition qreal_div (a b : qreal) : qreal := round_double (a / b).
Definition qreal_mul (a b : qreal) : qreal := round_double (a * b).
Definition qreal_add (a b : qreal) : qreal := round_double (a + b).
Definition qreal_sub (a b : qreal) : qreal := round_double (a - b).

(** Conversion of a floating value to [int]: the fraction is discarded. *)
Definition to_int (d : qreal) : Z := Z.quot (Qnum d) (Zpos (Qden d)).

(** [qFloor] is [int(floor(v))], [qCeil] is [int(ceil(v))]. *)
Definition qFloor (v : qreal) : Z := Qfloor v.
Definition qCeil (v : qreal) : Z := Qceiling v.

(** [qRound(d)] is [d >= 0.0 ? int(d + 0.5) : int(d - 0.5)]. *)
Definition qRound (d : qreal) : Z :=
  if Qle_bool 0 d then to_int (qreal_add d (1 # 2))
  else to_int (qreal_sub d (1 # 2)).

(** [Qt::HighDpiScaleFactorRoundingPolicy], in the order of the enum. *)
Inductive HighDpiScaleFactorRoundingPolicy :=
| Unset | Round | Ceil | Floor | RoundPreferFloor | PassThrough.

(** [QRect] keeps its two corners; [QRect(x, y, w, h)] is [mkQRect]. *)
Record QRect := { x1 : Z; y1 : Z; x2 : Z; y2 : Z }.

Definition mkQRect (x y w h : Z) : QRect :=
  {| x1 := x; y1 := y; x2 := x + w - 1; y2 := y + h - 1 |}.

Definition x (r : QRect) : Z := x1 r.
Definition y (r : QRect) : Z := y1 r.
Definition width (r : QRect) : Z := x2 r - x1 r + 1.
Definition height (r : QRect) : Z := y2 r - y1 r + 1.

Definition isValid (r : QRect) : bool := (x1 r <=? x2 r) && (y1 r <=? y2 r).

(** [QRect::contains(int x, int y, bool proper)]. *)
Definition contains (r : QRect) (px py : Z) (proper : bool) : bool :=
  let '(l, rr) := if x2 r <? x1 r - 1 then (x2 r, x1 r) else (x1 r, x2 r) in
  if (if proper then (px <=? l) || (rr <=? px) else (px <? l) || (rr <? px))
  then false
  else
    let '(t, b) := if y2 r <? y1 r - 1 then (y2 r, y1 r) else (y1 r, y2 r) in
    if (if proper then (py <=? t) || (b <=? py) else (py <? t) || (b <? py))
    then false
    else true.

(** [QSize]; [isEmpty] holds when a side is smaller than one. *)
Record QSize := { wd : Z; ht : Z }.

Definition isEmpty (s : QSize) : bool := (wd s <? 1) || (ht s <? 1).

(** The versions [QOperatingSystemVersion::current()] is compared with. *)
Inductive QOperatingSystemVersion :=
| Windows7 | Windows8 | Windows8_1 | Windows10
| Windows10_14393 | Windows10_16299 | Windows10_17134.

End Qt.

(** ** Win32 types and constants (windows.h, shellapi.h) *)

Module Win32.

Abbreviation HWND := Z (only parsing).
Abbreviation HMONITOR := Z (only parsing).
Definition nullptr : Z := 0.

Record POINT := { px : Z; py : Z }.
Record RECT := { left : Z; top : Z; right : Z; bottom : Z }.

Definition EqualRect (a b : RECT) : bool :=
  (left a =? left b) && (top a =? top b) &&
  (right a =? right b) && (bottom a =? bottom b).

Record MINMAXINFO := {
  ptMaxSize : POINT; ptMaxPosition : POINT;
  ptMinTrackSize : POINT; ptMaxTrackSize : POINT }.

Definition to_UINT (v : Z) : Z := v mod 2 ^ 32.

(** [(short)w] for a 16-bit word [w]. *)
Definition to_short (w : Z) : Z := if w <? 2 ^ 15 then w else w - 2 ^ 16.

Definition LOWORD (l : Z) : Z := Z.land l 65535.
Definition HIWORD (l : Z) : Z := Z.land (Z.shiftr l 16) 65535.
Definition GET_X_LPARAM (lp : Z) : Z := to_short (LOWORD lp).
Definition GET_Y_LPARAM (lp : Z) : Z := to_short (HIWORD lp).

(** [static_cast<BOOL>(wParam)]: the low 32 bits, tested against zero. *)
Definition to_BOOL (w : Z) : bool := negb (Z.land w (2 ^ 32 - 1) =? 0).

Definition USER_DEFAULT_SCREEN_DPI : Z := 96.

Definition SM_CYCAPTION : Z := 4.
Definition SM_CXFRAME : Z := 32.
Definition SM_CYFRAME : Z := 33.
Definition SM_CXPADDEDBORDER : Z := 92.

Definition WM_SETTEXT : Z := 12.
Definition WM_GETMINMAXINFO : Z := 36.
Definition WM_WINDOWPOSCHANGED : Z := 71.
Definition WM_SETICON : Z := 128.
Definition WM_NCCREATE : Z := 129.
Definition WM_NCCALCSIZE : Z := 131.
Definition WM_NCHITTEST : Z := 132.
Definition WM_NCPAINT : Z := 133.
Definition WM_NCACTIVATE : Z := 134.
Definition WM_NCUAHDRAWCAPTION : Z := 174.
Definition WM_NCUAHDRAWFRAME : Z := 175.
Definition WM_DPICHANGED : Z := 736.
Definition WM_THEMECHANGED : Z := 794.
Definition WM_DWMCOMPOSITIONCHANGED : Z := 798.

Definition HTCLIENT : Z := 1.
Definition HTCAPTION : Z := 2.
Definition HTLEFT : Z := 10.
Definition HTRIGHT : Z := 11.
Definition HTTOP : Z := 12.
Definition HTTOPLEFT : Z := 13.
Definition HTTOPRIGHT : Z := 14.
Definition HTBOTTOM : Z := 15.
Definition HTBOTTOMLEFT : Z := 16.
Definition HTBOTTOMRIGHT : Z := 17.

Definition ABS_AUTOHIDE : Z := 1.
Definition ABE_LEFT : Z := 0.
Definition ABE_TOP : Z := 1.
Definition ABE_RIGHT : Z := 2.
Definition ABE_BOTTOM : Z := 3.

Definition WS_VISIBLE : Z := 268435456.
Definition WS_OVERLAPPEDWINDOW : Z := 13565952.
Definition WS_CLIPCHILDREN : Z := 33554432.
Definition WS_CLIPSIBLINGS : Z := 67108864.
Definition WS_EX_APPWINDOW : Z := 262144.
Definition WS_EX_LAYERED : Z := 524288.

Inductive ACCENT_STATE :=
| ACCENT_DISABLED | ACCENT_ENABLE_GRADIENT | ACCENT_ENABLE_TRANSPARENTGRADIENT
| ACCENT_ENABLE_BLURBEHIND | ACCENT_ENABLE_ACRYLICBLURBEHIND
| ACCENT_INVALID_STATE.

End Win32.

(** ** The native event filter (winnativeeventfilter.cpp) *)

Module WinNativeEventFilter.
Import Qt Win32.

(** Per-window settings and per-window record kept in [GWLP_USERDATA]. *)
Record WINDOWDATA := {
  blurEnabled : bool;
  borderWidth_ : Z;
  borderHeight_ : Z;
  titlebarHeight_ : Z;
  ignoreAreas : list QRect;
  draggableAreas : list QRect;
  minimumSize : QSize }.

Record WINDOW := {
  hWnd : HWND;
  dwmCompositionEnabled : bool;
  themeEnabled : bool;
  inited : bool;
  windowData : WINDOWDATA }.

(** Modelled from the spec: winnativeeventfilter.h, which gives the members
    of [WINDOWDATA] their initial values, is missing.  The data model of the
    spec reads 0 as "use the platform default" for the three overrides and
    0x0 as "unconstrained" for the minimum size; blur is off and both
    sequences of areas are empty. *)
Definition default_WINDOWDATA : WINDOWDATA :=
  {| blurEnabled := false; borderWidth_ := 0; borderHeight_ := 0;
     titlebarHeight_ := 0; ignoreAreas := []; draggableAreas := [];
     minimumSize := {| wd := 0; ht := 0 |} |}.

(** [new WINDOW] followed by the assignments of [createUserData]. *)
Definition new_WINDOW (handle : HWND) (data : option WINDOWDATA) : WINDOW :=
  {| hWnd := handle; dwmCompositionEnabled := false; themeEnabled := false;
     inited := false; windowData := default default_WINDOWDATA data |}.

(** The function pointers resolved by [initDLLs]; [None] is [nullptr]. *)
Record Caps := {
  m_GetSystemDpiForProcess : option (Z -> Z);
  m_GetDpiForWindow : option (HWND -> Z);
  m_GetDpiForSystem : option Z;
  m_GetSystemMetricsForDpi : option (Z -> Z -> Z);
  (** the out-parameter [dpiX], [None] when the call leaves it untouched *)
  m_GetDpiForMonitor : option (HMONITOR -> option Z);
  m_SetWindowCompositionAttribute : bool }.

Definition no_Caps : Caps :=
  {| m_GetSystemDpiForProcess := None; m_GetDpiForWindow := None;
     m_GetDpiForSystem := None; m_GetSystemMetricsForDpi := None;
     m_GetDpiForMonitor := None; m_SetWindowCompositionAttribute := false |}.

(** A top-level [QWindow]: [handle()] is non-null exactly when the platform
    window exists, and [winId()] is then its native id. *)
Record QWindow := { platformWindow : option HWND }.

(** What the operating system and the application answer when asked. *)
Record Os := {
  highDpiScaleFactorRoundingPolicy : HighDpiScaleFactorRoundingPolicy;
  (** [versionCompare v] is [Lt] when the running system is older than [v] *)
  versionCompare : QOperatingSystemVersion -> comparison;
  (** what [QLibrary::resolve] finds for each symbol *)
  resolve : Caps;
  topLevelWindows : list QWindow;
  MonitorFromWindow : HWND -> HMONITOR;
  (** [rcMonitor] and [rcWork] of [GetMonitorInfoW] *)
  rcMonitor : HMONITOR -> RECT;
  rcWork : HMONITOR -> RECT;
  (** [GetDesktopDpi] of a Direct2D factory, [None] when none is created *)
  D2D1_GetDesktopDpi : option qreal;
  (** [LOGPIXELSX] and [LOGPIXELSY] of the screen DC, [None] without a DC *)
  GetDeviceCaps_LOGPIXELS : option (Z * Z);
  GetSystemMetrics : Z -> Z;
  GetClientRect : HWND -> RECT;
  ScreenToClient : HWND -> POINT -> POINT;
  IsMaximized : HWND -> bool;
  ABM_GETSTATE : Z;
  FindWindow_Shell_TrayWnd : HWND;
  ABM_GETTASKBARPOS_uEdge : Z;
  DwmIsCompositionEnabled : bool;
  IsThemeActive : bool;
  GetWindowLongPtr_STYLE : HWND -> Z;
  DefWindowProcW : HWND -> Z -> Z -> Z -> Z }.

(** Calls that act on a window or on the application. *)
Inductive OsCall :=
| installNativeEventFilter
| removeNativeEventFilter
| SetWindowLongPtr_STYLE (h : HWND) (style : Z)
| SetWindowLongPtr_EXSTYLE (h : HWND) (style : Z)
| SetLayeredWindowAttributes_COLORKEY (h : HWND)
| DwmSetWindowAttribute_NCRP_ENABLED (h : HWND)
| DwmExtendFrameIntoClientArea (h : HWND) (margin : Z)
| DwmEnableBlurBehindWindow (h : HWND)
| SetWindowCompositionAttribute (h : HWND) (accent : option ACCENT_STATE)
| SetWindowPos_FRAMECHANGED (h : HWND)
| SendMessage_WM_SIZE (h : HWND)
| UpdateWindow (h : HWND)
| InvalidateRect (h : HWND)
| DefWindowProc_called (h : HWND) (message wParam lParam : Z).

(** The globals of the translation unit and the user data of the windows.
    An [LPWINDOW] is the handle whose [GWLP_USERDATA] slot holds the record. *)
Record State := {
  caps : Caps;
  instance : bool;
  m_framelessWindows : list HWND;
  userData : gmap HWND WINDOW;
  calls : list OsCall }.

Abbreviation LPWINDOW := HWND (only parsing).

Definition initial_State : State :=
  {| caps := no_Caps; instance := false; m_framelessWindows := [];
     userData := ∅; calls := [] |}.

Definition set_caps (c : Caps) (st : State) : State :=
  {| caps := c; instance := instance st;
     m_framelessWindows := m_framelessWindows st;
     userData := userData st; calls := calls st |}.

Definition set_instance (b : bool) (st : State) : State :=
  {| caps := caps st; instance := b;
     m_framelessWindows := m_framelessWindows st;
     userData := userData st; calls := calls st |}.

Definition set_framelessWindows (l : list HWND) (st : State) : State :=
  {| caps := caps st; instance := instance st; m_framelessWindows := l;
     userData := userData st; calls := calls st |}.

Definition set_userData (m : gmap HWND WINDOW) (st : State) : State :=
  {| caps := caps st; instance := instance st;
     m_framelessWindows := m_framelessWindows st;
     userData := m; calls := calls st |}.

Definition call (c : OsCall) (st : State) : State :=
  {| caps := caps st; instance := instance st;
     m_framelessWindows := m_framelessWindows st;
     userData := userData st; calls := calls st ++ [c] |}.

(** [*p] for an [LPWINDOW] [p]. *)
Definition deref (st : State) (p : LPWINDOW) : WINDOW :=
  default (new_WINDOW p None) (userData st !! p).

(** [p->field = ...], written as a function on the record. *)
Definition modify (p : LPWINDOW) (f : WINDOW -> WINDOW) (st : State) : State :=
  set_userData (alter f p (userData st)) st.

Definition set_inited (b : bool) (w : WINDOW) : WINDOW :=
  {| hWnd := hWnd w; dwmCompositionEnabled := dwmCompositionEnabled w;
     themeEnabled := themeEnabled w; inited := b;
     windowData := windowData w |}.

Definition set_dwmCompositionEnabled (b : bool) (w : WINDOW) : WINDOW :=
  {| hWnd := hWnd w; dwmCompositionEnabled := b;
     themeEnabled := themeEnabled w; inited := inited w;
     windowData := windowData w |}.

Definition set_themeEnabled (b : bool) (w : WINDOW) : WINDOW :=
  {| hWnd := hWnd w; dwmCompositionEnabled := dwmCompositionEnabled w;
     themeEnabled := b; inited := inited w; windowData := windowData w |}.

Definition set_windowData (d : WINDOWDATA) (w : WINDOW) : WINDOW :=
  {| hWnd := hWnd w; dwmCompositionEnabled := dwmCompositionEnabled w;
     themeEnabled := themeEnabled w; inited := inited w; windowData := d |}.

(** Version tests against [QOperatingSystemVersion::current()]. *)
Definition current_lt (os : Os) (v : QOperatingSystemVersion) : bool :=
  match versionCompare os v with Lt => true | _ => false end.
Definition current_gt (os : Os) (v : QOperatingSystemVersion) : bool :=
  match versionCompare os v with Gt => true | _ => false end.
Definition current_ge (os : Os) (v : QOperatingSystemVersion) : bool :=
  negb (current_lt os v).

(** A pointer that is only set while it is still null. *)
Definition resolve_if_null {A} (cur found : option A) : option A :=
  match cur with Some _ => cur | None => found end.


(** *** DPI and scale factor *)

Definition GetCurrentProcess : Z := -1.

(** The lambda [getScreenDpi] of [getDpiForWindow], before the conversion of
    its result to [UINT]: Direct2D first, then the screen DC, then the
    default value. *)
Definition getScreenDpi (os : Os) (defaultValue : Z) : Z :=
  match D2D1_GetDesktopDpi os with
  | Some dpiX => to_int dpiX
  | None =>
      match GetDeviceCaps_LOGPIXELS os with
      | Some (dpiX, dpiY) => if dpiX =? dpiY then dpiY else dpiX
      | None => defaultValue
      end
  end.

Definition getDpiForWindow (os : Os) (st : State) (handle : HWND) : Z :=
  to_UINT
    (if handle =? nullptr then
       match m_GetSystemDpiForProcess (caps st) with
       | Some f => f GetCurrentProcess
       | None =>
           match m_GetDpiForSystem (caps st) with
           | Some dpi => dpi
           | None => getScreenDpi os USER_DEFAULT_SCREEN_DPI
           end
       end
     else
       match m_GetDpiForWindow (caps st) with
       | Some f => f handle
       | None =>
           match m_GetDpiForMonitor (caps st) with
           | Some f =>
               default USER_DEFAULT_SCREEN_DPI (f (MonitorFromWindow os handle))
           | None => getScreenDpi os USER_DEFAULT_SCREEN_DPI
           end
       end).

Definition m_defaultDPR : qreal := 1%Q.

Definition getDprForWindow (os : Os) (st : State) (handle : HWND) : qreal :=
  let dpr :=
    if handle =? nullptr then m_defaultDPR
    else qreal_div (inject_Z (getDpiForWindow os st handle))
                   (inject_Z USER_DEFAULT_SCREEN_DPI) in
  match highDpiScaleFactorRoundingPolicy os with
  | PassThrough => dpr
  | Floor => inject_Z (qFloor dpr)
  | Ceil => inject_Z (qCeil dpr)
  | _ => inject_Z (qRound dpr)
  end.

(** [int * qreal] stored into an [int]: the product is a double, and its
    fraction is discarded. *)
Definition scaled (v : Z) (dpr : qreal) : Z :=
  to_int (qreal_mul (inject_Z v) dpr).

Definition getSystemMetricsForWindow (os : Os) (st : State) (handle : HWND)
    (index : Z) : Z :=
  match m_GetSystemMetricsForDpi (caps st) with
  | Some f =>
      let dpi := getDpiForWindow os st handle in
      let shouldRound :=
        match highDpiScaleFactorRoundingPolicy os with
        | PassThrough => false
        | _ => true
        end in
      let dpi :=
        if shouldRound then
          if dpi <? 144 then USER_DEFAULT_SCREEN_DPI
          else if dpi =? 144 then 144
          else if dpi <? 240 then USER_DEFAULT_SCREEN_DPI * 2
          else if dpi =? 240 then 240
          else if dpi <? 336 then USER_DEFAULT_SCREEN_DPI * 3
          else if dpi =? 336 then 336
          else if dpi <? 432 then USER_DEFAULT_SCREEN_DPI * 4
          else dpi
        else dpi in
      f index dpi
  | None => scaled (GetSystemMetrics os index) (getDprForWindow os st handle)
  end.

(** *** The state monad of the functions that write globals or user data *)

Definition M (A : Type) : Type := State -> A * State.

Definition ret {A} (a : A) : M A := fun st => (a, st).
Definition bind {A B} (m : M A) (k : A -> M B) : M B :=
  fun st => let '(a, st') := m st in k a st'.
Definition get : M State := fun st => (st, st).
Definition update (f : State -> State) : M unit := fun st => (tt, f st).
Definition when (b : bool) (m : M unit) : M unit := if b then m else ret tt.

Declare Scope filter_scope.
Delimit Scope filter_scope with filter.
Notation "x <- m ;; k" := (bind m (fun x => k))
  (at level 100, m at next level, right associativity) : filter_scope.
Notation "m ;; k" := (bind m (fun _ => k))
  (at level 100, right associativity) : filter_scope.
Local Open Scope filter_scope.

(** One [if (!m_X) m_X = resolve(...)] under its version test. *)
Definition resolve_since {A} (os : Os) (v : QOperatingSystemVersion)
    (cur found : option A) : option A :=
  if current_ge os v then resolve_if_null cur found else cur.

Definition initDLLs (os : Os) : M unit :=
  update (fun st =>
    let c := caps st in
    let r := resolve os in
    set_caps
      {| m_SetWindowCompositionAttribute :=
           if current_ge os Windows7 then
             m_SetWindowCompositionAttribute c
             || m_SetWindowCompositionAttribute r
           else m_SetWindowCompositionAttribute c;
         m_GetDpiForMonitor :=
           resolve_since os Windows8_1
             (m_GetDpiForMonitor c) (m_GetDpiForMonitor r);
         m_GetDpiForWindow :=
           resolve_since os Windows10_14393
             (m_GetDpiForWindow c) (m_GetDpiForWindow r);
         m_GetDpiForSystem :=
           resolve_since os Windows10_14393
             (m_GetDpiForSystem c) (m_GetDpiForSystem r);
         m_GetSystemMetricsForDpi :=
           resolve_since os Windows10_14393
             (m_GetSystemMetricsForDpi c) (m_GetSystemMetricsForDpi r);
         m_GetSystemDpiForProcess :=
           resolve_since os Windows10_17134
             (m_GetSystemDpiForProcess c) (m_GetSystemDpiForProcess r) |} st).

Definition install (os : Os) : M unit :=
  st <- get ;;
  when (negb (instance st))
    (initDLLs os ;;
     update (set_instance true) ;;
     update (call installNativeEventFilter)).

Definition updateWindow (handle : HWND) : M unit :=
  when (negb (handle =? nullptr))
    (update (call (SetWindowPos_FRAMECHANGED handle)) ;;
     update (call (SendMessage_WM_SIZE handle)) ;;
     update (call (UpdateWindow handle))).

Definition createUserData (handle : HWND) (data : option WINDOWDATA) : M unit :=
  when (negb (handle =? nullptr))
    (st <- get ;;
     match userData st !! handle with
     | Some _ =>
         match data with
         | Some d => update (modify handle (set_windowData d))
         | None => ret tt
         end
     | None =>
         update (set_userData (<[handle := new_WINDOW handle data]> (userData st)))
     end).

(** *** The list of frameless windows *)

Definition uninstall : M unit :=
  st <- get ;;
  when (instance st)
    (update (call removeNativeEventFilter) ;; update (set_instance false)) ;;
  st <- get ;;
  when (negb (bool_decide (m_framelessWindows st = [])))
    (foldr (fun window k => updateWindow window ;; k) (ret tt)
       (m_framelessWindows st) ;;
     update (set_framelessWindows [])).

Definition framelessWindows : M (list HWND) :=
  st <- get ;; ret (m_framelessWindows st).

Definition setFramelessWindows (os : Os) (windows : list HWND) : M unit :=
  st <- get ;;
  when (negb (bool_decide (windows = []))
        && negb (bool_decide (windows = m_framelessWindows st)))
    (update (set_framelessWindows windows) ;; install os).

Definition addFramelessWindow (os : Os) (window : HWND)
    (data : option WINDOWDATA) : M unit :=
  st <- get ;;
  when (negb (window =? nullptr)
        && negb (bool_decide (window ∈ m_framelessWindows st)))
    (update (set_framelessWindows (m_framelessWindows st ++ [window])) ;;
     match data with
     | Some _ => createUserData window data
     | None => ret tt
     end ;;
     install os).

Definition removeFramelessWindow (window : HWND) : M unit :=
  st <- get ;;
  when (negb (window =? nullptr)
        && bool_decide (window ∈ m_framelessWindows st))
    (update (set_framelessWindows
               (filter (fun w => w ≠ window) (m_framelessWindows st))) ;;
     updateWindow window).

Definition clearFramelessWindows : M unit :=
  st <- get ;;
  when (negb (bool_decide (m_framelessWindows st = [])))
    (update (set_framelessWindows [])).

(** *** Border and title bar metrics *)

Definition borderWidth (os : Os) (handle : HWND) : M Z :=
  let metrics st :=
    getSystemMetricsForWindow os st handle SM_CXFRAME
    + getSystemMetricsForWindow os st handle SM_CXPADDEDBORDER in
  if handle =? nullptr then st <- get ;; ret (metrics st)
  else
    createUserData handle None ;;
    st <- get ;;
    let bw := borderWidth_ (windowData (deref st handle)) in
    if 0 <? bw then ret (scaled bw (getDprForWindow os st handle))
    else ret (metrics st).

Definition borderHeight (os : Os) (handle : HWND) : M Z :=
  let metrics st :=
    getSystemMetricsForWindow os st handle SM_CYFRAME
    + getSystemMetricsForWindow os st handle SM_CXPADDEDBORDER in
  if handle =? nullptr then st <- get ;; ret (metrics st)
  else
    createUserData handle None ;;
    st <- get ;;
    let bh := borderHeight_ (windowData (deref st handle)) in
    if 0 <? bh then ret (scaled bh (getDprForWindow os st handle))
    else ret (metrics st).

Definition titlebarHeight (os : Os) (handle : HWND) : M Z :=
  let metrics :=
    bh <- borderHeight os handle ;;
    st <- get ;;
    ret (bh + getSystemMetricsForWindow os st handle SM_CYCAPTION) in
  if handle =? nullptr then metrics
  else
    createUserData handle None ;;
    st <- get ;;
    let tbh := titlebarHeight_ (windowData (deref st handle)) in
    if 0 <? tbh then ret (scaled tbh (getDprForWindow os st handle))
    else metrics.

Definition setWindowData (window : HWND) (data : option WINDOWDATA) : M unit :=
  match data with
  | Some _ =>
      when (negb (window =? nullptr))
        (createUserData window data ;; updateWindow window)
  | None => ret tt
  end.

(** *** Composition, theme and blur *)

Definition handleThemeChanged (os : Os) (data : LPWINDOW) : M unit :=
  update (modify data (set_themeEnabled (IsThemeActive os))).

Definition handleBlurForWindow (os : Os) (data : LPWINDOW) : M unit :=
  st <- get ;;
  let w := deref st data in
  if current_lt os Windows7
     || negb (dwmCompositionEnabled w && blurEnabled (windowData w))
  then ret tt
  else if current_lt os Windows8
  then update (call (DwmEnableBlurBehindWindow (hWnd w)))
  else
    when (m_SetWindowCompositionAttribute (caps st))
      (let AccentState :=
         if current_ge os Windows10_16299
         then Some ACCENT_ENABLE_ACRYLICBLURBEHIND
         else if current_ge os Windows10 then Some ACCENT_ENABLE_BLURBEHIND
         else if current_ge os Windows8
         then Some ACCENT_ENABLE_TRANSPARENTGRADIENT
         else None in
       update (call (SetWindowCompositionAttribute (hWnd w) AccentState))).

Definition handleDwmCompositionChanged (os : Os) (data : LPWINDOW) : M unit :=
  let enabled := DwmIsCompositionEnabled os in
  update (modify data (set_dwmCompositionEnabled enabled)) ;;
  st <- get ;;
  let w := deref st data in
  when enabled
    (update (call (DwmSetWindowAttribute_NCRP_ENABLED (hWnd w))) ;;
     update (call (DwmExtendFrameIntoClientArea (hWnd w) (-1)))) ;;
  handleBlurForWindow os data ;;
  updateWindow (hWnd w).

(** [init]; its debug output is not modelled. *)
Definition init (os : Os) (data : LPWINDOW) : M unit :=
  update (modify data (set_inited true)) ;;
  st <- get ;;
  let w := deref st data in
  update (call (SetWindowLongPtr_STYLE (hWnd w)
            (Z.lor (Z.lor WS_OVERLAPPEDWINDOW WS_CLIPCHILDREN) WS_CLIPSIBLINGS))) ;;
  update (call (SetWindowLongPtr_EXSTYLE (hWnd w)
            (Z.lor WS_EX_APPWINDOW WS_EX_LAYERED))) ;;
  update (call (SetLayeredWindowAttributes_COLORKEY (hWnd w))) ;;
  handleDwmCompositionChanged os data ;;
  handleThemeChanged os data.

(** *** Hit test ([WM_NCHITTEST]) *)

(** The lambda [isInSpecificAreas]. *)
Fixpoint isInSpecificAreas (x y : Z) (areas : list QRect) (dpr : qreal) : bool :=
  match areas with
  | [] => false
  | area :: rest =>
      if negb (isValid area) then isInSpecificAreas x y rest dpr
      else if contains
                (mkQRect (scaled (Qt.x area) dpr) (scaled (Qt.y area) dpr)
                         (scaled (width area) dpr) (scaled (height area) dpr))
                x y true
      then true
      else isInSpecificAreas x y rest dpr
  end.

(** The constants that [getHTResult] declares before it looks at
    [IsMaximized], in the order of their declaration. *)
Record HitTestLocals := {
  ww : Z; wh : Z;
  mouse : POINT;
  bw : Z; bh : Z; tbh : Z;
  isInsideWindow : bool;
  dpr : qreal;
  isTitlebar : bool }.

Definition getHTResult_locals (os : Os) (_hWnd : HWND) (_lParam : Z)
    (_data : LPWINDOW) : M HitTestLocals :=
  let clientRect := GetClientRect os _hWnd in
  let ww := right clientRect in
  let wh := bottom clientRect in
  let mouse :=
    ScreenToClient os _hWnd
      {| px := GET_X_LPARAM _lParam; py := GET_Y_LPARAM _lParam |} in
  bw <- borderWidth os _hWnd ;;
  bh <- borderHeight os _hWnd ;;
  tbh <- titlebarHeight os _hWnd ;;
  st <- get ;;
  let isInsideWindow :=
    (0 <? px mouse) && (px mouse <? ww) && (0 <? py mouse) && (py mouse <? wh) in
  let dpr := getDprForWindow os st _hWnd in
  let isTitlebar :=
    isInsideWindow && (py mouse <? tbh)
    && negb (isInSpecificAreas (px mouse) (py mouse)
               (ignoreAreas (windowData (deref st _data))) dpr)
    && (if bool_decide (draggableAreas (windowData (deref st _data)) = [])
        then true
        else isInSpecificAreas (px mouse) (py mouse)
               (draggableAreas (windowData (deref st _data))) dpr) in
  ret {| ww := ww; wh := wh; mouse := mouse; bw := bw; bh := bh; tbh := tbh;
         isInsideWindow := isInsideWindow; dpr := dpr;
         isTitlebar := isTitlebar |}.

(** The four band tests of the branch for a window that is not maximized. *)
Definition isTop (v : HitTestLocals) : bool :=
  isInsideWindow v && (py (mouse v) <? bh v).
Definition isBottom (v : HitTestLocals) : bool :=
  isInsideWindow v && (wh v - bh v <? py (mouse v)).
Definition isLeft (v : HitTestLocals) : bool :=
  isInsideWindow v && (px (mouse v) <? bw v).
Definition isRight (v : HitTestLocals) : bool :=
  isInsideWindow v && (ww v - bw v <? px (mouse v)).

(** The statements of [getHTResult] from [if (IsMaximized(_hWnd))] on. *)
Definition getHTResult_resolve (os : Os) (_hWnd : HWND) (v : HitTestLocals) : Z :=
  if IsMaximized os _hWnd then
    if isTitlebar v then HTCAPTION else HTCLIENT
  else if isTop v then
    if isLeft v then HTTOPLEFT
    else if isRight v then HTTOPRIGHT
    else HTTOP
  else if isBottom v then
    if isLeft v then HTBOTTOMLEFT
    else if isRight v then HTBOTTOMRIGHT
    else HTBOTTOM
  else if isLeft v then HTLEFT
  else if isRight v then HTRIGHT
  else if isTitlebar v then HTCAPTION
  else HTCLIENT.

Definition getHTResult (os : Os) (_hWnd : HWND) (_lParam : Z)
    (_data : LPWINDOW) : M Z :=
  v <- getHTResult_locals os _hWnd _lParam _data ;;
  ret (getHTResult_resolve os _hWnd v).

(** *** Frame query ([WM_NCCALCSIZE]) *)

(** The body of [case WM_NCCALCSIZE] as a function of [rgrc[0]]. *)
Definition ncCalcSize (os : Os) (hwnd : HWND) (wParam : Z) (rgrc0 : RECT) : RECT :=
  if to_BOOL wParam then
    if IsMaximized os hwnd then
      let monitor := MonitorFromWindow os hwnd in
      if negb (monitor =? nullptr) then
        let rgrc0 := rcWork os monitor in
        if EqualRect rgrc0 (rcMonitor os monitor) then
          let taskbarState := ABM_GETSTATE os in
          if negb (Z.land taskbarState ABS_AUTOHIDE =? 0) then
            let abd_hWnd := FindWindow_Shell_TrayWnd os in
            let edge :=
              if negb (abd_hWnd =? nullptr) then
                let taskbarMonitor := MonitorFromWindow os abd_hWnd in
                if negb (taskbarMonitor =? nullptr) && (taskbarMonitor =? monitor)
                then ABM_GETTASKBARPOS_uEdge os
                else -1
              else -1 in
            if edge =? ABE_BOTTOM then
              {| left := left rgrc0; top := top rgrc0;
                 right := right rgrc0; bottom := bottom rgrc0 - 1 |}
            else if edge =? ABE_LEFT then
              {| left := left rgrc0 + 1; top := top rgrc0;
                 right := right rgrc0; bottom := bottom rgrc0 |}
            else if edge =? ABE_TOP then
              {| left := left rgrc0; top := top rgrc0 + 1;
                 right := right rgrc0; bottom := bottom rgrc0 |}
            else if edge =? ABE_RIGHT then
              {| left := left rgrc0; top := top rgrc0;
                 right := right rgrc0 - 1; bottom := bottom rgrc0 |}
            else rgrc0
          else rgrc0
        else rgrc0
      else rgrc0
    else rgrc0
  else rgrc0.

(** *** Minimum and maximum size ([WM_GETMINMAXINFO]) *)

(** The assignments to [mmi] once a monitor has been found. *)
Definition getMinMaxInfo (os : Os) (st : State) (hwnd : HWND) (data : LPWINDOW)
    (monitor : HMONITOR) (mmi : MINMAXINFO) : MINMAXINFO :=
  let rcWorkArea := rcWork os monitor in
  let rcMonitorArea := rcMonitor os monitor in
  let maxPosition :=
    if current_gt os Windows7 then
      {| px := Z.abs (left rcWorkArea - left rcMonitorArea);
         py := Z.abs (top rcWorkArea - top rcMonitorArea) |}
    else {| px := left rcMonitorArea; py := top rcMonitorArea |} in
  let maxSize :=
    {| px := Z.abs (right rcWorkArea - left rcWorkArea);
       py := Z.abs (bottom rcWorkArea - top rcWorkArea) |} in
  let minSize := minimumSize (windowData (deref st data)) in
  {| ptMaxSize := maxSize;
     ptMaxPosition := maxPosition;
     ptMinTrackSize :=
       if negb (isEmpty minSize) then
         {| px := scaled (wd minSize) (getDprForWindow os st hwnd);
            py := scaled (ht minSize) (getDprForWindow os st hwnd) |}
       else ptMinTrackSize mmi;
     ptMaxTrackSize := maxSize |}.

(** *** The filter *)

(** What [lParam] points to, for the messages whose [lParam] is a pointer:
    - [CreateParams]: the [lpCreateParams] of a [CREATESTRUCTW], as the
      record it points to ([None] for a null pointer);
    - [Rgrc0]: the first rectangle of [NCCALCSIZE_PARAMS];
    - [MinMaxInfo]: a [MINMAXINFO]. *)
Inductive LParamTarget :=
| NoTarget
| CreateParams (userData : option WINDOW)
| Rgrc0 (r : RECT)
| MinMaxInfo (mmi : MINMAXINFO).

Record MSG := {
  hwnd : HWND;
  message : Z;
  wParam : Z;
  lParam : Z;
  target : LParamTarget }.

(** The value returned by the filter, [*result] when it was written, and the
    structure behind [lParam] after the call. *)
Record Outcome := {
  handled : bool;
  result : option Z;
  target' : LParamTarget }.

Definition skipped (msg : MSG) : Outcome :=
  {| handled := false; result := None; target' := target msg |}.

Definition done_with (msg : MSG) (r : Z) : Outcome :=
  {| handled := true; result := Some r; target' := target msg |}.

(** The test on [m_framelessWindows] at the head of the filter: the message
    goes on to the frameless handling exactly when this holds. *)
Definition isFramelessMessage (os : Os) (st : State) (msg : MSG) : bool :=
  if bool_decide (m_framelessWindows st = []) then
    existsb
      (fun window =>
         match platformWindow window with
         | Some winId => hwnd msg =? winId
         | None => false
         end)
      (topLevelWindows os)
  else bool_decide (hwnd msg ∈ m_framelessWindows st).

(** The statements of the filter from [createUserData(msg->hwnd)] on: the
    lazy initialisation and the [switch] on the message. *)
Definition framelessHandling (os : Os) (msg : MSG) : M Outcome :=
  createUserData (hwnd msg) None ;;
  let data : LPWINDOW := hwnd msg in
  st <- get ;;
  when (negb (inited (deref st data))) (init os data) ;;
  let m := message msg in
  if m =? WM_NCCREATE then
    match target msg with
    | CreateParams p =>
        update (fun st =>
          set_userData
            (match p with
             | Some w => <[hwnd msg := w]> (userData st)
             | None => delete (hwnd msg) (userData st)
             end) st) ;;
        ret (skipped msg)
    | _ => ret (skipped msg)
    end
  else if m =? WM_NCCALCSIZE then
    ret {| handled := true; result := Some 0;
           target' :=
             match target msg with
             | Rgrc0 r => Rgrc0 (ncCalcSize os (hwnd msg) (wParam msg) r)
             | t => t
             end |}
  else if m =? WM_DWMCOMPOSITIONCHANGED then
    handleDwmCompositionChanged os data ;;
    ret (done_with msg 0)
  else if (m =? WM_NCUAHDRAWCAPTION) || (m =? WM_NCUAHDRAWFRAME) then
    ret (done_with msg 0)
  else if m =? WM_NCPAINT then
    st <- get ;;
    if dwmCompositionEnabled (deref st data) then ret (skipped msg)
    else ret (done_with msg 0)
  else if m =? WM_NCACTIVATE then
    update (call (DefWindowProc_called (hwnd msg) m (wParam msg) (-1))) ;;
    ret (done_with msg (DefWindowProcW os (hwnd msg) m (wParam msg) (-1)))
  else if m =? WM_NCHITTEST then
    r <- getHTResult os (hwnd msg) (lParam msg) data ;;
    ret (done_with msg r)
  else if m =? WM_GETMINMAXINFO then
    let monitor := MonitorFromWindow os (hwnd msg) in
    if negb (monitor =? nullptr) then
      st <- get ;;
      ret {| handled := true; result := Some 0;
             target' :=
               match target msg with
               | MinMaxInfo mmi =>
                   MinMaxInfo
                     (getMinMaxInfo os st (hwnd msg) data monitor mmi)
               | t => t
               end |}
    else ret (skipped msg)
  else if (m =? WM_SETICON) || (m =? WM_SETTEXT) then
    st <- get ;;
    if negb (dwmCompositionEnabled (deref st data))
       && negb (themeEnabled (deref st data))
    then
      let oldStyle := GetWindowLongPtr_STYLE os (hwnd msg) in
      update (call (SetWindowLongPtr_STYLE (hwnd msg)
                      (Z.land oldStyle (Z.lnot WS_VISIBLE)))) ;;
      update (call (DefWindowProc_called (hwnd msg) m (wParam msg)
                      (lParam msg))) ;;
      update (call (SetWindowLongPtr_STYLE (hwnd msg) oldStyle)) ;;
      ret (done_with msg
             (DefWindowProcW os (hwnd msg) m (wParam msg) (lParam msg)))
    else ret (skipped msg)
  else if m =? WM_THEMECHANGED then
    handleThemeChanged os data ;;
    ret (skipped msg)
  else if m =? WM_WINDOWPOSCHANGED then
    update (call (InvalidateRect (hwnd msg))) ;;
    ret (skipped msg)
  else if m =? WM_DPICHANGED then
    updateWindow (hwnd msg) ;;
    ret (skipped msg)
  else ret (skipped msg).

Definition nativeEventFilter (os : Os) (msg : MSG) : M Outcome :=
  if hwnd msg =? nullptr then ret (skipped msg)
  else
    st <- get ;;
    if negb (isFramelessMessage os st msg) then ret (skipped msg)
    else framelessHandling os msg.

End WinNativeEventFilter.

(** ** The toolkit-event fallback (framelesshelper_qt.cpp) *)

Module FramelessHelperQt.

Abbreviation WId := Z (only parsing).

Definition FramelessWindowHint : Z := 2048.

Section WithParameters.

(** [UserSettings] and [SystemParameters] are declared in headers that are
    not part of the sources at hand; the members that [addWindow] uses are
    taken as parameters.  [QWindowPtr] stands for [QWindow *].  The build is
    one without [Q_OS_MACOS] and without assertions. *)
Context {UserSettings SystemParameters QWindowPtr : Type}.
Variable isValid : SystemParameters -> bool.
Variable getWindowId : SystemParameters -> WId.
Variable getWindowHandle : SystemParameters -> QWindowPtr.
Variable getWindowFlags : SystemParameters -> Z.

Record QtHelperData := {
  settings : UserSettings;
  params : SystemParameters;
  (** the [FramelessHelperQt] object, named by its allocation number *)
  eventFilter : nat }.

Inductive QtCall :=
| setWindowFlags (p : SystemParameters) (flags : Z)
| installEventFilter (window : QWindowPtr) (filter : nat).

(** [g_qtHelper]: the table, the number of event filters allocated so far and
    the calls made on windows.  The mutex is held only around the accesses
    to the table and is released on every path. *)
Record QtHelper := {
  data : gmap WId QtHelperData;
  allocated : nat;
  qtCalls : list QtCall }.

Definition addWindow (settings : UserSettings) (params : SystemParameters)
    (g_qtHelper : QtHelper) : QtHelper :=
  if negb (isValid params) then g_qtHelper
  else
    let windowId := getWindowId params in
    match data g_qtHelper !! windowId with
    | Some _ => g_qtHelper
    | None =>
        let window := getWindowHandle params in
        let data_ :=
          {| settings := settings; params := params;
             eventFilter := allocated g_qtHelper |} in
        {| data := <[windowId := data_]> (data g_qtHelper);
           allocated := S (allocated g_qtHelper);
           qtCalls :=
             qtCalls g_qtHelper
             ++ [setWindowFlags params
                   (Z.lor (getWindowFlags params) FramelessWindowHint);
                 installEventFilter window (eventFilter data_)] |}
    end.

End WithParameters.

End FramelessHelperQt.

(** ** The list of managed window ids (framelessmanager.cpp) *)

Module FramelessManagerPrivate.

Abbreviation WId := Z (only parsing).

Section WithParameters.

(** [QWindowPtr] stands for a non-null [QWindow *] and [FramelessParams] for
    [const SystemParameters *]; [appliedWinId] is
    [FramelessHelperQt::appliedWinId], whose definition is not part of the
    sources at hand; [pureQt] is the cached [usePureQtImplementation()] and
    [Q_OS_WINDOWS] tells whether the Windows branches are compiled in. *)
Context {QWindowPtr FramelessParams : Type}.
Variable winId : QWindowPtr -> WId.
Variable appliedWinId : QWindowPtr -> WId.
Variable getWindowId : FramelessParams -> WId.
Variable pureQt : bool.
Variable Q_OS_WINDOWS : bool.

(** Calls into the helpers of the two implementations. *)
Inductive HelperCall :=
| FramelessHelperQt_addWindow (params : FramelessParams)
| FramelessHelperWin_addWindow (params : FramelessParams)
| installSystemMenuHook (windowId : WId) (params : FramelessParams)
| FramelessHelperQt_removeWindow (window : QWindowPtr)
| FramelessHelperWin_removeWindow (windowId : WId)
| uninstallSystemMenuHook (windowId : WId).

(** [g_helper] and the calls made so far. *)
Record FramelessManagerHelper := {
  windowIds : list WId;
  helperCalls : list HelperCall }.

Definition addWindow (params : option FramelessParams)
    (g_helper : FramelessManagerHelper) : FramelessManagerHelper :=
  match params with
  | None => g_helper
  | Some params =>
      let windowId := getWindowId params in
      if bool_decide (windowId ∈ windowIds g_helper) then g_helper
      else
        {| windowIds := windowIds g_helper ++ [windowId];
           helperCalls :=
             helperCalls g_helper
             ++ (if pureQt then [FramelessHelperQt_addWindow params] else [])
             ++ (if Q_OS_WINDOWS then
                   (if negb pureQt then [FramelessHelperWin_addWindow params]
                    else [])
                   ++ [installSystemMenuHook windowId params]
                 else []) |}
  end.

Definition removeWindow (window : option QWindowPtr)
    (g_helper : FramelessManagerHelper) : FramelessManagerHelper :=
  match window with
  | None => g_helper
  | Some window =>
      let remove (windowId : WId) :=
        {| windowIds := filter (fun w => w ≠ windowId) (windowIds g_helper);
           helperCalls :=
             helperCalls g_helper
             ++ (if pureQt then [FramelessHelperQt_removeWindow window] else [])
             ++ (if Q_OS_WINDOWS then
                   (if negb pureQt then [FramelessHelperWin_removeWindow windowId]
                    else [])
                   ++ [uninstallSystemMenuHook windowId]
                 else []) |} in
      let windowId := winId window in
      if negb (bool_decide (windowId ∈ windowIds g_helper)) then
        let windowId := appliedWinId window in
        if windowId =? 0 then g_helper else remove windowId
      else remove windowId
  end.

End WithParameters.

End FramelessManagerPrivate.

(** ** The properties, in the words of the specification *)

Module Spec.
Import Qt Win32 WinNativeEventFilter.

(** *** Areas *)

(** A rectangle of [ignoreAreas] or [draggableAreas] after scaling. *)
Definition scaledArea (area : QRect) (dpr : qreal) : QRect :=
  mkQRect (scaled (Qt.x area) dpr) (scaled (Qt.y area) dpr)
          (scaled (width area) dpr) (scaled (height area) dpr).

(** The point lies inside the scaled rectangle; a rectangle that is not
    valid contains no point. *)
Definition insideScaledArea (x y : Z) (dpr : qreal) (area : QRect) : Prop :=
  isValid area = true /\ contains (scaledArea area dpr) x y true = true.

Definition insideSomeArea (x y : Z) (areas : list QRect) (dpr : qreal) : Prop :=
  Exists (insideScaledArea x y dpr) areas.

(** *** Resolution of the bands *)

(** Corners first, in the order top-left, top-right, bottom-left,
    bottom-right; then the edges top, bottom, left, right; then the title
    bar; else the client area. *)
Definition edge_priority (top bottom left right titlebar : bool) : Z :=
  if top && left then HTTOPLEFT
  else if top && right then HTTOPRIGHT
  else if bottom && left then HTBOTTOMLEFT
  else if bottom && right then HTBOTTOMRIGHT
  else if top then HTTOP
  else if bottom then HTBOTTOM
  else if left then HTLEFT
  else if right then HTRIGHT
  else if titlebar then HTCAPTION
  else HTCLIENT.

Definition is_edge_or_corner (r : Z) : Prop :=
  r = HTLEFT \/ r = HTRIGHT \/ r = HTTOP \/ r = HTBOTTOM \/
  r = HTTOPLEFT \/ r = HTTOPRIGHT \/ r = HTBOTTOMLEFT \/ r = HTBOTTOMRIGHT.

(** *** Scale factor *)

(** [r] is [d] adjusted by the rounding policy. *)
Definition adjusted (policy : HighDpiScaleFactorRoundingPolicy) (d r : Q) : Prop :=
  match policy with
  | PassThrough => (r == d)%Q
  | Floor => exists n : Z, r = inject_Z n /\ (inject_Z n <= d < inject_Z n + 1)%Q
  | Ceil => exists n : Z, r = inject_Z n /\ (inject_Z n - 1 < d <= inject_Z n)%Q
  | _ =>
      exists n : Z,
        r = inject_Z n
        /\ (inject_Z n - (1 # 2) <= d < inject_Z n + (1 # 2))%Q
  end.

(** *** DPI tiers *)

Inductive DpiTier :=
| PerWindow | PerProcess | PerSystem | PerMonitor | ScreenFallback | Baseline.

(** The answer of a tier, [None] when the tier is not available.  The screen
    fallback asks Direct2D for the desktop DPI and, without a factory, the
    device context of the screen. *)
Definition tier_answer (os : Os) (st : State) (handle : HWND) (t : DpiTier)
    : option Z :=
  match t with
  | PerWindow => (fun f => f handle) <$> m_GetDpiForWindow (caps st)
  | PerProcess =>
      (fun f => f GetCurrentProcess) <$> m_GetSystemDpiForProcess (caps st)
  | PerSystem => m_GetDpiForSystem (caps st)
  | PerMonitor =>
      (fun f => default USER_DEFAULT_SCREEN_DPI (f (MonitorFromWindow os handle)))
        <$> m_GetDpiForMonitor (caps st)
  | ScreenFallback =>
      match D2D1_GetDesktopDpi os, GetDeviceCaps_LOGPIXELS os with
      | Some dpiX, _ => Some (to_int dpiX)
      | None, Some (dpiX, dpiY) => Some (if dpiX =? dpiY then dpiY else dpiX)
      | None, None => None
      end
  | Baseline => Some USER_DEFAULT_SCREEN_DPI
  end.

(** The answer of the first available tier of [order], as a [UINT]. *)
Fixpoint first_available (os : Os) (st : State) (handle : HWND)
    (order : list DpiTier) : Z :=
  match order with
  | [] => to_UINT USER_DEFAULT_SCREEN_DPI
  | t :: rest =>
      match tier_answer os st handle t with
      | Some dpi => to_UINT dpi
      | None => first_available os st handle rest
      end
  end.

Definition claimed_order : list DpiTier :=
  [PerWindow; PerProcess; PerSystem; PerMonitor; ScreenFallback; Baseline].

Definition order_for (handle : HWND) : list DpiTier :=
  if handle =? nullptr then [PerProcess; PerSystem; ScreenFallback; Baseline]
  else [PerWindow; PerMonitor; ScreenFallback; Baseline].

(** *** Frame query *)

(** One pixel taken off the side [edge] of a rectangle. *)
Definition trim (edge : Z) (r : RECT) : RECT :=
  if edge =? ABE_BOTTOM then
    {| left := left r; top := top r; right := right r; bottom := bottom r - 1 |}
  else if edge =? ABE_LEFT then
    {| left := left r + 1; top := top r; right := right r; bottom := bottom r |}
  else if edge =? ABE_TOP then
    {| left := left r; top := top r + 1; right := right r; bottom := bottom r |}
  else if edge =? ABE_RIGHT then
    {| left := left r; top := top r; right := right r - 1; bottom := bottom r |}
  else r.

(** An auto-hiding taskbar sits on [monitor]. *)
Definition autoHideTaskbarOn (os : Os) (monitor : HMONITOR) : bool :=
  Z.testbit (ABM_GETSTATE os) 0
  && negb (FindWindow_Shell_TrayWnd os =? nullptr)
  && negb (MonitorFromWindow os (FindWindow_Shell_TrayWnd os) =? nullptr)
  && (MonitorFromWindow os (FindWindow_Shell_TrayWnd os) =? monitor).

(** The client rectangle reported for a frame query. *)
Definition frame_rect (os : Os) (hwnd : HWND) (wParam : Z) (proposed : RECT)
    : RECT :=
  let monitor := MonitorFromWindow os hwnd in
  if to_BOOL wParam && IsMaximized os hwnd && negb (monitor =? nullptr) then
    if EqualRect (rcWork os monitor) (rcMonitor os monitor)
       && autoHideTaskbarOn os monitor
    then trim (ABM_GETTASKBARPOS_uEdge os) (rcWork os monitor)
    else rcWork os monitor
  else proposed.

(** The client rectangle as the claim words it: replaced for every frame
    query of a maximized window. *)
Definition claimed_frame_rect (os : Os) (hwnd : HWND) (proposed : RECT) : RECT :=
  let monitor := MonitorFromWindow os hwnd in
  if IsMaximized os hwnd then
    if EqualRect (rcWork os monitor) (rcMonitor os monitor)
       && autoHideTaskbarOn os monitor
    then trim (ABM_GETTASKBARPOS_uEdge os) (rcWork os monitor)
    else rcWork os monitor
  else proposed.

(** *** The one-time setup *)

(** The window has its record and [init] has run on it. *)
Definition ready (h : HWND) (st : State) : Prop :=
  exists w, userData st !! h = Some w /\ inited w = true.

(** A computation keeps a property of the state. *)
Definition preserves {A} (P : State -> Prop) (m : M A) : Prop :=
  forall st, P st -> P (snd (m st)).

(** *** States that the queries cannot tell apart *)

(** Two states with the same function pointers and the same window records
    behind every pointer. *)
Definition same_view (st st' : State) : Prop :=
  caps st' = caps st /\ forall p, deref st' p = deref st p.

End Spec.

(** ** A concrete window *)

(** The scenario of the specification: a window of client size 800 x 600 on
    a 1920 x 1080 monitor at 96 DPI, with a border of 8 and a title bar of 32
    logical pixels. *)
Module Scenario.
Import Qt Win32 WinNativeEventFilter.

Definition screen : RECT := {| left := 0; top := 0; right := 1920; bottom := 1080 |}.

Definition os (maximized : bool) (work : RECT) : Os :=
  {| highDpiScaleFactorRoundingPolicy := Round;
     versionCompare := fun _ => Gt;
     resolve := no_Caps;
     topLevelWindows := [ {| platformWindow := None |};
                          {| platformWindow := Some 7 |} ];
     MonitorFromWindow := fun _ => 1;
     rcMonitor := fun _ => screen;
     rcWork := fun _ => work;
     D2D1_GetDesktopDpi := None;
     GetDeviceCaps_LOGPIXELS := Some (96, 96);
     GetSystemMetrics := fun _ => 4;
     GetClientRect :=
       fun _ => {| left := 0; top := 0; right := 800; bottom := 600 |};
     ScreenToClient := fun _ p => p;
     IsMaximized := fun _ => maximized;
     ABM_GETSTATE := ABS_AUTOHIDE;
     FindWindow_Shell_TrayWnd := 99;
     ABM_GETTASKBARPOS_uEdge := ABE_BOTTOM;
     DwmIsCompositionEnabled := true;
     IsThemeActive := true;
     GetWindowLongPtr_STYLE := fun _ => 0;
     DefWindowProcW := fun _ _ _ _ => 0 |}.

Definition settings (ignore draggable : list QRect) : WINDOWDATA :=
  {| blurEnabled := false; borderWidth_ := 8; borderHeight_ := 8;
     titlebarHeight_ := 32; ignoreAreas := ignore;
     draggableAreas := draggable; minimumSize := {| wd := 0; ht := 0 |} |}.

(** The state after [addFramelessWindow(7, &settings)]. *)
Definition registered (ignore draggable : list QRect) : State :=
  snd (addFramelessWindow (os false screen) 7
         (Some (settings ignore draggable)) initial_State).

(** The [lParam] of a [WM_NCHITTEST] at [(x, y)]. *)
Definition at_point (x y : Z) : Z := Z.lor (Z.shiftl y 16) x.

Definition hit (maximized : bool) (ignore : list QRect) (x y : Z) : option Z :=
  result
    (fst (nativeEventFilter (os maximized screen)
            {| hwnd := 7; message := WM_NCHITTEST; wParam := 0;
               lParam := at_point x y; target := NoTarget |}
            (registered ignore []))).

(** Capabilities as on a system that only has the per-monitor and the
    per-system query. *)
Definition caps_system_and_monitor : Caps :=
  {| m_GetSystemDpiForProcess := None;
     m_GetDpiForWindow := None;
     m_GetDpiForSystem := Some 96;
     m_GetSystemMetricsForDpi := None;
     m_GetDpiForMonitor := Some (fun _ => Some 144);
     m_SetWindowCompositionAttribute := false |}.

End Scenario.

(** ** Access to the settings of a window (winnativeeventfilter.cpp) *)

Module WinNativeEventFilterData.
Import Qt Win32 WinNativeEventFilter.
Local Open Scope filter_scope.

(** [WinNativeEventFilter::windowData]: the address of the settings inside
    the record of the window, given as the pointer to the record, or
    [None] for [nullptr]. *)
Definition windowData (window : HWND) : M (option LPWINDOW) :=
  if negb (window =? nullptr) then
    createUserData window None ;;
    ret (Some window)
  else ret None.

End WinNativeEventFilterData.

(** ** Mouse events of the toolkit-event fallback (framelesshelper_qt.cpp) *)

Module FramelessHelperQtEvent.
Import FramelessHelperQt.

Inductive QEventType := MouseButtonPress | MouseMove | OtherEvent.
Inductive MouseButton := LeftButton | OtherButton.

Section WithParameters.

(** The helpers of [Utils], the members of [UserSettings] and
    [SystemParameters] and the Qt types are not part of the sources at hand
    and are parameters: [DontTouchCursorShape s] is
    [s.options & Option::DontTouchCursorShape], [noEdges] is [Qt::Edges{}]. *)
Context {UserSettings SystemParameters QWindowPtr QPoint : Type}.
Context {CursorShape Edges : Type}.
Context `{EqDecision CursorShape} `{EqDecision Edges}.
Variable DontTouchCursorShape : UserSettings -> bool.
Variable isWindowFixedSize : SystemParameters -> bool.
Variable ArrowCursor : CursorShape.
Variable noEdges : Edges.
Variable calculateCursorShape : QWindowPtr -> QPoint -> CursorShape.
Variable calculateWindowEdges : QWindowPtr -> QPoint -> Edges.
Variable winId : QWindowPtr -> WId.

(** A [QObject]: a window or something else ([isWindowType()]). *)
Inductive QObject :=
| Window (window : QWindowPtr)
| NotWindow.

(** A [QEvent], with the members of a [QMouseEvent] and the answer of
    [Utils::isThemeChangeEvent]. *)
Record QEvent := {
  isThemeChangeEvent : bool;
  type : QEventType;
  button : MouseButton;
  scenePos : QPoint;
  globalPos : QPoint }.

Inductive FilterCall :=
| notifySystemThemeHasChangedOrNot
| unsetCursor (window : QWindowPtr)
| setCursor (window : QWindowPtr) (cs : CursorShape)
| startSystemResize (window : QWindowPtr) (edges : Edges) (globalPos : QPoint).

(** [FramelessHelperQt::eventFilter]: the value returned and the calls made.
    The table is only read. *)
Definition eventFilter
    (g_qtHelper : QtHelper (UserSettings := UserSettings)
                    (SystemParameters := SystemParameters)
                    (QWindowPtr := QWindowPtr))
    (object : option QObject) (event : option QEvent)
    : bool * list FilterCall :=
  match object, event with
  | Some object, Some event =>
      if isThemeChangeEvent event then (false, [notifySystemThemeHasChangedOrNot])
      else
        match object with
        | NotWindow => (false, [])
        | Window window =>
            match type event with
            | OtherEvent => (false, [])
            | type =>
                let windowId := winId window in
                match data g_qtHelper !! windowId with
                | None => (false, [])
                | Some data =>
                    if isWindowFixedSize (params data) then (false, [])
                    else
                      match type with
                      | MouseMove =>
                          if DontTouchCursorShape (settings data) then (false, [])
                          else
                            let cs := calculateCursorShape window (scenePos event) in
                            if bool_decide (cs = ArrowCursor)
                            then (false, [unsetCursor window])
                            else (false, [setCursor window cs])
                      | MouseButtonPress =>
                          match button event with
                          | LeftButton =>
                              let edges :=
                                calculateWindowEdges window (scenePos event) in
                              if bool_decide (edges = noEdges) then (false, [])
                              else (true, [startSystemResize window edges
                                             (globalPos event)])
                          | OtherButton => (false, [])
                          end
                      | OtherEvent => (false, [])
                      end
                end
            end
        end
  | _, _ => (false, [])
  end.

End WithParameters.

End FramelessHelperQtEvent.

(** ** System theme and wallpaper (framelessmanager.cpp) *)

Module FramelessManagerTheme.

Inductive Signal := systemThemeChanged | wallpaperChanged.

Section WithParameters.

(** The types of the theme, the colors and the wallpaper are declared in
    headers that are not part of the sources at hand; all that is used of
    them is their equality and the value [SystemTheme::Unknown].
    [Q_OS_WINDOWS] tells whether the Windows branches are compiled in, and
    [version] is [FramelessHelper::Core::version().version]. *)
Context {SystemTheme QColor DwmColorizationArea QString : Type}.
Context {WallpaperAspectStyle : Type}.
Context `{EqDecision SystemTheme} `{EqDecision QColor}.
Context `{EqDecision DwmColorizationArea} `{EqDecision QString}.
Context `{EqDecision WallpaperAspectStyle}.
Variable Unknown : SystemTheme.
Variable Q_OS_WINDOWS : bool.
Variable version : Z.

(** What the functions of [Utils] answer at the time of the call. *)
Record Utils := {
  getSystemTheme : SystemTheme;
  getDwmColorizationArea : DwmColorizationArea;
  getAccentColor : QColor;
  getWallpaperFilePath : QString;
  getWallpaperAspectStyle : WallpaperAspectStyle }.

(** The members of [FramelessManagerPrivate], the signals emitted so far,
    and the static flag of [initialize] with the value written to the
    environment and to the application property. *)
Record FramelessManagerPrivate := {
  m_systemTheme : SystemTheme;
  m_overrideTheme : option SystemTheme;
  m_accentColor : QColor;
  m_colorizationArea : DwmColorizationArea;
  m_wallpaper : QString;
  m_wallpaperAspectStyle : WallpaperAspectStyle;
  emitted : list Signal;
  flagSet : bool;
  globalFlag : list Z }.

Definition isThemeOverrided (d : FramelessManagerPrivate) : bool :=
  negb (bool_decide (default Unknown (m_overrideTheme d) = Unknown)).

Definition systemTheme (d : FramelessManagerPrivate) : SystemTheme :=
  if isThemeOverrided d then default Unknown (m_overrideTheme d)
  else m_systemTheme d.

Definition systemAccentColor (d : FramelessManagerPrivate) : QColor :=
  m_accentColor d.

Definition wallpaper (d : FramelessManagerPrivate) : QString := m_wallpaper d.

Definition wallpaperAspectStyle (d : FramelessManagerPrivate)
    : WallpaperAspectStyle :=
  m_wallpaperAspectStyle d.

Definition emit (s : Signal) (d : FramelessManagerPrivate)
    : FramelessManagerPrivate :=
  {| m_systemTheme := m_systemTheme d; m_overrideTheme := m_overrideTheme d;
     m_accentColor := m_accentColor d;
     m_colorizationArea := m_colorizationArea d;
     m_wallpaper := m_wallpaper d;
     m_wallpaperAspectStyle := m_wallpaperAspectStyle d;
     emitted := emitted d ++ [s];
     flagSet := flagSet d; globalFlag := globalFlag d |}.

Definition set_overrideTheme (o : option SystemTheme)
    (d : FramelessManagerPrivate) : FramelessManagerPrivate :=
  {| m_systemTheme := m_systemTheme d; m_overrideTheme := o;
     m_accentColor := m_accentColor d;
     m_colorizationArea := m_colorizationArea d;
     m_wallpaper := m_wallpaper d;
     m_wallpaperAspectStyle := m_wallpaperAspectStyle d;
     emitted := emitted d;
     flagSet := flagSet d; globalFlag := globalFlag d |}.

Definition setOverrideTheme (theme : SystemTheme)
    (d : FramelessManagerPrivate) : FramelessManagerPrivate :=
  if bool_decide (systemTheme d = theme) then d
  else
    emit systemThemeChanged
      (set_overrideTheme
         (if bool_decide (theme = Unknown) then None else Some theme) d).

Definition notifySystemThemeHasChangedOrNot (utils : Utils)
    (d : FramelessManagerPrivate) : FramelessManagerPrivate :=
  let currentSystemTheme := getSystemTheme utils in
  let currentColorizationArea := getDwmColorizationArea utils in
  let currentAccentColor := getAccentColor utils in
  let changedTheme := negb (bool_decide (m_systemTheme d = currentSystemTheme)) in
  let changedColor := negb (bool_decide (m_accentColor d = currentAccentColor)) in
  let changedArea :=
    Q_OS_WINDOWS
    && negb (bool_decide (m_colorizationArea d = currentColorizationArea)) in
  let notify := changedTheme || changedColor || changedArea in
  let d' :=
    {| m_systemTheme :=
         if changedTheme then currentSystemTheme else m_systemTheme d;
       m_overrideTheme := m_overrideTheme d;
       m_accentColor :=
         if changedColor then currentAccentColor else m_accentColor d;
       m_colorizationArea :=
         if changedArea then currentColorizationArea else m_colorizationArea d;
       m_wallpaper := m_wallpaper d;
       m_wallpaperAspectStyle := m_wallpaperAspectStyle d;
       emitted := emitted d;
       flagSet := flagSet d; globalFlag := globalFlag d |} in
  if notify && negb (isThemeOverrided d') then emit systemThemeChanged d'
  else d'.

Definition notifyWallpaperHasChangedOrNot (utils : Utils)
    (d : FramelessManagerPrivate) : FramelessManagerPrivate :=
  let currentWallpaper := getWallpaperFilePath utils in
  let currentWallpaperAspectStyle := getWallpaperAspectStyle utils in
  let changedPath := negb (bool_decide (m_wallpaper d = currentWallpaper)) in
  let changedStyle :=
    negb (bool_decide (m_wallpaperAspectStyle d = currentWallpaperAspectStyle)) in
  let d' :=
    {| m_systemTheme := m_systemTheme d;
       m_overrideTheme := m_overrideTheme d;
       m_accentColor := m_accentColor d;
       m_colorizationArea := m_colorizationArea d;
       m_wallpaper := if changedPath then currentWallpaper else m_wallpaper d;
       m_wallpaperAspectStyle :=
         if changedStyle then currentWallpaperAspectStyle
         else m_wallpaperAspectStyle d;
       emitted := emitted d;
       flagSet := flagSet d; globalFlag := globalFlag d |} in
  if changedPath || changedStyle then emit wallpaperChanged d' else d'.

(** [initialize], without its debug output and without the connection to
    the style hints of Qt 6.5. *)
Definition initialize (utils : Utils) (d : FramelessManagerPrivate)
    : FramelessManagerPrivate :=
  {| m_systemTheme := getSystemTheme utils;
     m_overrideTheme := m_overrideTheme d;
     m_accentColor := getAccentColor utils;
     m_colorizationArea :=
       if Q_OS_WINDOWS then getDwmColorizationArea utils
       else m_colorizationArea d;
     m_wallpaper := getWallpaperFilePath utils;
     m_wallpaperAspectStyle := getWallpaperAspectStyle utils;
     emitted := emitted d;
     flagSet := true;
     globalFlag :=
       if flagSet d then globalFlag d else globalFlag d ++ [version] |}.

End WithParameters.

End FramelessManagerTheme.

(** ** Start-up of the library (framelesswindowsmanager.cpp) *)

Module FramelessHelperCore.
Import Qt.

(** The flags of [Global::Option] that [initialize] looks at. *)
Inductive Option_ :=
| DontTouchProcessDpiAwarenessLevel
| DontEnsureNonNativeWidgetSiblings
| DontTouchHighDpiScalingPolicy
| DontTouchScaleFactorRoundingPolicy.

Inductive ApplicationAttribute :=
| AA_DontCreateNativeWidgetSiblings
| AA_EnableHighDpiScaling
| AA_UseHighDpiPixmaps.

Inductive MetaType :=
| MT_Option | MT_SystemTheme | MT_SystemButtonType | MT_ResourceType
| MT_DwmColorizationArea | MT_Anchor | MT_ButtonState | MT_UserSettings
| MT_SystemParameters.

Inductive InitCall :=
| tryToEnableHighestDpiAwarenessLevel
| setAttribute (a : ApplicationAttribute)
| qRegisterMetaType (t : MetaType)
| qRegisterMetaType_named (t : MetaType).

Definition metaTypes : list MetaType :=
  [MT_Option; MT_SystemTheme; MT_SystemButtonType; MT_ResourceType;
   MT_DwmColorizationArea; MT_Anchor; MT_ButtonState; MT_UserSettings;
   MT_SystemParameters].

(** The static flag of [initialize], the rounding policy of the
    application and the calls made. *)
Record Application := {
  inited : bool;
  roundingPolicy : HighDpiScaleFactorRoundingPolicy;
  initCalls : list InitCall }.

Section WithParameters.

(** [has options o] is [options & Option::o]; [Q_OS_WINDOWS] and [Qt6] tell
    which branches are compiled in (the Qt version is 5.14 or later). *)
Context {Options : Type}.
Variable has : Options -> Option_ -> bool.
Variable Q_OS_WINDOWS : bool.
Variable Qt6 : bool.

Definition initialize (options : Options) (app : Application) : Application :=
  if inited app then app
  else
    {| inited := true;
       roundingPolicy :=
         if negb (has options DontTouchScaleFactorRoundingPolicy) then Round
         else roundingPolicy app;
       initCalls :=
         initCalls app
         ++ (if Q_OS_WINDOWS && negb (has options DontTouchProcessDpiAwarenessLevel)
             then [tryToEnableHighestDpiAwarenessLevel] else [])
         ++ (if negb (has options DontEnsureNonNativeWidgetSiblings)
             then [setAttribute AA_DontCreateNativeWidgetSiblings] else [])
         ++ (if negb Qt6 && negb (has options DontTouchHighDpiScalingPolicy)
             then [setAttribute AA_EnableHighDpiScaling;
                   setAttribute AA_UseHighDpiPixmaps]
             else [])
         ++ map qRegisterMetaType metaTypes
         ++ (if negb Qt6 then map qRegisterMetaType_named metaTypes else []) |}.

End WithParameters.

End FramelessHelperCore.

(** ** Notions used to state further properties of the code *)

Module Properties.
Import Qt Win32 WinNativeEventFilter.

(** The state after some more calls. *)
Definition with_calls (cs : list OsCall) (st : State) : State :=
  {| caps := caps st; instance := instance st;
     m_framelessWindows := m_framelessWindows st;
     userData := userData st; calls := calls st ++ cs |}.

(** The three calls of [updateWindow] on a window, none for [nullptr]. *)
Definition refresh (h : HWND) : list OsCall :=
  if h =? nullptr then []
  else [SetWindowPos_FRAMECHANGED h; SendMessage_WM_SIZE h; UpdateWindow h].

(** A list of frameless windows without [nullptr] and without repetition. *)
Definition well_formed (l : list HWND) : Prop := NoDup l /\ nullptr ∉ l.

(** The same system under another rounding policy. *)
Definition with_policy (p : HighDpiScaleFactorRoundingPolicy) (os : Os) : Os :=
  {| highDpiScaleFactorRoundingPolicy := p;
     versionCompare := versionCompare os;
     resolve := resolve os;
     topLevelWindows := topLevelWindows os;
     MonitorFromWindow := MonitorFromWindow os;
     rcMonitor := rcMonitor os;
     rcWork := rcWork os;
     D2D1_GetDesktopDpi := D2D1_GetDesktopDpi os;
     GetDeviceCaps_LOGPIXELS := GetDeviceCaps_LOGPIXELS os;
     GetSystemMetrics := GetSystemMetrics os;
     GetClientRect := GetClientRect os;
     ScreenToClient := ScreenToClient os;
     IsMaximized := IsMaximized os;
     ABM_GETSTATE := ABM_GETSTATE os;
     FindWindow_Shell_TrayWnd := FindWindow_Shell_TrayWnd os;
     ABM_GETTASKBARPOS_uEdge := ABM_GETTASKBARPOS_uEdge os;
     DwmIsCompositionEnabled := DwmIsCompositionEnabled os;
     IsThemeActive := IsThemeActive os;
     GetWindowLongPtr_STYLE := GetWindowLongPtr_STYLE os;
     DefWindowProcW := DefWindowProcW os |}.

(** The messages the filter answers itself, for a window whose record is
    [w]: the table of the [switch]. *)
Definition consumed (os : Os) (w : WINDOW) (msg : MSG) : bool :=
  let m := message msg in
  (m =? WM_NCCALCSIZE)
  || (m =? WM_DWMCOMPOSITIONCHANGED)
  || (m =? WM_NCUAHDRAWCAPTION)
  || (m =? WM_NCUAHDRAWFRAME)
  || (m =? WM_NCACTIVATE)
  || (m =? WM_NCHITTEST)
  || ((m =? WM_NCPAINT) && negb (dwmCompositionEnabled w))
  || ((m =? WM_GETMINMAXINFO)
      && negb (MonitorFromWindow os (hwnd msg) =? nullptr))
  || (((m =? WM_SETICON) || (m =? WM_SETTEXT))
      && negb (dwmCompositionEnabled w) && negb (themeEnabled w)).

(** A property of the value a computation returns, from every state. *)
Definition returns {A} (Q : A -> Prop) (m : M A) : Prop :=
  forall st, Q (fst (m st)).

(** The calls a computation makes are appended to those made before. *)
Definition appends {A} (m : M A) : Prop :=
  forall st, exists cs, calls (snd (m st)) = calls st ++ cs.

End Properties.

(** ** Further concrete systems *)

Module Samples.
Import Qt Win32 WinNativeEventFilter Properties.

(** The system of the scenario, older than every version the filter asks
    for, where every function can be resolved. *)
Definition all_resolved : Caps :=
  {| m_GetSystemDpiForProcess := Some (fun _ => 120);
     m_GetDpiForWindow := Some (fun _ => 144);
     m_GetDpiForSystem := Some 96;
     m_GetSystemMetricsForDpi := Some (fun index dpi => index + dpi);
     m_GetDpiForMonitor := Some (fun _ => Some 192);
     m_SetWindowCompositionAttribute := true |}.

Definition os_with (version : comparison) (found : Caps) (composition : bool)
    : Os :=
  {| highDpiScaleFactorRoundingPolicy := Round;
     versionCompare := fun _ => version;
     resolve := found;
     topLevelWindows := [ {| platformWindow := Some 7 |};
                          {| platformWindow := Some 8 |} ];
     MonitorFromWindow := fun _ => 1;
     rcMonitor := fun _ => Scenario.screen;
     rcWork :=
       fun _ => {| left := 0; top := 40; right := 1920; bottom := 1080 |};
     D2D1_GetDesktopDpi := None;
     GetDeviceCaps_LOGPIXELS := Some (96, 96);
     GetSystemMetrics := fun _ => 4;
     GetClientRect :=
       fun _ => {| left := 0; top := 0; right := 800; bottom := 600 |};
     ScreenToClient := fun _ p => p;
     IsMaximized := fun _ => false;
     ABM_GETSTATE := 0;
     FindWindow_Shell_TrayWnd := 99;
     ABM_GETTASKBARPOS_uEdge := ABE_TOP;
     DwmIsCompositionEnabled := composition;
     IsThemeActive := composition;
     GetWindowLongPtr_STYLE := fun _ => WS_VISIBLE + 5;
     DefWindowProcW := fun _ _ _ _ => 1 |}.

Definition old_system : Os := os_with Lt all_resolved false.
Definition new_system : Os := os_with Gt all_resolved true.

(** A window that has seen its first message on the old system. *)
Definition seen (os : Os) (h : HWND) : State :=
  snd (nativeEventFilter os
         {| hwnd := h; message := 0; wParam := 0; lParam := 0;
            target := NoTarget |}
         initial_State).

Definition message_to (h : HWND) (m : Z) (t : LParamTarget) : MSG :=
  {| hwnd := h; message := m; wParam := 0; lParam := 0; target := t |}.

End Samples.

(** ** Invariants of the tables of the newer sources *)

Module Invariants.

(** The table of the toolkit-event fallback is consistent: every record is
    stored under the id of its window, holds valid parameters and owns an
    event filter that was allocated; two records do not share an event
    filter, and every event filter allocated is owned by a record. *)
Definition table_ok {UserSettings SystemParameters QWindowPtr : Type}
    (isValid : SystemParameters -> bool)
    (getWindowId : SystemParameters -> Z)
    (g : FramelessHelperQt.QtHelper (UserSettings := UserSettings)
           (SystemParameters := SystemParameters)
           (QWindowPtr := QWindowPtr)) : Prop :=
  (forall k d, FramelessHelperQt.data g !! k = Some d ->
     getWindowId (FramelessHelperQt.params d) = k
     /\ isValid (FramelessHelperQt.params d) = true
     /\ (FramelessHelperQt.eventFilter d < FramelessHelperQt.allocated g)%nat)
  /\ (forall k1 k2 d1 d2,
        FramelessHelperQt.data g !! k1 = Some d1 ->
        FramelessHelperQt.data g !! k2 = Some d2 ->
        FramelessHelperQt.eventFilter d1 = FramelessHelperQt.eventFilter d2 ->
        k1 = k2)
  /\ size (FramelessHelperQt.data g) = FramelessHelperQt.allocated g.

(** The calls that hand a window to an implementation. *)
Definition is_add {QWindowPtr FramelessParams : Type}
    (c : FramelessManagerPrivate.HelperCall (QWindowPtr := QWindowPtr)
           (FramelessParams := FramelessParams)) : bool :=
  match c with
  | FramelessManagerPrivate.FramelessHelperQt_addWindow _
  | FramelessManagerPrivate.FramelessHelperWin_addWindow _ => true
  | _ => false
  end.

(** The calls that take a window back from an implementation. *)
Definition is_remove {QWindowPtr FramelessParams : Type}
    (c : FramelessManagerPrivate.HelperCall (QWindowPtr := QWindowPtr)
           (FramelessParams := FramelessParams)) : bool :=
  match c with
  | FramelessManagerPrivate.FramelessHelperQt_removeWindow _
  | FramelessManagerPrivate.FramelessHelperWin_removeWindow _ => true
  | _ => false
  end.

(** The calls of the toolkit-event fallback. *)
Definition is_qt {QWindowPtr FramelessParams : Type}
    (c : FramelessManagerPrivate.HelperCall (QWindowPtr := QWindowPtr)
           (FramelessParams := FramelessParams)) : bool :=
  match c with
  | FramelessManagerPrivate.FramelessHelperQt_addWindow _
  | FramelessManagerPrivate.FramelessHelperQt_removeWindow _ => true
  | _ => false
  end.

(** The global flag has been written exactly when the static flag of
    [initialize] is set, and then once. *)
Definition flag_ok {SystemTheme QColor DwmColorizationArea QString
      WallpaperAspectStyle : Type}
    (d : FramelessManagerTheme.FramelessManagerPrivate
           (SystemTheme := SystemTheme) (QColor := QColor)
           (DwmColorizationArea := DwmColorizationArea) (QString := QString)
           (WallpaperAspectStyle := WallpaperAspectStyle)) : Prop :=
  (FramelessManagerTheme.flagSet d = false ->
   FramelessManagerTheme.globalFlag d = [])
  /\ (FramelessManagerTheme.flagSet d = true ->
      length (FramelessManagerTheme.globalFlag d) = 1%nat).

End Invariants.

(** ** Equality of the calls of the start-up *)

Module CoreCalls.
Import FramelessHelperCore.

#[global] Instance ApplicationAttribute_eq_dec : EqDecision ApplicationAttribute.
Proof. solve_decision. Defined.

#[global] Instance MetaType_eq_dec : EqDecision MetaType.
Proof. solve_decision. Defined.

#[global] Instance InitCall_eq_dec : EqDecision InitCall.
Proof. solve_decision. Defined.

(** How often a call occurs in a list of calls. *)
Definition occurrences (c : InitCall) (cs : list InitCall) : nat :=
  length (List.filter (fun c' => bool_decide (c' = c)) cs).

End CoreCalls.

(** * Verification *)

Import Qt Win32 WinNativeEventFilter Spec.
Local Open Scope filter_scope.

(** ** States and views *)

Lemma same_view_refl st : same_view st st.
Proof. split; auto. Qed.

Lemma same_view_trans st1 st2 st3 :
  same_view st1 st2 -> same_view st2 st3 -> same_view st1 st3.
Proof.
  intros [Hc1 Hd1] [Hc2 Hd2]. split.
  - congruence.
  - intros p. rewrite Hd2. apply Hd1.
Qed.

Lemma deref_insert_new (h : HWND) (st : State) (p : HWND) :
  userData st !! h = None ->
  deref (set_userData (<[h := new_WINDOW h None]> (userData st)) st) p
  = deref st p.
Proof.
  intros Hnone. unfold deref, set_userData. cbn [userData].
  destruct (decide (h = p)) as [->|Hne].
  - rewrite lookup_insert_eq, Hnone. reflexivity.
  - rewrite lookup_insert_ne by assumption. reflexivity.
Qed.

(** [createUserData(handle)] without data changes nothing a query can see. *)
Lemma createUserData_None_view h st :
  same_view st (snd (createUserData h None st)).
Proof.
  unfold createUserData, when, bind, get, update, ret.
  destruct (h =? nullptr); simpl; [apply same_view_refl|].
  destruct (userData st !! h) eqn:Hl; simpl; [apply same_view_refl|].
  split; [reflexivity|]. intros p. apply deref_insert_new, Hl.
Qed.

Lemma createUserData_None_calls h st :
  calls (snd (createUserData h None st)) = calls st
  /\ m_framelessWindows (snd (createUserData h None st)) = m_framelessWindows st
  /\ instance (snd (createUserData h None st)) = instance st.
Proof.
  unfold createUserData, when, bind, get, update, ret.
  destruct (h =? nullptr); simpl; [auto|].
  destruct (userData st !! h); simpl; auto.
Qed.

Lemma getDpiForWindow_view os st st' h :
  same_view st st' -> getDpiForWindow os st' h = getDpiForWindow os st h.
Proof. intros [Hc _]. unfold getDpiForWindow. rewrite Hc. reflexivity. Qed.

Lemma getDprForWindow_view os st st' h :
  same_view st st' -> getDprForWindow os st' h = getDprForWindow os st h.
Proof.
  intros Hv. unfold getDprForWindow.
  rewrite (getDpiForWindow_view os st st' h Hv). reflexivity.
Qed.

Lemma borderWidth_view os h st : same_view st (snd (borderWidth os h st)).
Proof.
  unfold borderWidth, bind, get, ret.
  destruct (h =? nullptr); simpl; [apply same_view_refl|].
  pose proof (createUserData_None_view h st) as Hv.
  destruct (createUserData h None st) as [[] st1]; simpl in *.
  destruct (0 <? _); exact Hv.
Qed.

Lemma borderHeight_view os h st : same_view st (snd (borderHeight os h st)).
Proof.
  unfold borderHeight, bind, get, ret.
  destruct (h =? nullptr); simpl; [apply same_view_refl|].
  pose proof (createUserData_None_view h st) as Hv.
  destruct (createUserData h None st) as [[] st1]; simpl in *.
  destruct (0 <? _); exact Hv.
Qed.

Lemma titlebarHeight_view os h st : same_view st (snd (titlebarHeight os h st)).
Proof.
  assert (Hm : forall s,
    same_view s (snd ((bh <- borderHeight os h ;;
                       st0 <- get ;;
                       ret (bh + getSystemMetricsForWindow os st0 h SM_CYCAPTION))
                      s))).
  { intros s. unfold bind, get, ret.
    pose proof (borderHeight_view os h s) as Hv.
    destruct (borderHeight os h s) as [b s1]; exact Hv. }
  unfold titlebarHeight.
  destruct (h =? nullptr); [apply Hm|].
  unfold bind at 1.
  pose proof (createUserData_None_view h st) as Hv.
  destruct (createUserData h None st) as [[] st1]; simpl in Hv.
  unfold bind at 1, get at 1.
  destruct (0 <? _); [exact Hv|].
  eapply same_view_trans; [exact Hv|apply Hm].
Qed.

(** ** Hit test *)

(** The loop of [isInSpecificAreas] finds a rectangle exactly when some valid
    rectangle of the sequence contains the point after scaling. *)
Lemma isInSpecificAreas_iff x y areas dpr :
  isInSpecificAreas x y areas dpr = true <-> insideSomeArea x y areas dpr.
Proof.
  unfold insideSomeArea. induction areas as [|area rest IH]; simpl.
  - split; [discriminate|]. intros H. inversion H.
  - destruct (isValid area) eqn:Hvalid; simpl.
    + fold (scaledArea area dpr).
      destruct (contains (scaledArea area dpr) x y true) eqn:Hin.
      * split; [|reflexivity]. intros _. apply Exists_cons_hd. split; assumption.
      * rewrite IH. split.
        -- apply Exists_cons_tl.
        -- intros H. inversion H as [? ? [_ Hc]|]; subst; [congruence|assumption].
    + rewrite IH. split.
      * apply Exists_cons_tl.
      * intros H. inversion H as [? ? [Hv _]|]; subst; [congruence|assumption].
Qed.

(** Proper containment in a rectangle whose corners are in order. *)
Lemma contains_proper_iff r px py :
  x1 r - 1 <= x2 r -> y1 r - 1 <= y2 r ->
  contains r px py true = true <-> x1 r < px < x2 r /\ y1 r < py < y2 r.
Proof.
  intros Hx Hy. unfold contains.
  destruct (x2 r <? x1 r - 1) eqn:E1; [lia|].
  destruct (y2 r <? y1 r - 1) eqn:E2; [lia|].
  destruct (px <=? x1 r) eqn:E3, (x2 r <=? px) eqn:E4,
           (py <=? y1 r) eqn:E5, (y2 r <=? py) eqn:E6; simpl;
    split; intros H; try discriminate; try reflexivity; lia.
Qed.

(** The constants of the hit test, read off the state the test starts in. *)
Lemma getHTResult_locals_fields os h lp d st :
  let v := fst (getHTResult_locals os h lp d st) in
  let wdata := windowData (deref st d) in
  same_view st (snd (getHTResult_locals os h lp d st))
  /\ ww v = right (GetClientRect os h)
  /\ wh v = bottom (GetClientRect os h)
  /\ mouse v = ScreenToClient os h
                 {| px := GET_X_LPARAM lp; py := GET_Y_LPARAM lp |}
  /\ isInsideWindow v
     = (0 <? px (mouse v)) && (px (mouse v) <? ww v)
       && (0 <? py (mouse v)) && (py (mouse v) <? wh v)
  /\ dpr v = getDprForWindow os st h
  /\ isTitlebar v
     = isInsideWindow v && (py (mouse v) <? tbh v)
       && negb (isInSpecificAreas (px (mouse v)) (py (mouse v))
                  (ignoreAreas wdata) (dpr v))
       && (if bool_decide (draggableAreas wdata = []) then true
           else isInSpecificAreas (px (mouse v)) (py (mouse v))
                  (draggableAreas wdata) (dpr v)).
Proof.
  unfold getHTResult_locals, bind, get, ret.
  pose proof (borderWidth_view os h st) as H1.
  destruct (borderWidth os h st) as [bw1 st1]; simpl in H1.
  pose proof (borderHeight_view os h st1) as H2.
  destruct (borderHeight os h st1) as [bh1 st2]; simpl in H2.
  pose proof (titlebarHeight_view os h st2) as H3.
  destruct (titlebarHeight os h st2) as [tbh1 st3]; simpl in H3.
  assert (Hv : same_view st st3)
    by (eapply same_view_trans; [eapply same_view_trans|]; eassumption).
  cbn [fst snd ww wh mouse isInsideWindow dpr isTitlebar tbh].
  destruct Hv as [Hc Hd]. rewrite (Hd d).
  rewrite (getDprForWindow_view os st st3 h (conj Hc Hd)).
  repeat split; auto.
Qed.

Lemma getHTResult_eq os h lp d st :
  getHTResult os h lp d st
  = (getHTResult_resolve os h (fst (getHTResult_locals os h lp d st)),
     snd (getHTResult_locals os h lp d st)).
Proof.
  unfold getHTResult, bind, ret.
  destruct (getHTResult_locals os h lp d st); reflexivity.
Qed.

(** The title-bar code is returned only when the title-strip test holds. *)
Lemma getHTResult_resolve_caption os h v :
  getHTResult_resolve os h v = HTCAPTION -> isTitlebar v = true.
Proof.
  unfold getHTResult_resolve.
  destruct (IsMaximized os h), (isTop v), (isBottom v), (isLeft v),
           (isRight v), (isTitlebar v); simpl; intros H;
    try reflexivity; discriminate H.
Qed.

Lemma getSystemMetricsForWindow_view os st st' h index :
  same_view st st' ->
  getSystemMetricsForWindow os st' h index = getSystemMetricsForWindow os st h index.
Proof.
  intros Hv. unfold getSystemMetricsForWindow.
  rewrite (getDpiForWindow_view os st st' h Hv),
          (getDprForWindow_view os st st' h Hv).
  destruct Hv as [-> _]. reflexivity.
Qed.

(** The three metrics depend on the state only through what a query sees. *)
Lemma borderWidth_fst_view os h st st' :
  same_view st st' -> fst (borderWidth os h st') = fst (borderWidth os h st).
Proof.
  intros Hv. unfold borderWidth, bind, get, ret.
  destruct (h =? nullptr); simpl.
  - rewrite !(getSystemMetricsForWindow_view os st st' h _ Hv). reflexivity.
  - pose proof (createUserData_None_view h st) as H1.
    pose proof (createUserData_None_view h st') as H2.
    destruct (createUserData h None st) as [[] s1],
             (createUserData h None st') as [[] s2]; simpl in *.
    assert (H12 : same_view s1 s2).
    { destruct H1 as [Hc1 Hd1], H2 as [Hc2 Hd2], Hv as [Hc Hd]. split.
      - congruence.
      - intros p. rewrite Hd2, Hd, Hd1. reflexivity. }
    destruct H12 as [Hc Hd]. rewrite (Hd h).
    rewrite !(getSystemMetricsForWindow_view os s1 s2 h _ (conj Hc Hd)),
            (getDprForWindow_view os s1 s2 h (conj Hc Hd)).
    destruct (0 <? _); reflexivity.
Qed.

Lemma borderHeight_fst_view os h st st' :
  same_view st st' -> fst (borderHeight os h st') = fst (borderHeight os h st).
Proof.
  intros Hv. unfold borderHeight, bind, get, ret.
  destruct (h =? nullptr); simpl.
  - rewrite !(getSystemMetricsForWindow_view os st st' h _ Hv). reflexivity.
  - pose proof (createUserData_None_view h st) as H1.
    pose proof (createUserData_None_view h st') as H2.
    destruct (createUserData h None st) as [[] s1],
             (createUserData h None st') as [[] s2]; simpl in *.
    assert (H12 : same_view s1 s2).
    { destruct H1 as [Hc1 Hd1], H2 as [Hc2 Hd2], Hv as [Hc Hd]. split.
      - congruence.
      - intros p. rewrite Hd2, Hd, Hd1. reflexivity. }
    destruct H12 as [Hc Hd]. rewrite (Hd h).
    rewrite !(getSystemMetricsForWindow_view os s1 s2 h _ (conj Hc Hd)),
            (getDprForWindow_view os s1 s2 h (conj Hc Hd)).
    destruct (0 <? _); reflexivity.
Qed.

Lemma titlebarHeight_fst_view os h st st' :
  same_view st st' -> fst (titlebarHeight os h st') = fst (titlebarHeight os h st).
Proof.
  assert (Hm : forall s s', same_view s s' ->
    fst ((bh <- borderHeight os h ;;
          st0 <- get ;;
          ret (bh + getSystemMetricsForWindow os st0 h SM_CYCAPTION)) s')
    = fst ((bh <- borderHeight os h ;;
            st0 <- get ;;
            ret (bh + getSystemMetricsForWindow os st0 h SM_CYCAPTION)) s)).
  { intros s s' Hs. unfold bind, get, ret.
    pose proof (borderHeight_fst_view os h s s' Hs) as Hf.
    pose proof (borderHeight_view os h s) as H1.
    pose proof (borderHeight_view os h s') as H2.
    destruct (borderHeight os h s) as [b1 s1], (borderHeight os h s') as [b2 s2];
      simpl in *. subst b2.
    assert (H12 : same_view s1 s2).
    { destruct H1 as [Hc1 Hd1], H2 as [Hc2 Hd2], Hs as [Hc Hd]. split.
      - congruence.
      - intros p. rewrite Hd2, Hd, Hd1. reflexivity. }
    rewrite (getSystemMetricsForWindow_view os s1 s2 h _ H12). reflexivity. }
  intros Hv. unfold titlebarHeight.
  set (m := (bh <- borderHeight os h ;;
             st0 <- get ;;
             ret (bh + getSystemMetricsForWindow os st0 h SM_CYCAPTION))) in *.
  destruct (h =? nullptr); [apply Hm, Hv|].
  unfold bind, get, ret.
  pose proof (createUserData_None_view h st) as H1.
  pose proof (createUserData_None_view h st') as H2.
  destruct (createUserData h None st) as [[] s1],
           (createUserData h None st') as [[] s2]; simpl in H1, H2.
  assert (H12 : same_view s1 s2).
  { destruct H1 as [Hc1 Hd1], H2 as [Hc2 Hd2], Hv as [Hc Hd]. split.
    - congruence.
    - intros p. rewrite Hd2, Hd, Hd1. reflexivity. }
  destruct H12 as [Hc Hd]. rewrite (Hd h).
  rewrite (getDprForWindow_view os s1 s2 h (conj Hc Hd)).
  destruct (0 <? _); [reflexivity|].
  apply Hm. split; assumption.
Qed.

(** The border and title bar sizes of the hit test are those of the public
    functions [borderWidth], [borderHeight] and [titlebarHeight]. *)
Lemma getHTResult_locals_metrics os h lp d st :
  let v := fst (getHTResult_locals os h lp d st) in
  bw v = fst (borderWidth os h st)
  /\ bh v = fst (borderHeight os h st)
  /\ tbh v = fst (titlebarHeight os h st).
Proof.
  unfold getHTResult_locals, bind, get, ret.
  pose proof (borderWidth_view os h st) as H1.
  destruct (borderWidth os h st) as [bw1 st1] eqn:E1; simpl in H1.
  pose proof (borderHeight_view os h st1) as H2.
  pose proof (borderHeight_fst_view os h st st1 H1) as F2.
  destruct (borderHeight os h st1) as [bh1 st2] eqn:E2; simpl in H2, F2.
  pose proof (titlebarHeight_fst_view os h st st2
                (same_view_trans _ _ _ H1 H2)) as F3.
  destruct (titlebarHeight os h st2) as [tbh1 st3] eqn:E3; simpl in F3.
  cbn [fst bw bh tbh]. auto.
Qed.

(** The scenario of the specification, run through the filter. *)
Example scenario_hits :
  Scenario.hit false [] 4 4 = Some HTTOPLEFT
  /\ Scenario.hit false [] 400 16 = Some HTCAPTION
  /\ Scenario.hit false [mkQRect 350 0 100 32] 400 16 = Some HTCLIENT
  /\ Scenario.hit false [] 400 300 = Some HTCLIENT
  /\ Scenario.hit true [] 400 16 = Some HTCAPTION
  /\ Scenario.hit false [] 400 4 = Some HTTOP.
Proof. vm_compute. repeat split. Qed.

Lemma to_UINT_range v : 0 <= to_UINT v < 2 ^ 32.
Proof. unfold to_UINT. apply Z.mod_pos_bound. reflexivity. Qed.

Lemma getDpiForWindow_range os st h : 0 <= getDpiForWindow os st h < 2 ^ 32.
Proof. unfold getDpiForWindow. apply to_UINT_range. Qed.

Lemma to_int_nonneg q : (0 <= q)%Q -> to_int q = Qfloor q.
Proof.
  destruct q as [n d]. unfold Qle, to_int, Qfloor. simpl. intros Hn.
  apply Z.quot_div_nonneg; lia.
Qed.

(** *** Double precision: [round_double] *)

Lemma pow2_pos e : (0 < 2 ^ e)%Q.
Proof. apply Qpower_0_lt. reflexivity. Qed.

Lemma pow2_nonzero e : ~ (2 ^ e == 0)%Q.
Proof. pose proof (pow2_pos e). lra. Qed.

Lemma pow2_Z n : 0 <= n -> (inject_Z (2 ^ n) == 2 ^ n)%Q.
Proof. intros H. rewrite Zpower_Qpower by exact H. reflexivity. Qed.

Lemma pow2_succ e : (2 ^ (e + 1) == 2 * 2 ^ e)%Q.
Proof. rewrite Qpower_plus by discriminate. change (2 ^ 1)%Q with 2%Q. ring. Qed.

Lemma pow2_le a b : a <= b -> (2 ^ a <= 2 ^ b)%Q.
Proof. intros H. apply Qpower_le_compat_l; [exact H|discriminate]. Qed.

Lemma pow2_lt_inv a b : (2 ^ a < 2 ^ b)%Q -> a < b.
Proof. intros H. apply (Qpower_lt_compat_l_inv 2); [exact H|reflexivity]. Qed.

Lemma ilog2_spec q : (0 < q)%Q -> (2 ^ ilog2 q <= q < 2 ^ (ilog2 q + 1))%Q.
Proof.
  intros Hq. unfold ilog2.
  destruct q as [a b]. cbn [Qnum Qden].
  assert (Ha : 0 < a) by (unfold Qlt in Hq; cbn in Hq; lia).
  set (la := Z.log2 a). set (lb := Z.log2 (Z.pos b)).
  destruct (Z.log2_spec a Ha) as [A1 A2]. fold la in A1, A2.
  destruct (Z.log2_spec (Z.pos b) (Pos2Z.is_pos b)) as [B1 B2].
  fold lb in B1, B2.
  assert (Hla : 0 <= la) by apply Z.log2_nonneg.
  assert (Hlb : 0 <= lb) by apply Z.log2_nonneg.
  assert (Hq' : (a # b == inject_Z a / inject_Z (Z.pos b))%Q)
    by apply Qmake_Qdiv.
  assert (Hbpos : (0 < inject_Z (Z.pos b))%Q)
    by (change 0%Q with (inject_Z 0); rewrite <- Zlt_Qlt; lia).
  assert (QA1 : (2 ^ la <= inject_Z a)%Q)
    by (rewrite <- pow2_Z by lia; rewrite <- Zle_Qle; exact A1).
  assert (QA2 : (inject_Z a < 2 ^ (la + 1))%Q).
  { rewrite <- pow2_Z by lia. rewrite <- Zlt_Qlt.
    replace (la + 1) with (Z.succ la) by lia. exact A2. }
  assert (QB1 : (2 ^ lb <= inject_Z (Z.pos b))%Q)
    by (rewrite <- pow2_Z by lia; rewrite <- Zle_Qle; exact B1).
  assert (QB2 : (inject_Z (Z.pos b) < 2 ^ (lb + 1))%Q).
  { rewrite <- pow2_Z by lia. rewrite <- Zlt_Qlt.
    replace (lb + 1) with (Z.succ lb) by lia. exact B2. }
  assert (Hup : (a # b < 2 ^ (la - lb + 1))%Q).
  { rewrite Hq'. apply Qlt_shift_div_r; [exact Hbpos|].
    replace (la - lb + 1) with ((la + 1) - lb) by lia.
    rewrite Qpower_minus by discriminate.
    pose proof (pow2_pos lb) as P. pose proof (pow2_pos (la + 1)) as U.
    set (X := (2 ^ (la + 1) / 2 ^ lb)%Q).
    assert (HX : (X * 2 ^ lb == 2 ^ (la + 1))%Q)
      by (unfold X; field; apply pow2_nonzero).
    assert (HXpos : (0 < X)%Q) by (apply Qlt_shift_div_l; [exact P|lra]).
    apply Qlt_le_trans with (X * 2 ^ lb)%Q; [rewrite HX; exact QA2|].
    apply Qmult_le_l; [exact HXpos|exact QB1]. }
  assert (Hlow : (2 ^ (la - lb - 1) < a # b)%Q).
  { rewrite Hq'. apply Qlt_shift_div_l; [exact Hbpos|].
    replace (la - lb - 1) with (la - (lb + 1)) by lia.
    rewrite Qpower_minus by discriminate.
    pose proof (pow2_pos (lb + 1)) as P. pose proof (pow2_pos la) as U.
    set (X := (2 ^ la / 2 ^ (lb + 1))%Q).
    assert (HX : (X * 2 ^ (lb + 1) == 2 ^ la)%Q)
      by (unfold X; field; apply pow2_nonzero).
    assert (HXpos : (0 < X)%Q) by (apply Qlt_shift_div_l; [exact P|lra]).
    apply Qlt_le_trans with (X * 2 ^ (lb + 1))%Q; [|rewrite HX; exact QA1].
    apply Qmult_lt_l; [exact HXpos|exact QB2]. }
  destruct (Qle_bool (2 ^ (la - lb)) (a # b)) eqn:E.
  - apply Qle_bool_iff in E. split; [exact E|exact Hup].
  - assert (Hn : ~ (2 ^ (la - lb) <= a # b)%Q).
    { intros H. apply Qle_bool_iff in H. congruence. }
    apply Qnot_le_lt in Hn.
    replace (la - lb - 1 + 1) with (la - lb) by lia.
    split; [apply Qlt_le_weak; exact Hlow|exact Hn].
Qed.

Lemma nearest_even_bounds q : Qfloor q <= nearest_even q <= Qfloor q + 1.
Proof.
  unfold nearest_even.
  destruct (q - inject_Z (Qfloor q) ?= 1 # 2)%Q;
    [destruct (Z.even (Qfloor q))| |]; lia.
Qed.

Lemma nearest_even_Z q n : (q == inject_Z n)%Q -> nearest_even q = n.
Proof.
  intros H. unfold nearest_even.
  assert (Hf : Qfloor q = n) by (rewrite H; apply Qfloor_Z).
  rewrite Hf.
  assert (Hlt : (q - inject_Z n < 1 # 2)%Q) by (rewrite H; lra).
  destruct (Qcompare_spec (q - inject_Z n) (1 # 2)) as [E|E|E];
    [exfalso; lra|reflexivity|exfalso; lra].
Qed.

Lemma nearest_even_mono x y : (x <= y)%Q -> nearest_even x <= nearest_even y.
Proof.
  intros Hxy.
  pose proof (Qfloor_resp_le x y Hxy) as Hf.
  pose proof (nearest_even_bounds x) as Bx.
  pose proof (nearest_even_bounds y) as By.
  destruct (Z.eq_dec (Qfloor x) (Qfloor y)) as [E|E]; [|lia].
  unfold nearest_even. rewrite <- E.
  destruct (Qcompare_spec (x - inject_Z (Qfloor x)) (1 # 2)) as [H1|H1|H1];
    destruct (Qcompare_spec (y - inject_Z (Qfloor x)) (1 # 2)) as [H2|H2|H2];
    destruct (Z.even (Qfloor x)); try lia; exfalso; lra.
Qed.

Lemma mantissa_range q :
  (0 < q)%Q ->
  let m := (q / 2 ^ (ilog2 q - 52))%Q in
  (inject_Z (2 ^ 52) <= m < inject_Z (2 ^ 53))%Q.
Proof.
  intros Hq m. destruct (ilog2_spec q Hq) as [L U].
  set (k := ilog2 q) in *.
  pose proof (pow2_pos (k - 52)) as P.
  assert (H52 : (2 ^ k == inject_Z (2 ^ 52) * 2 ^ (k - 52))%Q).
  { rewrite pow2_Z by lia. rewrite <- Qpower_plus by discriminate.
    replace (52 + (k - 52)) with k by lia. reflexivity. }
  assert (H53 : (2 ^ (k + 1) == inject_Z (2 ^ 53) * 2 ^ (k - 52))%Q).
  { rewrite pow2_Z by lia. rewrite <- Qpower_plus by discriminate.
    replace (53 + (k - 52)) with (k + 1) by lia. reflexivity. }
  unfold m. split.
  - apply Qle_shift_div_l; [exact P|]. rewrite <- H52. exact L.
  - apply Qlt_shift_div_r; [exact P|]. rewrite <- H53. exact U.
Qed.

Lemma round_positive_range q :
  (0 < q)%Q ->
  (2 ^ ilog2 q <= round_positive q <= 2 ^ (ilog2 q + 1))%Q.
Proof.
  intros Hq. destruct (mantissa_range q Hq) as [L U].
  unfold round_positive. set (k := ilog2 q) in *.
  set (m := (q / 2 ^ (k - 52))%Q) in *.
  pose proof (pow2_pos (k - 52)) as P.
  assert (H52 : (2 ^ k == inject_Z (2 ^ 52) * 2 ^ (k - 52))%Q).
  { rewrite pow2_Z by lia. rewrite <- Qpower_plus by discriminate.
    replace (52 + (k - 52)) with k by lia. reflexivity. }
  assert (H53 : (2 ^ (k + 1) == inject_Z (2 ^ 53) * 2 ^ (k - 52))%Q).
  { rewrite pow2_Z by lia. rewrite <- Qpower_plus by discriminate.
    replace (53 + (k - 52)) with (k + 1) by lia. reflexivity. }
  pose proof (nearest_even_mono _ _ L) as N1.
  pose proof (nearest_even_mono _ _ (Qlt_le_weak _ _ U)) as N2.
  rewrite (nearest_even_Z (inject_Z (2 ^ 52)) (2 ^ 52)) in N1 by reflexivity.
  rewrite (nearest_even_Z (inject_Z (2 ^ 53)) (2 ^ 53)) in N2 by reflexivity.
  rewrite H52, H53. split; apply Qmult_le_compat_r;
    try (apply Qlt_le_weak; exact P); rewrite <- Zle_Qle; assumption.
Qed.

Lemma round_positive_mono x y :
  (0 < x)%Q -> (x <= y)%Q -> (round_positive x <= round_positive y)%Q.
Proof.
  intros Hx Hxy.
  assert (Hy : (0 < y)%Q) by lra.
  destruct (ilog2_spec x Hx) as [Lx Ux]. destruct (ilog2_spec y Hy) as [Ly Uy].
  destruct (round_positive_range x Hx) as [_ Rx].
  destruct (round_positive_range y Hy) as [Ry _].
  assert (Hk : ilog2 x < ilog2 y + 1) by (apply pow2_lt_inv; lra).
  destruct (Z.eq_dec (ilog2 x) (ilog2 y)) as [E|E].
  - unfold round_positive. rewrite E.
    pose proof (pow2_pos (ilog2 y - 52)) as P.
    apply Qmult_le_compat_r; [|apply Qlt_le_weak; exact P].
    rewrite <- Zle_Qle. apply nearest_even_mono.
    apply Qmult_le_compat_r; [exact Hxy|].
    apply Qlt_le_weak, Qinv_lt_0_compat, P.
  - apply Qle_trans with (2 ^ (ilog2 x + 1))%Q; [exact Rx|].
    apply Qle_trans with (2 ^ ilog2 y)%Q; [|exact Ry].
    apply pow2_le. lia.
Qed.

(** A number with at most 53 significant bits is a double. *)
Lemma round_positive_exact q m j :
  0 < m < 2 ^ 53 -> (q == inject_Z m * 2 ^ j)%Q -> (round_positive q == q)%Q.
Proof.
  intros Hm Hq.
  assert (Hpos : (0 < q)%Q).
  { rewrite Hq. apply Qmult_lt_0_compat; [|apply pow2_pos].
    change 0%Q with (inject_Z 0). rewrite <- Zlt_Qlt. lia. }
  destruct (ilog2_spec q Hpos) as [L U].
  unfold round_positive. set (k := ilog2 q) in *.
  pose proof (pow2_pos (k - 52)) as P. pose proof (pow2_pos j) as Pj.
  assert (Hj : k - 52 <= j).
  { destruct (Z.le_gt_cases (k - 52) j) as [H|H]; [exact H|exfalso].
    assert (H1 : (inject_Z m * 2 ^ j < inject_Z (2 ^ 53) * 2 ^ j)%Q).
    { apply Qmult_lt_compat_r; [exact Pj|]. rewrite <- Zlt_Qlt. lia. }
    assert (H2 : (inject_Z (2 ^ 53) * 2 ^ j == 2 ^ (53 + j))%Q).
    { rewrite pow2_Z by lia. rewrite Qpower_plus by discriminate.
      reflexivity. }
    assert (H3 : (2 ^ (53 + j) <= 2 ^ k)%Q) by (apply pow2_le; lia).
    lra. }
  assert (Hint : (q / 2 ^ (k - 52) == inject_Z (m * 2 ^ (j - (k - 52))))%Q).
  { rewrite Hq, inject_Z_mult, pow2_Z by lia.
    rewrite (Qpower_minus 2 j (k - 52)) by discriminate. field.
    apply pow2_nonzero. }
  rewrite (nearest_even_Z _ _ Hint). rewrite <- Hint. field.
  apply pow2_nonzero.
Qed.

Lemma round_double_nonneg q : (0 <= q)%Q -> (0 <= round_double q)%Q.
Proof.
  intros Hq. unfold round_double.
  destruct (Qcompare_spec q 0) as [H|H|H]; [lra|lra|].
  destruct (round_positive_range q H) as [L _].
  pose proof (pow2_pos (ilog2 q)). lra.
Qed.

Lemma round_double_mono x y :
  (0 <= x)%Q -> (x <= y)%Q -> (round_double x <= round_double y)%Q.
Proof.
  intros Hx Hxy. unfold round_double at 1.
  destruct (Qcompare_spec x 0) as [H|H|H].
  - apply round_double_nonneg. lra.
  - lra.
  - unfold round_double. destruct (Qcompare_spec y 0) as [H'|H'|H']; try lra.
    apply round_positive_mono; assumption.
Qed.

Lemma round_double_exact q m j :
  0 <= m < 2 ^ 53 -> (q == inject_Z m * 2 ^ j)%Q -> (round_double q == q)%Q.
Proof.
  intros Hm Hq. unfold round_double.
  destruct (Qcompare_spec q 0) as [H|H|H].
  - rewrite H. reflexivity.
  - exfalso. pose proof (pow2_pos j) as P.
    assert ((0 <= inject_Z m * 2 ^ j)%Q).
    { apply Qmult_le_0_compat; [|lra].
      change 0%Q with (inject_Z 0). rewrite <- Zle_Qle. lia. }
    lra.
  - apply (round_positive_exact q m j); [|exact Hq].
    split; [|lia]. destruct (Z.eq_dec m 0) as [->|]; [|lia].
    exfalso. rewrite Hq in H. change (inject_Z 0) with 0%Q in H. lra.
Qed.

Lemma round_double_Z q n :
  0 <= n < 2 ^ 53 -> (q == inject_Z n)%Q -> (round_double q == inject_Z n)%Q.
Proof.
  intros Hn Hq. rewrite <- Hq. apply (round_double_exact q n 0); [exact Hn|].
  rewrite Hq. change (2 ^ 0)%Q with 1%Q. ring.
Qed.

Lemma Qfloor_unique x n :
  (inject_Z n <= x < inject_Z n + 1)%Q -> Qfloor x = n.
Proof.
  intros [L U].
  pose proof (Qfloor_resp_le _ _ L) as H1. rewrite Qfloor_Z in H1.
  pose proof (Qfloor_le x) as H2.
  assert (H3 : (inject_Z (Qfloor x) < inject_Z (n + 1))%Q)
    by (rewrite inject_Z_plus; change (inject_Z 1) with 1%Q; lra).
  rewrite <- Zlt_Qlt in H3. lia.
Qed.

Lemma Qceiling_unique x n :
  (inject_Z n - 1 < x <= inject_Z n)%Q -> Qceiling x = n.
Proof.
  intros [L U]. unfold Qceiling.
  rewrite (Qfloor_unique (- x) (- n)); [lia|].
  rewrite inject_Z_opp. split; lra.
Qed.

(** The multiples of 1/128 below 2^46 are doubles. *)
Lemma round_double_128 x m :
  0 <= m < 2 ^ 53 -> (x == inject_Z m * (1 # 128))%Q ->
  (round_double x == x)%Q.
Proof.
  intros Hm Hx. apply (round_double_exact x m (-7)); [exact Hm|].
  rewrite Hx. reflexivity.
Qed.

Lemma round_double_squeeze x ma mb :
  0 <= ma -> mb < 2 ^ 53 ->
  (inject_Z ma * (1 # 128) <= x <= inject_Z mb * (1 # 128))%Q ->
  (inject_Z ma * (1 # 128) <= round_double x <= inject_Z mb * (1 # 128))%Q.
Proof.
  intros Ha Hb [L U].
  assert (Hab : ma <= mb) by (rewrite Zle_Qle; lra).
  assert (H0 : (0 <= inject_Z ma * (1 # 128))%Q).
  { assert ((0 <= inject_Z ma)%Q)
      by (change 0%Q with (inject_Z 0); rewrite <- Zle_Qle; exact Ha).
    lra. }
  pose proof (round_double_mono _ _ H0 L) as M1.
  pose proof (round_double_mono x _ ltac:(lra) U) as M2.
  rewrite (round_double_128 (inject_Z ma * (1 # 128)) ma) in M1
    by (lia || reflexivity).
  rewrite (round_double_128 (inject_Z mb * (1 # 128)) mb) in M2
    by (lia || reflexivity).
  split; assumption.
Qed.

Lemma quotient_decompose n :
  (inject_Z n / inject_Z 96
   == inject_Z (n / 96) + inject_Z (n mod 96) * (1 # 96))%Q
  /\ (0 <= inject_Z (n mod 96) <= 95)%Q.
Proof.
  pose proof (Z.div_mod n 96 ltac:(discriminate)) as H.
  pose proof (Z.mod_pos_bound n 96 ltac:(reflexivity)) as [B1 B2].
  split.
  - rewrite H at 1. rewrite inject_Z_plus, inject_Z_mult.
    change (inject_Z 96) with 96%Q. field.
  - change 0%Q with (inject_Z 0). change 95%Q with (inject_Z 95).
    rewrite <- !Zle_Qle. lia.
Qed.

Lemma inject_Z_sub a b : (inject_Z (a - b) == inject_Z a - inject_Z b)%Q.
Proof. unfold Z.sub. rewrite inject_Z_plus, inject_Z_opp. reflexivity. Qed.

Lemma inject_Z_pos_1 n : 0 <= n -> n <> 0 -> (1 <= inject_Z n)%Q.
Proof.
  intros H0 H1. change 1%Q with (inject_Z 1). rewrite <- Zle_Qle. lia.
Qed.

Lemma dpi_quotient_rounding dpi :
  0 <= dpi < 2 ^ 32 ->
  let q := (inject_Z dpi / inject_Z USER_DEFAULT_SCREEN_DPI)%Q in
  let d := qreal_div (inject_Z dpi) (inject_Z USER_DEFAULT_SCREEN_DPI) in
  (0 <= d)%Q
  /\ qFloor d = Qfloor q
  /\ qCeil d = Qceiling q
  /\ qRound d = Qfloor (q + (1 # 2))
  /\ (inject_Z (Qfloor (q + (1 # 2))) - (1 # 2) <= d
      < inject_Z (Qfloor (q + (1 # 2))) + (1 # 2))%Q.
Proof.
  intros Hdpi q d. unfold USER_DEFAULT_SCREEN_DPI in q, d.
  assert (Hq0 : (0 <= q)%Q).
  { unfold q. apply Qle_shift_div_l; [reflexivity|].
    rewrite Qmult_0_l. change 0%Q with (inject_Z 0).
    rewrite <- Zle_Qle. lia. }
  assert (Hd0 : (0 <= d)%Q) by (apply round_double_nonneg; exact Hq0).
  assert (Hdq : d = round_double q) by reflexivity.
  split; [exact Hd0|].
  (* floor and ceiling *)
  destruct (quotient_decompose dpi) as [Hq Hr]. fold q in Hq.
  set (N := dpi / 96) in *. set (r := dpi mod 96) in *.
  assert (HN : 0 <= N < 2 ^ 26).
  { unfold N. split; [apply Z.div_pos; lia|].
    apply Z.div_lt_upper_bound; lia. }
  assert (Hfc : qFloor d = Qfloor q /\ qCeil d = Qceiling q).
  { unfold qFloor, qCeil. destruct (Z.eq_dec r 0) as [E|E].
    - rewrite E in Hq. change (inject_Z 0) with 0%Q in Hq.
      assert (HqN : (q == inject_Z N)%Q) by lra.
      assert (HdN : (d == inject_Z N)%Q)
        by (rewrite Hdq; apply round_double_Z; [lia|exact HqN]).
      rewrite (Qfloor_unique d N), (Qfloor_unique q N) by lra.
      rewrite (Qceiling_unique d N), (Qceiling_unique q N) by lra.
      split; reflexivity.
    - assert (Hr1 : (1 <= inject_Z r)%Q).
      { apply inject_Z_pos_1; [|exact E].
        apply (Z.mod_pos_bound dpi 96). reflexivity. }
      assert (Hsq : (inject_Z (128 * N + 1) * (1 # 128) <= d
                     <= inject_Z (128 * N + 127) * (1 # 128))%Q).
      { rewrite Hdq. apply round_double_squeeze; [lia|lia|].
        rewrite !inject_Z_plus, !inject_Z_mult.
        change (inject_Z 128) with 128%Q. change (inject_Z 1) with 1%Q.
        change (inject_Z 127) with 127%Q. lra. }
      rewrite !inject_Z_plus, !inject_Z_mult in Hsq.
      change (inject_Z 128) with 128%Q in Hsq.
      change (inject_Z 1) with 1%Q in Hsq.
      change (inject_Z 127) with 127%Q in Hsq.
      rewrite (Qfloor_unique d N), (Qfloor_unique q N) by lra.
      rewrite (Qceiling_unique d (N + 1)), (Qceiling_unique q (N + 1))
        by (rewrite inject_Z_plus; change (inject_Z 1) with 1%Q; lra).
      split; reflexivity. }
  split; [apply Hfc|]. split; [apply Hfc|].
  (* the nearest integer *)
  clear Hfc.
  destruct (quotient_decompose (dpi + 48)) as [Ht Hr'].
  set (M := (dpi + 48) / 96) in *. set (r' := (dpi + 48) mod 96) in *.
  assert (HM : 0 <= M < 2 ^ 26).
  { unfold M. split; [apply Z.div_pos; lia|].
    apply Z.div_lt_upper_bound; lia. }
  assert (Hs : (q + (1 # 2) == inject_Z M + inject_Z r' * (1 # 96))%Q).
  { rewrite <- Ht. unfold q. rewrite inject_Z_plus.
    change (inject_Z 48) with 48%Q. change (inject_Z 96) with 96%Q. field. }
  assert (HfM : Qfloor (q + (1 # 2)) = M) by (apply Qfloor_unique; lra).
  rewrite HfM.
  assert (Hround : qRound d = Qfloor (qreal_add d (1 # 2))).
  { unfold qRound.
    destruct (Qle_bool 0 d) eqn:E.
    - apply to_int_nonneg. apply round_double_nonneg. lra.
    - apply Qle_bool_iff in Hd0. congruence. }
  rewrite Hround. unfold qreal_add.
  assert (Hmain : (inject_Z M - (1 # 2) <= d < inject_Z M + (1 # 2))%Q
                  /\ (inject_Z M <= round_double (d + (1 # 2))
                      < inject_Z M + 1)%Q).
  { destruct (Z.eq_dec r' 0) as [E|E].
    - rewrite E in Hs. change (inject_Z 0) with 0%Q in Hs.
      assert (HM1 : 1 <= M).
      { assert (H96 : dpi + 48 = 96 * M).
        { pose proof (Z.div_mod (dpi + 48) 96 ltac:(discriminate)) as H.
          fold M r' in H. lia. }
        lia. }
      assert (Hqd : (d == q)%Q).
      { rewrite Hdq. apply (round_double_exact q (2 * M - 1) (-1)); [lia|].
        rewrite inject_Z_sub, inject_Z_mult.
        change (inject_Z 2) with 2%Q. change (inject_Z 1) with 1%Q.
        change (2 ^ (-1))%Q with (1 # 2)%Q. lra. }
      assert (Hsum : (round_double (d + (1 # 2)) == inject_Z M)%Q)
        by (apply round_double_Z; [lia|lra]).
      split; split; lra.
    - assert (Hr1 : (1 <= inject_Z r')%Q).
      { apply inject_Z_pos_1; [|exact E].
        apply (Z.mod_pos_bound (dpi + 48) 96). reflexivity. }
      assert (Hup : (d <= inject_Z (128 * M + 63) * (1 # 128))%Q).
      { assert (H : (inject_Z 0 * (1 # 128) <= d
                     <= inject_Z (128 * M + 63) * (1 # 128))%Q).
        { rewrite Hdq. apply round_double_squeeze; [lia|lia|].
          rewrite !inject_Z_plus, !inject_Z_mult.
          change (inject_Z 128) with 128%Q. change (inject_Z 63) with 63%Q.
          change (inject_Z 0) with 0%Q. lra. }
        apply H. }
      rewrite !inject_Z_plus, !inject_Z_mult in Hup.
      change (inject_Z 128) with 128%Q in Hup.
      change (inject_Z 63) with 63%Q in Hup.
      assert (Hlo : (inject_Z M - (1 # 2) <= d
                     /\ inject_Z M + (1 # 128) <= d + (1 # 2))%Q).
      { destruct (Z.eq_dec M 0) as [E0|E0].
        - rewrite E0. change (inject_Z 0) with 0%Q. split; lra.
        - assert (H : (inject_Z (128 * M - 63) * (1 # 128) <= d
                       <= inject_Z (128 * M + 63) * (1 # 128))%Q).
          { rewrite Hdq. apply round_double_squeeze; [lia|lia|].
            rewrite inject_Z_sub, !inject_Z_plus, !inject_Z_mult.
            change (inject_Z 128) with 128%Q. change (inject_Z 63) with 63%Q.
            lra. }
          destruct H as [H _].
          rewrite inject_Z_sub, !inject_Z_mult in H.
          change (inject_Z 128) with 128%Q in H.
          change (inject_Z 63) with 63%Q in H. split; lra. }
      assert (Hsum : (inject_Z (128 * M + 1) * (1 # 128)
                      <= round_double (d + (1 # 2))
                      <= inject_Z (128 * M + 127) * (1 # 128))%Q).
      { apply round_double_squeeze; [lia|lia|].
        rewrite !inject_Z_plus, !inject_Z_mult.
        change (inject_Z 128) with 128%Q. change (inject_Z 1) with 1%Q.
        change (inject_Z 127) with 127%Q. lra. }
      rewrite !inject_Z_plus, !inject_Z_mult in Hsum.
      change (inject_Z 128) with 128%Q in Hsum.
      change (inject_Z 1) with 1%Q in Hsum.
      change (inject_Z 127) with 127%Q in Hsum.
      split; split; lra. }
  destruct Hmain as [Hb Hf].
  split; [apply Qfloor_unique; exact Hf|exact Hb].
Qed.

Lemma dpi_quotient_double_mono a b :
  0 <= a -> a <= b ->
  (qreal_div (inject_Z a) (inject_Z USER_DEFAULT_SCREEN_DPI)
   <= qreal_div (inject_Z b) (inject_Z USER_DEFAULT_SCREEN_DPI))%Q.
Proof.
  intros Ha H. unfold qreal_div. apply round_double_mono.
  - apply Qle_shift_div_l; [reflexivity|].
    rewrite Qmult_0_l. change 0%Q with (inject_Z 0).
    rewrite <- Zle_Qle. exact Ha.
  - unfold Qdiv. apply Qmult_le_compat_r.
    + rewrite <- Zle_Qle. exact H.
    + discriminate.
Qed.

(** A DPI that is a multiple of 3 has a quotient that is a double. *)
Lemma dpi_quotient_exact dpi k :
  0 <= dpi < 2 ^ 32 -> dpi = 3 * k ->
  (qreal_div (inject_Z dpi) (inject_Z USER_DEFAULT_SCREEN_DPI)
   == inject_Z dpi / inject_Z USER_DEFAULT_SCREEN_DPI)%Q.
Proof.
  intros Hdpi Hk. unfold qreal_div.
  apply (round_double_exact _ k (-5)); [lia|].
  rewrite Hk, inject_Z_mult. change (2 ^ (-5))%Q with (1 # 32)%Q.
  unfold USER_DEFAULT_SCREEN_DPI. change (inject_Z 96) with 96%Q.
  change (inject_Z 3) with 3%Q. field.
Qed.

(** A length that is not negative stays so when it is scaled by a factor
    that is not negative. *)
Lemma scaled_nonneg v dpr : 0 <= v -> (0 <= dpr)%Q -> 0 <= scaled v dpr.
Proof.
  intros Hv Hd. unfold scaled, qreal_mul.
  assert (Hp : (0 <= inject_Z v * dpr)%Q).
  { apply Qmult_le_0_compat; [|exact Hd].
    change 0%Q with (inject_Z 0). rewrite <- Zle_Qle. exact Hv. }
  pose proof (round_double_nonneg _ Hp) as Hr.
  rewrite to_int_nonneg by exact Hr.
  pose proof (Qfloor_resp_le _ _ Hr) as H. exact H.
Qed.

Lemma getDprForWindow_nonneg os st h : (0 <= getDprForWindow os st h)%Q.
Proof.
  unfold getDprForWindow.
  set (dpr := if h =? nullptr then m_defaultDPR
              else qreal_div (inject_Z (getDpiForWindow os st h))
                     (inject_Z USER_DEFAULT_SCREEN_DPI)).
  assert (Hd : (0 <= dpr)%Q).
  { unfold dpr. destruct (h =? nullptr); [discriminate|].
    apply round_double_nonneg. apply Qle_shift_div_l; [reflexivity|].
    rewrite Qmult_0_l. change 0%Q with (inject_Z 0). rewrite <- Zle_Qle.
    apply getDpiForWindow_range. }
  assert (Hfloor : (0 <= inject_Z (qFloor dpr))%Q).
  { change 0%Q with (inject_Z 0). rewrite <- Zle_Qle.
    exact (Qfloor_resp_le _ _ Hd). }
  assert (Hceil : (0 <= inject_Z (qCeil dpr))%Q).
  { change 0%Q with (inject_Z 0). rewrite <- Zle_Qle.
    exact (Qceiling_resp_le _ _ Hd). }
  assert (Hround : (0 <= inject_Z (qRound dpr))%Q).
  { change 0%Q with (inject_Z 0). rewrite <- Zle_Qle. unfold qRound.
    destruct (Qle_bool 0 dpr) eqn:E.
    - assert (Hs : (0 <= qreal_add dpr (1 # 2))%Q)
        by (apply round_double_nonneg; lra).
      rewrite to_int_nonneg by exact Hs. exact (Qfloor_resp_le _ _ Hs).
    - apply Qle_bool_iff in Hd. congruence. }
  destruct (highDpiScaleFactorRoundingPolicy os); assumption.
Qed.

(** Inside a scaled rectangle of the hit test: strictly between its left
    and right and between its top and bottom sides. *)
Lemma insideScaledArea_sides x y dpr area :
  (0 <= dpr)%Q -> isValid area = true ->
  let l := scaled (Qt.x area) dpr in
  let t := scaled (Qt.y area) dpr in
  let w := scaled (width area) dpr in
  let h := scaled (height area) dpr in
  insideScaledArea x y dpr area
  <-> l < x < l + w - 1 /\ t < y < t + h - 1.
Proof.
  intros Hd Hv l t w h. unfold insideScaledArea, scaledArea.
  fold l t w h.
  assert (Hw : 0 <= w /\ 0 <= h).
  { unfold isValid in Hv. apply andb_true_iff in Hv as [H1 H2].
    apply Z.leb_le in H1, H2.
    split; apply scaled_nonneg; try exact Hd; unfold width, height; lia. }
  rewrite contains_proper_iff by (unfold mkQRect; cbn; lia).
  unfold mkQRect. cbn [x1 x2 y1 y2]. tauto.
Qed.

(** C1. For a pointer position strictly inside the client rectangle and
    above the effective title-bar height, the title-strip test of the native
    hit test ([isTitlebar]) holds exactly when the point lies in no scaled
    rectangle of [ignoreAreas] and [draggableAreas] is empty or has a scaled
    rectangle around the point.  A point inside a rectangle of [ignoreAreas]
    fails the test whatever [draggableAreas] is, and the hit test then does
    not answer [HTCAPTION]; the answer [HTCAPTION] is only given when the
    test holds: for a maximized window exactly then, for any other window
    exactly when in addition the point is in none of the four resize bands,
    which are looked at first.  A point is inside a scaled rectangle when
    it lies strictly between the scaled left side and that side plus the
    scaled width less one, and likewise between top and bottom. *)
Theorem title_strip_classification os st h lp d :
  let v := fst (getHTResult_locals os h lp d st) in
  let wdata := windowData (deref st d) in
  let x := px (mouse v) in
  let y := py (mouse v) in
  let scale := getDprForWindow os st h in
  0 < x < right (GetClientRect os h) ->
  0 < y < bottom (GetClientRect os h) ->
  y < fst (titlebarHeight os h st) ->
  (isTitlebar v = true <->
     ~ insideSomeArea x y (ignoreAreas wdata) scale
     /\ (draggableAreas wdata = []
         \/ insideSomeArea x y (draggableAreas wdata) scale))
  /\ (insideSomeArea x y (ignoreAreas wdata) scale ->
        isTitlebar v = false
        /\ fst (getHTResult os h lp d st) <> HTCAPTION)
  /\ (fst (getHTResult os h lp d st) = HTCAPTION -> isTitlebar v = true)
  /\ (IsMaximized os h = true ->
        (fst (getHTResult os h lp d st) = HTCAPTION <-> isTitlebar v = true))
  /\ (IsMaximized os h = false ->
        (fst (getHTResult os h lp d st) = HTCAPTION <->
           isTitlebar v = true
           /\ bh v <= y <= wh v - bh v /\ bw v <= x <= ww v - bw v))
  /\ (forall area, isValid area = true ->
        (insideScaledArea x y scale area <->
           scaled (Qt.x area) scale < x
             < scaled (Qt.x area) scale + scaled (width area) scale - 1
           /\ scaled (Qt.y area) scale < y
               < scaled (Qt.y area) scale + scaled (height area) scale - 1)).
Proof.
  intros v wdata x y scale Hx Hy Htbh.
  assert (Hsides : forall area, isValid area = true ->
        (insideScaledArea x y scale area <->
           scaled (Qt.x area) scale < x
             < scaled (Qt.x area) scale + scaled (width area) scale - 1
           /\ scaled (Qt.y area) scale < y
               < scaled (Qt.y area) scale + scaled (height area) scale - 1)).
  { intros area Hv.
    apply (insideScaledArea_sides x y scale area); [|exact Hv].
    apply getDprForWindow_nonneg. }
  destruct (getHTResult_locals_fields os h lp d st)
    as (_ & Hww & Hwh & _ & Hin & Hdpr & Htb).
  destruct (getHTResult_locals_metrics os h lp d st) as (_ & _ & Htbh').
  fold v in Hww, Hwh, Hin, Hdpr, Htb, Htbh'. fold wdata in Htb.
  fold x y in Hin, Htb. fold scale in Hdpr.
  rewrite Hdpr in Htb. rewrite <- Hww in Hx. rewrite <- Hwh in Hy.
  rewrite <- Htbh' in Htbh.
  assert (Hinside : isInsideWindow v = true).
  { rewrite Hin. repeat (apply andb_true_intro; split);
      apply Z.ltb_lt; lia. }
  assert (Hstrip : (y <? tbh v) = true) by (apply Z.ltb_lt; lia).
  rewrite Hinside, Hstrip in Htb. simpl in Htb.
  assert (Hiff : isTitlebar v = true <->
     ~ insideSomeArea x y (ignoreAreas wdata) scale
     /\ (draggableAreas wdata = []
         \/ insideSomeArea x y (draggableAreas wdata) scale)).
  { rewrite Htb, andb_true_iff, negb_true_iff.
    rewrite <- !isInSpecificAreas_iff.
    destruct (isInSpecificAreas x y (ignoreAreas wdata) scale).
    - split; [intros [Hf _]; discriminate|intros [Hn _]; exfalso; auto].
    - case_bool_decide as Hd.
      + split; intros _; (split; [congruence || reflexivity|auto]).
      + split.
        * intros [_ Ht]. split; [discriminate|right; exact Ht].
        * intros [_ [He|Ht]]; [contradiction|split; [reflexivity|exact Ht]]. }
  assert (Hcap : fst (getHTResult os h lp d st) = HTCAPTION -> isTitlebar v = true).
  { rewrite getHTResult_eq. cbn [fst]. apply getHTResult_resolve_caption. }
  split; [exact Hiff|]. split; [|split; [exact Hcap|split; [|split]]];
    [| | |exact Hsides].
  - intros Hign.
    assert (Hfalse : isTitlebar v = false).
    { destruct (isTitlebar v) eqn:E; [|reflexivity].
      destruct Hiff as [Hiff _]. destruct (Hiff eq_refl) as [Hn _].
      contradiction. }
    split; [exact Hfalse|]. intros Hr. apply Hcap in Hr. congruence.
  - intros Hmax. split; [exact Hcap|]. intros Ht.
    rewrite getHTResult_eq. cbn [fst]. unfold getHTResult_resolve.
    fold v. rewrite Hmax, Ht. reflexivity.
  - intros Hmax. rewrite getHTResult_eq. cbn [fst]. fold v.
    unfold getHTResult_resolve, isTop, isBottom, isLeft, isRight.
    rewrite Hmax, Hinside. cbn [andb]. fold x y.
    destruct (y <? bh v) eqn:E1, (wh v - bh v <? y) eqn:E2,
             (x <? bw v) eqn:E3, (ww v - bw v <? x) eqn:E4,
             (isTitlebar v);
      split; try discriminate; try (intros [? ?]; discriminate || lia);
      intros _; (split; [reflexivity|lia]).
Qed.

Lemma title_strip_classification_witness :
  let os := Scenario.os false Scenario.screen in
  let st := Scenario.registered [mkQRect 350 0 100 32] [] in
  let v := fst (getHTResult_locals os 7 (Scenario.at_point 400 16) 7 st) in
  (0 < 400 < 800 /\ 0 < 16 < 600 /\ 16 < 32)
  /\ isTitlebar v = false
  /\ fst (getHTResult os 7 (Scenario.at_point 400 16) 7 st) <> HTCAPTION.
Proof.
  intros os st v.
  assert (Hx : 0 < 400 < 800) by lia.
  assert (Hy : 0 < 16 < 600) by lia.
  assert (Ht : 16 < 32) by lia.
  split; [auto|].
  apply (proj1 (proj2
    (title_strip_classification os st 7 (Scenario.at_point 400 16) 7 Hx Hy Ht))).
  apply Exists_cons_hd. split; reflexivity.
Defined.

(** C1, as the claim states it, fails for a window that is not maximized.
    The point (400, 4) lies strictly inside the client rectangle of 800 x 600
    and above the title-bar height of 32; there is no ignore area and
    [draggableAreas] is empty, so the title-strip test holds.  But the point
    is in the top resize band of 8, which is looked at first, and the hit
    test answers [HTTOP], not [HTCAPTION]. *)
Lemma title_strip_point_in_resize_band :
  let os := Scenario.os false Scenario.screen in
  let st := Scenario.registered [] [] in
  let lp := Scenario.at_point 400 4 in
  let v := fst (getHTResult_locals os 7 lp 7 st) in
  let wdata := windowData (deref st 7) in
  IsMaximized os 7 = false
  /\ (px (mouse v) = 400 /\ py (mouse v) = 4)
  /\ (0 < 400 < right (GetClientRect os 7)
      /\ 0 < 4 < bottom (GetClientRect os 7))
  /\ 4 < fst (titlebarHeight os 7 st)
  /\ ~ insideSomeArea 400 4 (ignoreAreas wdata) (getDprForWindow os st 7)
  /\ draggableAreas wdata = []
  /\ isTitlebar v = true
  /\ fst (getHTResult os 7 lp 7 st) = HTTOP
  /\ fst (getHTResult os 7 lp 7 st) <> HTCAPTION.
Proof.
  intros os st lp v wdata.
  assert (Hr : fst (getHTResult os 7 lp 7 st) = HTTOP)
    by (vm_compute; reflexivity).
  split; [reflexivity|]. split; [split; vm_compute; reflexivity|].
  split; [split; split; vm_compute; reflexivity|].
  split; [vm_compute; reflexivity|].
  assert (Hi : ignoreAreas wdata = []) by (vm_compute; reflexivity).
  split; [rewrite Hi; intros H; inversion H|].
  split; [vm_compute; reflexivity|].
  split; [vm_compute; reflexivity|]. split; [exact Hr|].
  rewrite Hr. discriminate.
Qed.

(** C2. For a maximized window the hit test answers [HTCAPTION] when the
    title-strip test holds and [HTCLIENT] otherwise, whatever the pointer
    position: never an edge or a corner. *)
Theorem maximized_hit_test os st h lp d :
  IsMaximized os h = true ->
  let v := fst (getHTResult_locals os h lp d st) in
  let r := fst (getHTResult os h lp d st) in
  r = (if isTitlebar v then HTCAPTION else HTCLIENT)
  /\ (r = HTCAPTION \/ r = HTCLIENT)
  /\ ~ is_edge_or_corner r.
Proof.
  intros Hmax v r.
  assert (Hr : r = if isTitlebar v then HTCAPTION else HTCLIENT).
  { subst r. rewrite getHTResult_eq. cbn [fst]. unfold getHTResult_resolve.
    rewrite Hmax. reflexivity. }
  split; [exact Hr|]. rewrite Hr.
  destruct (isTitlebar v); (split; [auto|]);
    unfold is_edge_or_corner; intros H;
    repeat (destruct H as [H|H]; [discriminate H|]); discriminate H.
Qed.

Lemma maximized_hit_test_witness :
  let os := Scenario.os true Scenario.screen in
  let st := Scenario.registered [] [] in
  IsMaximized os 7 = true
  /\ fst (getHTResult os 7 (Scenario.at_point 4 4) 7 st) = HTCAPTION.
Proof.
  intros os st. split; [reflexivity|].
  destruct (maximized_hit_test os st 7 (Scenario.at_point 4 4) 7 eq_refl)
    as [Hr _].
  rewrite Hr. reflexivity.
Defined.

(** C3. For a window that is not maximized the hit test forms four band
    tests, each only for a point strictly inside the client rectangle (top:
    y < borderHeight; bottom: y > height - borderHeight; left:
    x < borderWidth; right: x > width - borderWidth), and answers by
    priority: the corners top-left, top-right, bottom-left, bottom-right,
    then the edges top, bottom, left, right, then the title bar, else the
    client area.  Width and height are those of the client rectangle, the
    border sizes those of [borderWidth] and [borderHeight]. *)
Theorem edge_corner_resolution os st h lp d :
  IsMaximized os h = false ->
  let v := fst (getHTResult_locals os h lp d st) in
  let x := px (mouse v) in
  let y := py (mouse v) in
  let inside := (0 <? x) && (x <? ww v) && (0 <? y) && (y <? wh v) in
  fst (getHTResult os h lp d st)
  = edge_priority (inside && (y <? bh v)) (inside && (y >? wh v - bh v))
                  (inside && (x <? bw v)) (inside && (x >? ww v - bw v))
                  (isTitlebar v)
  /\ ww v = right (GetClientRect os h)
  /\ wh v = bottom (GetClientRect os h)
  /\ bw v = fst (borderWidth os h st)
  /\ bh v = fst (borderHeight os h st).
Proof.
  intros Hmax v x y inside.
  destruct (getHTResult_locals_fields os h lp d st)
    as (_ & Hww & Hwh & _ & Hin & _ & _).
  destruct (getHTResult_locals_metrics os h lp d st) as (Hbw & Hbh & _).
  fold v in Hww, Hwh, Hin, Hbw, Hbh. fold x y in Hin. fold inside in Hin.
  split; [|auto].
  rewrite getHTResult_eq. cbn [fst]. fold v.
  unfold getHTResult_resolve, isTop, isBottom, isLeft, isRight, edge_priority.
  rewrite Hmax, Hin. fold x y. rewrite !Z.gtb_ltb.
  destruct inside, (y <? bh v), (wh v - bh v <? y), (x <? bw v),
           (ww v - bw v <? x), (isTitlebar v); reflexivity.
Qed.

Lemma edge_corner_resolution_witness :
  let os := Scenario.os false Scenario.screen in
  let st := Scenario.registered [] [] in
  IsMaximized os 7 = false
  /\ fst (getHTResult os 7 (Scenario.at_point 796 4) 7 st) = HTTOPRIGHT.
Proof.
  intros os st. split; [reflexivity|].
  destruct (edge_corner_resolution os st 7 (Scenario.at_point 796 4) 7 eq_refl)
    as [Hr _].
  rewrite Hr. reflexivity.
Defined.

(** C4. For a pointer position that is not strictly inside the client
    rectangle, and so for every position strictly outside it, the hit test
    answers [HTCLIENT], whether the window is maximized or not. *)
Theorem outside_is_client os st h lp d :
  let v := fst (getHTResult_locals os h lp d st) in
  let x := px (mouse v) in
  let y := py (mouse v) in
  ~ (0 < x < right (GetClientRect os h) /\ 0 < y < bottom (GetClientRect os h)) ->
  fst (getHTResult os h lp d st) = HTCLIENT
  /\ isTitlebar v = false.
Proof.
  intros v x y Hout.
  destruct (getHTResult_locals_fields os h lp d st)
    as (_ & Hww & Hwh & _ & Hin & _ & Htb).
  fold v in Hww, Hwh, Hin, Htb. fold x y in Hin.
  assert (Hinside : isInsideWindow v = false).
  { rewrite Hin, Hww, Hwh.
    destruct (0 <? x) eqn:E1, (x <? right (GetClientRect os h)) eqn:E2,
             (0 <? y) eqn:E3, (y <? bottom (GetClientRect os h)) eqn:E4;
      try reflexivity.
    exfalso. apply Hout. lia. }
  assert (Htitle : isTitlebar v = false) by (rewrite Htb, Hinside; reflexivity).
  split; [|exact Htitle].
  rewrite getHTResult_eq. cbn [fst]. fold v.
  unfold getHTResult_resolve, isTop, isBottom, isLeft, isRight.
  rewrite Hinside, Htitle. simpl. destruct (IsMaximized os h); reflexivity.
Qed.

Lemma outside_is_client_witness :
  let os := Scenario.os false Scenario.screen in
  let st := Scenario.registered [] [] in
  ~ (0 < 900 < 800 /\ 0 < 16 < 600)
  /\ fst (getHTResult os 7 (Scenario.at_point 900 16) 7 st) = HTCLIENT.
Proof.
  intros os st.
  assert (Hout : ~ (0 < 900 < 800 /\ 0 < 16 < 600)) by lia.
  split; [exact Hout|].
  exact (proj1 (outside_is_client os st 7 (Scenario.at_point 900 16) 7 Hout)).
Defined.

(** ** DPI tiers and scale factor *)

(** C9, as the code has it.  The query never fails: it always yields a
    [UINT], the answer of the first available tier in the order that goes
    with the handle.  For a window these are the per-window query, the
    per-monitor query, the screen fallback (Direct2D desktop DPI, else the
    device context of the screen) and the baseline of 96; without a window
    they are the per-process query, the per-system query, the screen
    fallback and the baseline. *)
Theorem dpi_tiers_by_handle os st h :
  getDpiForWindow os st h = first_available os st h (order_for h)
  /\ 0 <= getDpiForWindow os st h < 2 ^ 32.
Proof.
  split; [|apply getDpiForWindow_range].
  unfold getDpiForWindow, order_for, getScreenDpi.
  destruct (h =? nullptr); cbn [first_available tier_answer].
  - destruct (m_GetSystemDpiForProcess (caps st)); [reflexivity|].
    destruct (m_GetDpiForSystem (caps st)); [reflexivity|]. cbn.
    destruct (D2D1_GetDesktopDpi os); [reflexivity|].
    destruct (GetDeviceCaps_LOGPIXELS os) as [[dx dy]|]; reflexivity.
  - destruct (m_GetDpiForWindow (caps st)); [reflexivity|].
    destruct (m_GetDpiForMonitor (caps st)); [reflexivity|]. cbn.
    destruct (D2D1_GetDesktopDpi os); [reflexivity|].
    destruct (GetDeviceCaps_LOGPIXELS os) as [[dx dy]|]; reflexivity.
Qed.

(** C9, as the claim states it, fails: for a window, with the per-window
    query unavailable and both the per-system and the per-monitor query
    available, the code answers with the monitor's 144 where the claimed
    order would answer with the system's 96. *)
Lemma dpi_tiers_claimed_order_fails :
  let os := Scenario.os false Scenario.screen in
  let st := set_caps Scenario.caps_system_and_monitor initial_State in
  getDpiForWindow os st 7 = 144
  /\ first_available os st 7 claimed_order = 96
  /\ getDpiForWindow os st 7 <> first_available os st 7 claimed_order.
Proof. vm_compute. repeat split; discriminate. Qed.

Lemma dpi_quotient_nonneg dpi :
  0 <= dpi -> (0 <= inject_Z dpi / inject_Z USER_DEFAULT_SCREEN_DPI)%Q.
Proof.
  intros H. apply Qle_shift_div_l; [reflexivity|].
  rewrite Qmult_0_l. change 0%Q with (inject_Z 0).
  rewrite <- Zle_Qle. exact H.
Qed.

(** Without a window no DPI is looked at: the scale factor is the default
    1.0 under every policy. *)
Lemma getDprForWindow_nullptr os st : (getDprForWindow os st nullptr == 1)%Q.
Proof.
  unfold getDprForWindow. cbn [Z.eqb nullptr].
  destruct (highDpiScaleFactorRoundingPolicy os); vm_compute; reflexivity.
Qed.

(** The scale factor of a window under the three policies that round is
    the one the exact quotient gives. *)
Lemma getDprForWindow_rounded os st h :
  h <> nullptr ->
  let q := (inject_Z (getDpiForWindow os st h)
            / inject_Z USER_DEFAULT_SCREEN_DPI)%Q in
  let d := qreal_div (inject_Z (getDpiForWindow os st h))
             (inject_Z USER_DEFAULT_SCREEN_DPI) in
  getDprForWindow os st h
  = match highDpiScaleFactorRoundingPolicy os with
    | PassThrough => d
    | Floor => inject_Z (Qfloor q)
    | Ceil => inject_Z (Qceiling q)
    | _ => inject_Z (Qfloor (q + (1 # 2)))
    end.
Proof.
  intros Hh q d.
  destruct (dpi_quotient_rounding _ (getDpiForWindow_range os st h))
    as (_ & Hf & Hc & Hr & _).
  fold q d in Hf, Hc, Hr.
  unfold getDprForWindow.
  assert (Hz : (h =? nullptr) = false) by (apply Z.eqb_neq; exact Hh).
  rewrite Hz. fold d. rewrite Hf, Hc, Hr. reflexivity.
Qed.

(** C5. For a window, the scale factor is the DPI divided by the baseline of
    96, adjusted by the rounding policy: unchanged for pass-through, the
    floor, the ceiling, or else (round, and every policy that is none of the
    three, such as an unset one) the nearest integer.  The quotient is the
    one of [qreal], the double nearest to the exact quotient; under the
    policies that round, and for a DPI that is a multiple of 3 under
    pass-through as well, the exact quotient gives the same scale factor.
    Under a fixed policy the scale factor of a window does not decrease
    when the DPI grows.  Without a window the scale factor is the default
    1.0. *)
Theorem scale_factor_of_dpi os st h :
  h <> nullptr ->
  let dpi := getDpiForWindow os st h in
  let policy := highDpiScaleFactorRoundingPolicy os in
  adjusted policy (qreal_div (inject_Z dpi) (inject_Z 96))
    (getDprForWindow os st h)
  /\ (policy <> PassThrough \/ (exists k, dpi = 3 * k) ->
      adjusted policy (inject_Z dpi / inject_Z 96) (getDprForWindow os st h))
  /\ (forall os' st' h',
       h' <> nullptr ->
       highDpiScaleFactorRoundingPolicy os' = policy ->
       dpi <= getDpiForWindow os' st' h' ->
       (getDprForWindow os st h <= getDprForWindow os' st' h')%Q)
  /\ (getDprForWindow os st nullptr == 1)%Q.
Proof.
  intros Hh dpi policy.
  pose proof (getDpiForWindow_range os st h) as Hdpi. fold dpi in Hdpi.
  pose proof (getDprForWindow_rounded os st h Hh) as Hr.
  cbv zeta in Hr. fold dpi policy in Hr.
  destruct (dpi_quotient_rounding dpi Hdpi) as (Hd0 & Hf & Hc & Hn & Hb).
  change (inject_Z 96) with (inject_Z USER_DEFAULT_SCREEN_DPI).
  set (q := (inject_Z dpi / inject_Z USER_DEFAULT_SCREEN_DPI)%Q) in *.
  set (d := qreal_div (inject_Z dpi) (inject_Z USER_DEFAULT_SCREEN_DPI)) in *.
  assert (Hround_d : exists n : Z,
            inject_Z (Qfloor (q + (1 # 2))) = inject_Z n
            /\ (inject_Z n - (1 # 2) <= d < inject_Z n + (1 # 2))%Q).
  { exists (Qfloor (q + (1 # 2))). split; [reflexivity|exact Hb]. }
  assert (Hround_q : exists n : Z,
            inject_Z (Qfloor (q + (1 # 2))) = inject_Z n
            /\ (inject_Z n - (1 # 2) <= q < inject_Z n + (1 # 2))%Q).
  { exists (Qfloor (q + (1 # 2))). split; [reflexivity|].
    pose proof (Qfloor_le (q + (1 # 2))) as H1.
    pose proof (Qlt_floor (q + (1 # 2))) as H2.
    rewrite inject_Z_plus in H2. change (inject_Z 1) with 1%Q in H2.
    split; lra. }
  assert (Hfloor : forall x, exists n : Z,
            inject_Z (Qfloor x) = inject_Z n
            /\ (inject_Z n <= x < inject_Z n + 1)%Q).
  { intros x. exists (Qfloor x). split; [reflexivity|].
    pose proof (Qfloor_le x) as H1. pose proof (Qlt_floor x) as H2.
    rewrite inject_Z_plus in H2. change (inject_Z 1) with 1%Q in H2.
    split; lra. }
  assert (Hceil : forall x, exists n : Z,
            inject_Z (Qceiling x) = inject_Z n
            /\ (inject_Z n - 1 < x <= inject_Z n)%Q).
  { intros x. exists (Qceiling x). split; [reflexivity|].
    pose proof (Qle_ceiling x) as H1. pose proof (Qceiling_lt x) as H2.
    rewrite inject_Z_sub in H2. change (inject_Z 1) with 1%Q in H2.
    split; lra. }
  split; [|split; [|split]].
  - rewrite Hr. unfold adjusted. unfold qFloor, qCeil in Hf, Hc.
    destruct policy; try exact Hround_d.
    + rewrite <- Hc. apply Hceil.
    + rewrite <- Hf. apply Hfloor.
    + reflexivity.
  - intros Hp. rewrite Hr. unfold adjusted.
    destruct policy; try exact Hround_q.
    + apply Hceil.
    + apply Hfloor.
    + destruct Hp as [Hp|[k Hk]]; [congruence|].
      apply (dpi_quotient_exact dpi k Hdpi Hk).
  - intros os' st' h' Hh' Hpol Hle.
    pose proof (getDpiForWindow_range os' st' h') as Hdpi'.
    pose proof (getDprForWindow_rounded os' st' h' Hh') as Hr'.
    cbv zeta in Hr'. rewrite Hpol in Hr'. rewrite Hr, Hr'.
    assert (Hmono : (q <= inject_Z (getDpiForWindow os' st' h')
                          / inject_Z USER_DEFAULT_SCREEN_DPI)%Q).
    { unfold q, Qdiv. apply Qmult_le_compat_r.
      - rewrite <- Zle_Qle. exact Hle.
      - discriminate. }
    assert (Hround : (inject_Z (Qfloor (q + (1 # 2)))
                      <= inject_Z (Qfloor
                           (inject_Z (getDpiForWindow os' st' h')
                            / inject_Z USER_DEFAULT_SCREEN_DPI + (1 # 2))))%Q).
    { rewrite <- Zle_Qle. apply Qfloor_resp_le. lra. }
    destruct policy; try exact Hround.
    + rewrite <- Zle_Qle. apply Qceiling_resp_le. exact Hmono.
    + rewrite <- Zle_Qle. apply Qfloor_resp_le. exact Hmono.
    + apply dpi_quotient_double_mono; [lia|exact Hle].
  - apply getDprForWindow_nullptr.
Qed.

Lemma scale_factor_of_dpi_witness :
  let os := Scenario.os false Scenario.screen in
  let st := Scenario.registered [] [] in
  7 <> nullptr
  /\ adjusted Round
       (qreal_div (inject_Z (getDpiForWindow os st 7)) (inject_Z 96))
       (getDprForWindow os st 7).
Proof.
  intros os st.
  assert (H7 : 7 <> nullptr) by discriminate.
  split; [exact H7|].
  exact (proj1 (scale_factor_of_dpi os st 7 H7)).
Defined.

(** C5, as the claim states it, fails without a window: for the null
    handle the DPI resolved is 192, and the scale factor is the default 1
    where 192 divided by 96 and rounded is 2. *)
Lemma scale_factor_without_window_ignores_dpi :
  let os := Scenario.os false Scenario.screen in
  let st :=
    set_caps
      {| m_GetSystemDpiForProcess := None; m_GetDpiForWindow := None;
         m_GetDpiForSystem := Some 192; m_GetSystemMetricsForDpi := None;
         m_GetDpiForMonitor := None;
         m_SetWindowCompositionAttribute := false |}
      initial_State in
  highDpiScaleFactorRoundingPolicy os = Round
  /\ getDpiForWindow os st nullptr = 192
  /\ getDprForWindow os st nullptr = inject_Z 1
  /\ ~ adjusted Round (inject_Z (getDpiForWindow os st nullptr) / inject_Z 96)
         (getDprForWindow os st nullptr)
  /\ ~ adjusted Round
         (qreal_div (inject_Z (getDpiForWindow os st nullptr)) (inject_Z 96))
         (getDprForWindow os st nullptr).
Proof.
  intros os st.
  assert (Hr : getDprForWindow os st nullptr = inject_Z 1)
    by (vm_compute; reflexivity).
  split; [reflexivity|]. split; [reflexivity|]. split; [exact Hr|].
  rewrite Hr.
  split; intros (n & Hn & Hb); injection Hn as <-;
    destruct Hb as [_ Hb]; vm_compute in Hb; discriminate Hb.
Qed.

(** Under pass-through the product of a length and the scale factor is
    taken in double precision: at 208 DPI the exact product of 54 and
    208 / 96 is 117, the quotient as a double lies below 13 / 6, and
    [scaled] gives 116. *)
Example scaled_in_double_precision :
  scaled 54 (qreal_div (inject_Z 208) (inject_Z 96)) = 116
  /\ to_int (inject_Z 54 * (inject_Z 208 / inject_Z 96))%Q = 117
  /\ (qreal_div (inject_Z 208) (inject_Z 96) < 13 # 6)%Q.
Proof. vm_compute. repeat split. Qed.

(** ** Frame query *)

Lemma land_autohide state :
  negb (Z.land state ABS_AUTOHIDE =? 0) = Z.testbit state 0.
Proof.
  change ABS_AUTOHIDE with (Z.ones 1).
  rewrite Z.land_ones by lia. rewrite Z.bit0_odd.
  change (2 ^ 1) with 2. rewrite Zmod_odd.
  destruct (Z.odd state); reflexivity.
Qed.

(** The body of [case WM_NCCALCSIZE] computes [frame_rect]. *)
Lemma ncCalcSize_frame_rect os h wParam r :
  ncCalcSize os h wParam r = frame_rect os h wParam r.
Proof.
  unfold ncCalcSize, frame_rect, autoHideTaskbarOn, trim.
  rewrite land_autohide.
  generalize (Z.testbit (ABM_GETSTATE os) 0). intros autohide.
  destruct (to_BOOL wParam), (IsMaximized os h),
           (MonitorFromWindow os h =? nullptr),
           (EqualRect (rcWork os (MonitorFromWindow os h))
              (rcMonitor os (MonitorFromWindow os h))),
           autohide,
           (FindWindow_Shell_TrayWnd os =? nullptr),
           (MonitorFromWindow os (FindWindow_Shell_TrayWnd os) =? nullptr),
           (MonitorFromWindow os (FindWindow_Shell_TrayWnd os)
            =? MonitorFromWindow os h);
    reflexivity.
Qed.

(** What the filter answers to [WM_NCCALCSIZE] once the message is let in. *)
Lemma framelessHandling_NCCALCSIZE os msg st :
  message msg = WM_NCCALCSIZE ->
  fst (framelessHandling os msg st)
  = {| handled := true; result := Some 0;
       target' :=
         match target msg with
         | Rgrc0 r => Rgrc0 (ncCalcSize os (hwnd msg) (wParam msg) r)
         | t => t
         end |}.
Proof.
  intros Hm. unfold framelessHandling, bind, get.
  destruct (createUserData (hwnd msg) None st) as [[] s1].
  destruct (when _ _ s1) as [[] s2].
  rewrite Hm. reflexivity.
Qed.

(** C6, as the code has it.  A frame query for a managed window is always
    marked handled with result 0.  When [wParam] is true, the window is
    maximized and its monitor is found, the proposed client rectangle is
    replaced by the work area of the monitor, and when the work area equals
    the monitor rectangle and an auto-hiding taskbar sits on that monitor,
    one pixel is taken off the side of the taskbar.  In every other case,
    a query with a false [wParam] included, the rectangle is left as
    proposed. *)
Theorem frame_query os st msg :
  hwnd msg <> nullptr ->
  isFramelessMessage os st msg = true ->
  message msg = WM_NCCALCSIZE ->
  let o := fst (nativeEventFilter os msg st) in
  handled o = true
  /\ result o = Some 0
  /\ forall proposed,
       target msg = Rgrc0 proposed ->
       target' o = Rgrc0 (frame_rect os (hwnd msg) (wParam msg) proposed).
Proof.
  intros Hh Hgate Hm o. subst o.
  unfold nativeEventFilter, bind, get.
  apply Z.eqb_neq in Hh. rewrite Hh, Hgate. cbn [negb].
  rewrite (framelessHandling_NCCALCSIZE os msg st Hm). cbn.
  repeat split. intros proposed ->. rewrite ncCalcSize_frame_rect. reflexivity.
Qed.

Lemma frame_query_witness :
  let os := Scenario.os true Scenario.screen in
  let st := Scenario.registered [] [] in
  let msg := {| hwnd := 7; message := WM_NCCALCSIZE; wParam := 1; lParam := 0;
                target := Rgrc0 {| left := 100; top := 100;
                                   right := 500; bottom := 400 |} |} in
  (hwnd msg <> nullptr /\ isFramelessMessage os st msg = true
   /\ message msg = WM_NCCALCSIZE)
  /\ target' (fst (nativeEventFilter os msg st))
     = Rgrc0 {| left := 0; top := 0; right := 1920; bottom := 1079 |}.
Proof.
  intros os st msg.
  assert (Hh : hwnd msg <> nullptr) by discriminate.
  assert (Hg : isFramelessMessage os st msg = true) by reflexivity.
  assert (Hm : message msg = WM_NCCALCSIZE) by reflexivity.
  split; [auto|].
  destruct (frame_query os st msg Hh Hg Hm) as (_ & _ & Hrect).
  rewrite (Hrect _ eq_refl). reflexivity.
Defined.

(** C6, as the claim states it, fails: a frame query with a false [wParam]
    for a maximized window leaves the proposed rectangle as it is, where the
    claim has it replaced by the work area of the monitor. *)
Lemma frame_query_false_wParam_keeps_rect :
  let work := {| left := 0; top := 0; right := 1920; bottom := 1040 |} in
  let os := Scenario.os true work in
  let st := Scenario.registered [] [] in
  let proposed := {| left := 100; top := 100; right := 500; bottom := 400 |} in
  let msg := {| hwnd := 7; message := WM_NCCALCSIZE; wParam := 0; lParam := 0;
                target := Rgrc0 proposed |} in
  IsMaximized os 7 = true
  /\ target' (fst (nativeEventFilter os msg st)) = Rgrc0 proposed
  /\ claimed_frame_rect os 7 proposed = work
  /\ target' (fst (nativeEventFilter os msg st))
     <> Rgrc0 (claimed_frame_rect os 7 proposed).
Proof. vm_compute. repeat split; discriminate. Qed.

(** ** Registration *)

Lemma install_framelessWindows os st :
  m_framelessWindows (snd (install os st)) = m_framelessWindows st.
Proof.
  unfold install, when, bind, get, update, ret, initDLLs.
  destruct (instance st); reflexivity.
Qed.

Lemma createUserData_framelessWindows h data st :
  m_framelessWindows (snd (createUserData h data st)) = m_framelessWindows st.
Proof.
  unfold createUserData, when, bind, get, update, ret.
  destruct (h =? nullptr); [reflexivity|]. simpl.
  destruct (userData st !! h), data; reflexivity.
Qed.

Lemma bind_run {A B} (m : M A) (k : A -> M B) st :
  bind m k st = k (fst (m st)) (snd (m st)).
Proof. unfold bind. destruct (m st). reflexivity. Qed.

(** After [addFramelessWindow] a non-null window is in the list. *)
Lemma addFramelessWindow_registered os window data st :
  window <> nullptr ->
  window ∈ m_framelessWindows (snd (addFramelessWindow os window data st)).
Proof.
  intros Hw. apply Z.eqb_neq in Hw.
  unfold addFramelessWindow, when. rewrite bind_run.
  unfold get at 1. cbn [fst snd]. rewrite Hw.
  case_bool_decide as Hin; cbn [negb andb]; [exact Hin|].
  rewrite !bind_run. rewrite install_framelessWindows.
  assert (H1 : window ∈ m_framelessWindows st ++ [window])
    by (apply elem_of_app; right; apply list_elem_of_singleton; reflexivity).
  destruct data as [d|].
  - rewrite createUserData_framelessWindows. exact H1.
  - exact H1.
Qed.

(** [addFramelessWindow] on a null or listed window returns at once. *)
Lemma addFramelessWindow_listed os window data st :
  window = nullptr \/ window ∈ m_framelessWindows st ->
  addFramelessWindow os window data st = (tt, st).
Proof.
  intros H. unfold addFramelessWindow, when, bind, get, ret.
  destruct H as [->|Hin]; [reflexivity|].
  rewrite (bool_decide_eq_true_2 _ Hin), andb_false_r. reflexivity.
Qed.

(** C7. A second [addWindow] for a window id that the first call
    registered finds the id in the table and returns without inserting:
    the table, with the record of the first call and its settings, the
    number of event filters and the calls made are what they were, whatever
    settings the second call brings.  The same holds for a second
    [addFramelessWindow] of the native filter: the list, the user data and
    the calls are unchanged.  Both functions are [void]; what they report
    is the state they leave. *)
Theorem second_addWindow_is_noop
    {UserSettings SystemParameters QWindowPtr : Type}
    (isValid : SystemParameters -> bool)
    (getWindowId : SystemParameters -> FramelessHelperQt.WId)
    (getWindowHandle : SystemParameters -> QWindowPtr)
    (getWindowFlags : SystemParameters -> Z)
    (s1 s2 : UserSettings) (p1 p2 : SystemParameters)
    (g : FramelessHelperQt.QtHelper (QWindowPtr := QWindowPtr))
    (os : Os) (window : HWND) (d1 d2 : option WINDOWDATA) (st : State) :
  isValid p1 = true ->
  getWindowId p2 = getWindowId p1 ->
  let add :=
    FramelessHelperQt.addWindow isValid getWindowId getWindowHandle
      getWindowFlags in
  let g1 := add s1 p1 g in
  let st1 := snd (addFramelessWindow os window d1 st) in
  (is_Some (FramelessHelperQt.data g1 !! getWindowId p1)
   /\ add s2 p2 g1 = g1)
  /\ addFramelessWindow os window d2 st1 = (tt, st1).
Proof.
  intros Hvalid Hid add g1 st1. split.
  - assert (Hsome : is_Some (FramelessHelperQt.data g1 !! getWindowId p1)).
    { subst g1 add. unfold FramelessHelperQt.addWindow. rewrite Hvalid. simpl.
      destruct (FramelessHelperQt.data g !! getWindowId p1) eqn:E.
      - rewrite E. eauto.
      - simpl. rewrite lookup_insert_eq. eauto. }
    split; [exact Hsome|].
    destruct Hsome as [r Hr].
    subst add. unfold FramelessHelperQt.addWindow at 1.
    destruct (isValid p2); [|reflexivity]. simpl.
    rewrite Hid, Hr. reflexivity.
  - apply addFramelessWindow_listed.
    destruct (decide (window = nullptr)) as [Hz|Hnz]; [left; exact Hz|].
    right. apply addFramelessWindow_registered, Hnz.
Qed.

Lemma second_addWindow_is_noop_witness :
  let isValid := fun p : Z => 0 <? p in
  let getId := fun p : Z => p in
  let g := {| FramelessHelperQt.data := ∅; FramelessHelperQt.allocated := 0%nat;
              FramelessHelperQt.qtCalls := [] |} in
  let add := FramelessHelperQt.addWindow (UserSettings := Z) (QWindowPtr := Z)
               isValid getId getId getId in
  (isValid 7 = true /\ getId 7 = getId 7)
  /\ add 2 7 (add 1 7 g) = add 1 7 g.
Proof.
  intros isValid getId g add.
  assert (Hv : isValid 7 = true) by reflexivity.
  assert (Hi : getId 7 = getId 7) by reflexivity.
  split; [auto|].
  exact (proj2 (proj1
    (second_addWindow_is_noop isValid getId getId getId 1 2 7 7 g
       (Scenario.os false Scenario.screen) 7 None None initial_State Hv Hi))).
Defined.

(** [removeFramelessWindow] on a null or unlisted window returns at once. *)
Lemma removeFramelessWindow_unlisted window st :
  window = nullptr \/ window ∉ m_framelessWindows st ->
  removeFramelessWindow window st = (tt, st).
Proof.
  intros H. unfold removeFramelessWindow, when, bind, get, ret.
  destruct H as [->|Hin]; [reflexivity|].
  rewrite (bool_decide_eq_false_2 _ Hin), andb_false_r. reflexivity.
Qed.

(** C8. [removeFramelessWindow] for a null handle or a handle that is not
    in the list, and [removeWindow] for a null window or a window that is
    known neither by its id nor by an applied id, return without touching
    anything: the list of windows, the record of every window and the calls
    made are what they were.  Both functions are [void]; nothing is
    signalled. *)
Theorem remove_unregistered_is_noop
    {QWindowPtr FramelessParams : Type}
    (winId appliedWinId : QWindowPtr -> FramelessManagerPrivate.WId)
    (pureQt Q_OS_WINDOWS : bool)
    (window : HWND) (st : State) (qwindow : option QWindowPtr)
    (g : FramelessManagerPrivate.FramelessManagerHelper
           (QWindowPtr := QWindowPtr) (FramelessParams := FramelessParams)) :
  window = nullptr \/ window ∉ m_framelessWindows st ->
  (forall w, qwindow = Some w ->
     (winId w ∉ FramelessManagerPrivate.windowIds g) /\ appliedWinId w = 0) ->
  removeFramelessWindow window st = (tt, st)
  /\ FramelessManagerPrivate.removeWindow winId appliedWinId pureQt Q_OS_WINDOWS
       qwindow g = g.
Proof.
  intros Hw Hq. split; [apply removeFramelessWindow_unlisted, Hw|].
  unfold FramelessManagerPrivate.removeWindow.
  destruct qwindow as [w|]; [|reflexivity].
  destruct (Hq w eq_refl) as [Hnot Happlied].
  rewrite (bool_decide_eq_false_2 _ Hnot), Happlied. reflexivity.
Qed.

Lemma remove_unregistered_is_noop_witness :
  let st := Scenario.registered [] [] in
  let g := {| FramelessManagerPrivate.windowIds := [7];
              FramelessManagerPrivate.helperCalls := [] |} in
  (8 = nullptr \/ 8 ∉ m_framelessWindows st)
  /\ removeFramelessWindow 8 st = (tt, st)
  /\ FramelessManagerPrivate.removeWindow (QWindowPtr := Z)
       (FramelessParams := Z) (fun w => w) (fun _ => 0) false true (Some 8) g
     = g.
Proof.
  intros st g.
  assert (Hw : 8 = nullptr \/ 8 ∉ m_framelessWindows st).
  { right. vm_compute. intros H. apply list_elem_of_In in H.
    destruct H as [H|[]]. discriminate H. }
  assert (Hq : forall w : Z, Some 8 = Some w ->
            (w ∉ FramelessManagerPrivate.windowIds g) /\ 0 = 0).
  { intros w [= <-]. split; [|reflexivity].
    intros H. apply list_elem_of_In in H. destruct H as [H|[]]. discriminate H. }
  split; [exact Hw|].
  exact (remove_unregistered_is_noop (fun w => w) (fun _ => 0) false true
           8 st (Some 8) g Hw Hq).
Defined.

(** ** The filter *)

(** *** Rules for [preserves] *)

Lemma preserves_ret {A} P (a : A) : preserves P (ret a).
Proof. intros st H. exact H. Qed.

Lemma preserves_get P : preserves P get.
Proof. intros st H. exact H. Qed.

Lemma preserves_update P f :
  (forall st, P st -> P (f st)) -> preserves P (update f).
Proof. intros Hf st H. apply Hf, H. Qed.

Lemma preserves_bind {A B} P (m : M A) (k : A -> M B) :
  preserves P m -> (forall a, preserves P (k a)) -> preserves P (bind m k).
Proof.
  intros Hm Hk st H. rewrite bind_run. apply Hk, Hm, H.
Qed.

Lemma preserves_when P b m : preserves P m -> preserves P (when b m).
Proof. intros Hm. destruct b; [exact Hm|apply preserves_ret]. Qed.

Lemma ready_call h c st : ready h st -> ready h (call c st).
Proof. intros H. exact H. Qed.

Lemma ready_modify h p f st :
  (forall w, inited (f w) = inited w) -> ready h st -> ready h (modify p f st).
Proof.
  intros Hf (w & Hl & Hi). unfold ready, modify, set_userData. cbn [userData].
  rewrite lookup_alter. case_decide.
  - subst p. exists (f w). rewrite Hl, Hf. split; [reflexivity|exact Hi].
  - exists w. split; assumption.
Qed.

Create HintDb preserve.

#[local] Hint Resolve preserves_ret preserves_get preserves_when : preserve.
#[local] Hint Extern 2 (preserves _ (bind _ _)) =>
  apply preserves_bind; [|intros ?] : preserve.
#[local] Hint Extern 2 (preserves _ (update (call _))) =>
  apply preserves_update; intros ? ?; apply ready_call; assumption : preserve.
#[local] Hint Extern 2 (preserves _ (update (modify _ _))) =>
  apply preserves_update; intros ? ?; apply ready_modify;
  [intros []; reflexivity|assumption] : preserve.
#[local] Hint Extern 3 (preserves _ (if ?b then _ else _)) =>
  destruct b : preserve.
#[local] Hint Extern 1 (preserves _ (let _ := _ in _)) =>
  cbv zeta : preserve.

(** *** The functions of the filter keep a window ready *)

Lemma createUserData_None_run h st :
  createUserData h None st
  = (tt, if h =? nullptr then st
         else match userData st !! h with
              | Some _ => st
              | None =>
                  set_userData (<[h := new_WINDOW h None]> (userData st)) st
              end).
Proof.
  unfold createUserData, when, bind, get, update, ret.
  destruct (h =? nullptr); [reflexivity|]. cbn [negb].
  destruct (userData st !! h); reflexivity.
Qed.

Lemma createUserData_None_ready h h' : preserves (ready h) (createUserData h' None).
Proof.
  intros st (w & Hl & Hi). rewrite createUserData_None_run. cbn [snd].
  destruct (h' =? nullptr); [exists w; auto|].
  destruct (userData st !! h') eqn:E; [exists w; auto|].
  exists w. split; [|exact Hi].
  assert (h' <> h) by congruence.
  unfold set_userData. cbn [userData].
  rewrite lookup_insert_ne by assumption. exact Hl.
Qed.

Lemma updateWindow_ready h h' : preserves (ready h) (updateWindow h').
Proof. unfold updateWindow. auto 10 with preserve. Qed.

Lemma handleThemeChanged_ready h os d : preserves (ready h) (handleThemeChanged os d).
Proof. unfold handleThemeChanged. auto with preserve. Qed.

Lemma handleBlurForWindow_ready h os d :
  preserves (ready h) (handleBlurForWindow os d).
Proof. unfold handleBlurForWindow. auto 10 with preserve. Qed.

#[local] Hint Resolve createUserData_None_ready updateWindow_ready
  handleThemeChanged_ready handleBlurForWindow_ready : preserve.

Lemma handleDwmCompositionChanged_ready h os d :
  preserves (ready h) (handleDwmCompositionChanged os d).
Proof. unfold handleDwmCompositionChanged. auto 12 with preserve. Qed.

Lemma borderWidth_ready h os h' : preserves (ready h) (borderWidth os h').
Proof. unfold borderWidth. auto 10 with preserve. Qed.

Lemma borderHeight_ready h os h' : preserves (ready h) (borderHeight os h').
Proof. unfold borderHeight. auto 10 with preserve. Qed.

#[local] Hint Resolve handleDwmCompositionChanged_ready borderWidth_ready
  borderHeight_ready : preserve.

Lemma titlebarHeight_ready h os h' : preserves (ready h) (titlebarHeight os h').
Proof. unfold titlebarHeight. auto 12 with preserve. Qed.

#[local] Hint Resolve titlebarHeight_ready : preserve.

Lemma getHTResult_ready h os h' lp d : preserves (ready h) (getHTResult os h' lp d).
Proof. unfold getHTResult, getHTResult_locals. auto 14 with preserve. Qed.

#[local] Hint Resolve getHTResult_ready : preserve.

(** [init] leaves the window ready. *)
Lemma init_ready os h st :
  is_Some (userData st !! h) -> ready h (snd (init os h st)).
Proof.
  intros [w Hl]. unfold init. rewrite bind_run.
  assert (Hr : ready h (snd (update (modify h (set_inited true)) st))).
  { exists (set_inited true w). split; [|reflexivity].
    unfold update, modify, set_userData. cbn [snd userData].
    rewrite lookup_alter. case_decide; [|congruence].
    rewrite Hl. reflexivity. }
  revert Hr. generalize (snd (update (modify h (set_inited true)) st)).
  generalize (fst (update (modify h (set_inited true)) st)). intros [].
  change (preserves (ready h)
    (st0 <- get ;;
     (let w := deref st0 h in
      update (call (SetWindowLongPtr_STYLE (hWnd w)
                (Z.lor (Z.lor WS_OVERLAPPEDWINDOW WS_CLIPCHILDREN)
                   WS_CLIPSIBLINGS))) ;;
      update (call (SetWindowLongPtr_EXSTYLE (hWnd w)
                (Z.lor WS_EX_APPWINDOW WS_EX_LAYERED))) ;;
      update (call (SetLayeredWindowAttributes_COLORKEY (hWnd w))) ;;
      handleDwmCompositionChanged os h ;;
      handleThemeChanged os h))).
  auto 20 with preserve.
Qed.

(** After [createUserData] and the lazy [init] the window is ready; a window
    that was ready already is left as it was. *)
Lemma lazy_init_ready os h st :
  h <> nullptr ->
  let s1 := snd (createUserData h None st) in
  let s2 := snd (when (negb (inited (deref s1 h))) (init os h) s1) in
  ready h s2 /\ (ready h st -> s2 = st).
Proof.
  intros Hh s1 s2. apply Z.eqb_neq in Hh.
  assert (Hs1 : is_Some (userData s1 !! h)).
  { subst s1. rewrite createUserData_None_run. cbn [snd]. rewrite Hh.
    destruct (userData st !! h) eqn:E; [rewrite E; eauto|].
    unfold set_userData. cbn [userData]. rewrite lookup_insert_eq. eauto. }
  split.
  - subst s2. destruct (inited (deref s1 h)) eqn:Hi; cbn [negb when].
    + destruct Hs1 as [w Hw]. exists w. split; [exact Hw|].
      unfold deref in Hi. rewrite Hw in Hi. exact Hi.
    + apply init_ready, Hs1.
  - intros (w & Hw & Hi).
    assert (E1 : s1 = st).
    { subst s1. rewrite createUserData_None_run. cbn [snd].
      rewrite Hh, Hw. reflexivity. }
    subst s2. rewrite E1. unfold deref. rewrite Hw. cbn [default from_option id].
    rewrite Hi. reflexivity.
Qed.



(** With an empty list the test at the head of the filter looks for the
    window among the top-level windows that have a platform window. *)
Lemma isFramelessMessage_empty os st msg :
  m_framelessWindows st = [] ->
  isFramelessMessage os st msg = true
  <-> exists w, w ∈ topLevelWindows os /\ platformWindow w = Some (hwnd msg).
Proof.
  intros Hempty. unfold isFramelessMessage.
  rewrite (bool_decide_eq_true_2 _ Hempty), existsb_exists. split.
  - intros (w & Hin & Hw). exists w. split; [apply list_elem_of_In, Hin|].
    destruct (platformWindow w) as [winId|]; [|discriminate].
    apply Z.eqb_eq in Hw. congruence.
  - intros (w & Hin & Hw). exists w. split; [apply list_elem_of_In, Hin|].
    rewrite Hw. apply Z.eqb_refl.
Qed.


Lemma nativeEventFilter_gate os st msg :
  hwnd msg <> nullptr ->
  nativeEventFilter os msg st
  = if isFramelessMessage os st msg then framelessHandling os msg st
    else (skipped msg, st).
Proof.
  intros Hh. apply Z.eqb_neq in Hh.
  unfold nativeEventFilter. rewrite Hh, bind_run. unfold get. cbn [fst snd].
  destruct (isFramelessMessage os st msg); reflexivity.
Qed.



(** * Further properties of the code *)

Import Properties.

(** ** Calls *)

Lemma with_calls_nil st : with_calls [] st = st.
Proof. destruct st. unfold with_calls. cbn. rewrite app_nil_r. reflexivity. Qed.

Lemma with_calls_app a b st :
  with_calls b (with_calls a st) = with_calls (a ++ b) st.
Proof. unfold with_calls. cbn. rewrite app_assoc. reflexivity. Qed.

Lemma call_with_calls c st : call c st = with_calls [c] st.
Proof. reflexivity. Qed.

Lemma updateWindow_run h st : updateWindow h st = (tt, with_calls (refresh h) st).
Proof.
  unfold updateWindow, refresh, when, bind, update, ret.
  destruct (h =? nullptr); cbn [negb].
  - rewrite with_calls_nil. reflexivity.
  - rewrite !call_with_calls, !with_calls_app. reflexivity.
Qed.

Lemma updateWindow_loop l st :
  foldr (fun window k => updateWindow window ;; k) (ret tt) l st
  = (tt, with_calls (concat (map refresh l)) st).
Proof.
  revert st. induction l as [|h l IH]; intros st; cbn [foldr map concat].
  - rewrite with_calls_nil. reflexivity.
  - rewrite bind_run, updateWindow_run. cbn [fst snd].
    rewrite IH, with_calls_app. reflexivity.
Qed.

(** ** The list of frameless windows *)

(** X1. [uninstall] removes the filter from the application if it was
    installed, then refreshes the frame of every listed window in the order
    of the list (three calls for each window that is not null) and empties
    the list.  The resolved function pointers and the records of the
    windows are kept. *)
Theorem uninstall_refreshes_and_forgets st :
  uninstall st
  = (tt,
     {| caps := caps st;
        instance := false;
        m_framelessWindows := [];
        userData := userData st;
        calls :=
          calls st
          ++ (if instance st then [removeNativeEventFilter] else [])
          ++ concat (map refresh (m_framelessWindows st)) |}).
Proof.
  unfold uninstall. rewrite bind_run. change (get st) with (st, st).
  cbn [fst snd]. rewrite bind_run.
  assert (H1 : when (instance st)
                 (update (call removeNativeEventFilter) ;;
                  update (set_instance false)) st
               = (tt, set_instance false
                        (with_calls (if instance st
                                     then [removeNativeEventFilter] else []) st))).
  { destruct st as [c i l u cs]. unfold when, bind, update, ret, with_calls,
      set_instance, call. cbn. destruct i; cbn; [reflexivity|].
    rewrite app_nil_r. reflexivity. }
  rewrite H1. cbn [fst snd]. rewrite bind_run. unfold get at 1. cbn [fst snd].
  cbn [set_instance m_framelessWindows with_calls].
  case_bool_decide as Hl; cbn [negb when].
  - unfold ret, set_instance, with_calls. cbn. rewrite Hl. cbn.
    rewrite app_nil_r. reflexivity.
  - rewrite bind_run, updateWindow_loop. cbn [fst snd]. unfold update.
    unfold set_framelessWindows, with_calls, set_instance. cbn.
    rewrite <- app_assoc. reflexivity.
Qed.

Lemma removeFramelessWindow_run window st :
  removeFramelessWindow window st
  = (tt,
     if negb (window =? nullptr)
        && bool_decide (window ∈ m_framelessWindows st)
     then with_calls (refresh window)
            (set_framelessWindows
               (filter (fun w => w ≠ window) (m_framelessWindows st)) st)
     else st).
Proof.
  unfold removeFramelessWindow. rewrite bind_run. change (get st) with (st, st).
  cbn [fst snd].
  destruct (negb (window =? nullptr)
            && bool_decide (window ∈ m_framelessWindows st)); cbn [when];
    [|reflexivity].
  rewrite bind_run, updateWindow_run. reflexivity.
Qed.

Lemma filter_ne_not_elem (w : Z) (l : list Z) :
  w ∉ l -> filter (fun x => x ≠ w) l = l.
Proof.
  induction l as [|a l IH]; intros Hn; [reflexivity|].
  rewrite not_elem_of_cons in Hn. destruct Hn as [Hne Hn].
  rewrite filter_cons_True by congruence. rewrite IH by assumption. reflexivity.
Qed.

(** X2. After [removeFramelessWindow] the window is in the list no more,
    however often it was listed; the other windows stay, in their order;
    the records of all windows, the function pointers and the installed
    filter are untouched; the frame of the window is refreshed exactly when
    the window was listed. *)
Theorem removeFramelessWindow_removes_all window st :
  let st' := snd (removeFramelessWindow window st) in
  (window <> nullptr -> window ∉ m_framelessWindows st')
  /\ (forall w, w <> window ->
        (w ∈ m_framelessWindows st' <-> w ∈ m_framelessWindows st))
  /\ (window <> nullptr ->
        m_framelessWindows st'
        = filter (fun w => w ≠ window) (m_framelessWindows st))
  /\ userData st' = userData st
  /\ caps st' = caps st
  /\ instance st' = instance st
  /\ calls st'
     = calls st
       ++ (if bool_decide (window ∈ m_framelessWindows st)
           then refresh window else []).
Proof.
  intros st'. subst st'. rewrite removeFramelessWindow_run. cbn [snd].
  destruct (window =? nullptr) eqn:Hz; cbn [negb andb].
  - apply Z.eqb_eq in Hz. subst window.
    split; [congruence|]. split; [tauto|]. split; [congruence|].
    split; [reflexivity|]. split; [reflexivity|]. split; [reflexivity|].
    change (refresh nullptr) with (@nil OsCall).
    destruct (bool_decide _); rewrite app_nil_r; reflexivity.
  - apply Z.eqb_neq in Hz. case_bool_decide as Hin.
    + cbn. split; [|split; [|split]].
      * intros _ Hf. apply list_elem_of_filter in Hf. destruct Hf as [Hf _].
        apply Hf. reflexivity.
      * intros w Hw. rewrite list_elem_of_filter. tauto.
      * reflexivity.
      * repeat split.
    + rewrite app_nil_r. split; [tauto|]. split; [tauto|]. split.
      * intros _. symmetry. apply filter_ne_not_elem, Hin.
      * repeat split.
Qed.

Lemma addFramelessWindow_list os window data st :
  m_framelessWindows (snd (addFramelessWindow os window data st))
  = if negb (window =? nullptr)
       && negb (bool_decide (window ∈ m_framelessWindows st))
    then m_framelessWindows st ++ [window]
    else m_framelessWindows st.
Proof.
  unfold addFramelessWindow. rewrite bind_run. change (get st) with (st, st).
  cbn [fst snd].
  destruct (negb (window =? nullptr)
            && negb (bool_decide (window ∈ m_framelessWindows st)));
    cbn [when]; [|reflexivity].
  rewrite !bind_run, install_framelessWindows.
  destruct data as [d|].
  - rewrite createUserData_framelessWindows. reflexivity.
  - reflexivity.
Qed.

(** X3. [addFramelessWindow], [removeFramelessWindow] and
    [clearFramelessWindows] keep the list of frameless windows free of
    [nullptr] and of repetitions. *)
Theorem list_operations_keep_well_formed os window data st :
  well_formed (m_framelessWindows st) ->
  well_formed (m_framelessWindows (snd (addFramelessWindow os window data st)))
  /\ well_formed (m_framelessWindows (snd (removeFramelessWindow window st)))
  /\ well_formed (m_framelessWindows (snd (clearFramelessWindows st))).
Proof.
  intros [Hnd Hnull]. split; [|split].
  - rewrite addFramelessWindow_list.
    destruct (window =? nullptr) eqn:Hz; cbn [negb andb]; [split; assumption|].
    apply Z.eqb_neq in Hz.
    case_bool_decide as Hin; cbn [negb]; [split; assumption|]. split.
    + apply NoDup_app. split; [exact Hnd|]. split.
      * intros x Hx Hx'. apply list_elem_of_singleton in Hx'. congruence.
      * apply NoDup_singleton.
    + intros H. apply elem_of_app in H. destruct H as [H|H]; [auto|].
      apply list_elem_of_singleton in H. congruence.
  - rewrite removeFramelessWindow_run. cbn [snd].
    destruct (negb (window =? nullptr)
              && bool_decide (window ∈ m_framelessWindows st));
      [|split; assumption].
    cbn. split.
    + apply NoDup_filter, Hnd.
    + intros H. apply list_elem_of_filter in H. tauto.
  - unfold clearFramelessWindows. rewrite bind_run. change (get st) with (st, st).
    cbn [fst snd]. case_bool_decide as Hl; cbn [negb when].
    + split; assumption.
    + cbn. split; [apply NoDup_nil_2|apply not_elem_of_nil].
Qed.

Lemma list_operations_keep_well_formed_witness :
  let os := Scenario.os false Scenario.screen in
  let st := Scenario.registered [] [] in
  well_formed (m_framelessWindows st)
  /\ well_formed (m_framelessWindows (snd (addFramelessWindow os 8 None st))).
Proof.
  intros os st.
  assert (Hwf : well_formed (m_framelessWindows st)).
  { change (m_framelessWindows st) with [7]. split.
    - apply NoDup_singleton.
    - intros H. apply list_elem_of_singleton in H. discriminate H. }
  split; [exact Hwf|].
  exact (proj1 (list_operations_keep_well_formed os 8 None st Hwf)).
Defined.

(** ** Records of the windows *)

Lemma createUserData_Some_run h d st :
  createUserData h (Some d) st
  = (tt, if h =? nullptr then st
         else match userData st !! h with
              | Some _ => modify h (set_windowData d) st
              | None =>
                  set_userData
                    (<[h := new_WINDOW h (Some d)]> (userData st)) st
              end).
Proof.
  unfold createUserData, when, bind, get, update, ret.
  destruct (h =? nullptr); [reflexivity|]. cbn [negb].
  destruct (userData st !! h); reflexivity.
Qed.

Lemma install_userData os st :
  userData (snd (install os st)) = userData st
  /\ m_framelessWindows (snd (install os st)) = m_framelessWindows st
  /\ instance (snd (install os st)) = true
  /\ calls (snd (install os st))
     = calls st ++ (if instance st then [] else [installNativeEventFilter]).
Proof.
  unfold install, when, bind, get, update, ret, initDLLs.
  destruct (instance st) eqn:E; cbn.
  - rewrite app_nil_r. auto.
  - auto.
Qed.

(** What [createUserData] with settings leaves in the record of the window
    and in the records of the other windows. *)
Lemma createUserData_Some_deref h d st :
  h <> nullptr ->
  let st' := snd (createUserData h (Some d) st) in
  windowData (deref st' h) = d
  /\ hWnd (deref st' h) = hWnd (deref st h)
  /\ inited (deref st' h) = inited (deref st h)
  /\ dwmCompositionEnabled (deref st' h) = dwmCompositionEnabled (deref st h)
  /\ themeEnabled (deref st' h) = themeEnabled (deref st h)
  /\ (forall p, p <> h -> userData st' !! p = userData st !! p)
  /\ is_Some (userData st' !! h)
  /\ caps st' = caps st /\ calls st' = calls st
  /\ m_framelessWindows st' = m_framelessWindows st
  /\ instance st' = instance st.
Proof.
  intros Hh st'. subst st'. rewrite createUserData_Some_run. cbn [snd].
  apply Z.eqb_neq in Hh. rewrite Hh.
  destruct (userData st !! h) as [w|] eqn:E.
  - unfold deref, modify, set_userData. cbn [userData].
    rewrite lookup_alter_eq, E. cbn.
    repeat split; try reflexivity.
    + intros p Hp. rewrite lookup_alter_ne by congruence. reflexivity.
    + eauto.
  - unfold deref, set_userData. cbn [userData].
    rewrite lookup_insert_eq, E. cbn.
    repeat split; try reflexivity.
    + intros p Hp. rewrite lookup_insert_ne by congruence. reflexivity.
    + eauto.
Qed.

(** X4. Removing a window that was added with settings gives back the list
    as it was, but neither deletes the settings of the window nor removes
    the filter from the application: the record stays in the user data, and
    adding the window again without settings finds the old ones. *)
Theorem add_remove_keeps_settings os window d st :
  window <> nullptr ->
  window ∉ m_framelessWindows st ->
  let st1 := snd (addFramelessWindow os window (Some d) st) in
  let st2 := snd (removeFramelessWindow window st1) in
  let st3 := snd (addFramelessWindow os window None st2) in
  m_framelessWindows st2 = m_framelessWindows st
  /\ userData st2 = userData st1
  /\ instance st2 = true
  /\ windowData (deref st2 window) = d
  /\ windowData (deref st3 window) = d
  /\ m_framelessWindows st3 = m_framelessWindows st ++ [window].
Proof.
  intros Hw Hin st1 st2 st3.
  assert (Hz : (window =? nullptr) = false) by (apply Z.eqb_neq; exact Hw).
  assert (Hl1 : m_framelessWindows st1 = m_framelessWindows st ++ [window]).
  { subst st1. rewrite addFramelessWindow_list, Hz.
    rewrite (bool_decide_eq_false_2 _ Hin). reflexivity. }
  assert (Hin1 : window ∈ m_framelessWindows st1).
  { rewrite Hl1. apply elem_of_app. right. apply list_elem_of_singleton.
    reflexivity. }
  assert (H1 : userData st1
               = userData (snd (createUserData window (Some d)
                   (set_framelessWindows (m_framelessWindows st ++ [window]) st)))
               /\ instance st1 = true).
  { subst st1. unfold addFramelessWindow. rewrite bind_run.
    change (get st) with (st, st). cbn [fst snd].
    rewrite Hz, (bool_decide_eq_false_2 _ Hin). cbn [negb andb when].
    rewrite !bind_run.
    destruct (install_userData os
      (snd (createUserData window (Some d)
         (snd (update (set_framelessWindows (m_framelessWindows st ++ [window]))
                 st))))) as (Hu & _ & Hi & _).
    split; [exact Hu|exact Hi]. }
  destruct H1 as [Hu1 Hi1].
  assert (H2 : st2 = with_calls (refresh window)
                       (set_framelessWindows
                          (filter (fun w => w ≠ window) (m_framelessWindows st1))
                          st1)).
  { subst st2. rewrite removeFramelessWindow_run. cbn [snd].
    rewrite Hz, (bool_decide_eq_true_2 _ Hin1). reflexivity. }
  assert (Hl2 : m_framelessWindows st2 = m_framelessWindows st).
  { rewrite H2. cbn. rewrite Hl1, filter_app, filter_ne_not_elem by exact Hin.
    rewrite filter_cons_False by (intros H; apply H; reflexivity).
    rewrite filter_nil. apply app_nil_r. }
  assert (Hu2 : userData st2 = userData st1) by (rewrite H2; reflexivity).
  assert (Hd2 : windowData (deref st2 window) = d).
  { unfold deref. rewrite Hu2, Hu1.
    destruct (createUserData_Some_deref window d
      (set_framelessWindows (m_framelessWindows st ++ [window]) st) Hw)
      as (Hd & _).
    exact Hd. }
  split; [exact Hl2|]. split; [exact Hu2|].
  split; [rewrite H2; exact Hi1|]. split; [exact Hd2|].
  assert (Hin2 : window ∉ m_framelessWindows st2) by (rewrite Hl2; exact Hin).
  split.
  - subst st3. unfold addFramelessWindow. rewrite bind_run.
    change (get st2) with (st2, st2). cbn [fst snd].
    rewrite Hz, (bool_decide_eq_false_2 _ Hin2). cbn [negb andb when].
    rewrite !bind_run. cbn [fst snd ret update].
    unfold deref.
    destruct (install_userData os
      (set_framelessWindows (m_framelessWindows st2 ++ [window]) st2))
      as (Hu & _).
    rewrite Hu. exact Hd2.
  - subst st3. rewrite addFramelessWindow_list, Hz.
    rewrite (bool_decide_eq_false_2 _ Hin2), Hl2. reflexivity.
Qed.

Lemma add_remove_keeps_settings_witness :
  let os := Scenario.os false Scenario.screen in
  let d := Scenario.settings [] [] in
  (7 <> nullptr /\ 7 ∉ m_framelessWindows initial_State)
  /\ windowData
       (deref (snd (removeFramelessWindow 7
                      (snd (addFramelessWindow os 7 (Some d) initial_State))))
          7) = d.
Proof.
  intros os d.
  assert (H7 : 7 <> nullptr) by discriminate.
  assert (Hin : 7 ∉ m_framelessWindows initial_State) by apply not_elem_of_nil.
  split; [auto|].
  destruct (add_remove_keeps_settings os 7 d initial_State H7 Hin)
    as (_ & _ & _ & Hd & _).
  exact Hd.
Defined.

(** X5. When the last frameless window is removed the filter stays
    installed and the list is empty, so from then on the filter gives the
    frameless handling to the messages of every top-level window of the
    application that has a platform window, the removed one included. *)
Theorem removing_last_window_opens_filter os window st msg :
  window <> nullptr ->
  m_framelessWindows st = [window] ->
  hwnd msg <> nullptr ->
  (exists w, w ∈ topLevelWindows os /\ platformWindow w = Some (hwnd msg)) ->
  let st' := snd (removeFramelessWindow window st) in
  m_framelessWindows st' = []
  /\ instance st' = instance st
  /\ nativeEventFilter os msg st' = framelessHandling os msg st'.
Proof.
  intros Hw Hl Hh Htop st'.
  assert (Hl' : m_framelessWindows st' = []).
  { subst st'. rewrite removeFramelessWindow_run. cbn [snd].
    apply Z.eqb_neq in Hw. rewrite Hw, Hl.
    rewrite bool_decide_eq_true_2 by (apply list_elem_of_singleton; reflexivity).
    cbn [negb andb m_framelessWindows with_calls set_framelessWindows].
    rewrite filter_cons_False by (intros H; apply H; reflexivity).
    reflexivity. }
  split; [exact Hl'|]. split.
  - subst st'. rewrite removeFramelessWindow_run. cbn [snd].
    destruct (_ && _); reflexivity.
  - rewrite (nativeEventFilter_gate os st' msg Hh).
    rewrite (proj2 (isFramelessMessage_empty os st' msg Hl') Htop). reflexivity.
Qed.

Lemma removing_last_window_opens_filter_witness :
  let os := Scenario.os false Scenario.screen in
  let st := Scenario.registered [] [] in
  let msg := Samples.message_to 7 WM_NCCALCSIZE NoTarget in
  (7 <> nullptr /\ m_framelessWindows st = [7] /\ hwnd msg <> nullptr)
  /\ handled (fst (nativeEventFilter os msg (snd (removeFramelessWindow 7 st))))
     = true.
Proof.
  intros os st msg.
  assert (H7 : 7 <> nullptr) by discriminate.
  assert (Hl : m_framelessWindows st = [7]) by reflexivity.
  assert (Hh : hwnd msg <> nullptr) by discriminate.
  assert (Htop : exists w, w ∈ topLevelWindows os
                           /\ platformWindow w = Some (hwnd msg)).
  { exists {| platformWindow := Some 7 |}. split; [|reflexivity].
    apply list_elem_of_In. right. left. reflexivity. }
  split; [auto|].
  destruct (removing_last_window_opens_filter os 7 st msg H7 Hl Hh Htop)
    as (_ & _ & He).
  rewrite He. reflexivity.
Defined.

(** X6. [setFramelessWindows] ignores the empty list and the list that is
    already set: the list cannot be emptied through it.  Any other list is
    stored as it is given, a null handle or a repeated handle included, and
    the filter is installed. *)
Theorem setFramelessWindows_behaviour os windows st :
  let st' := snd (setFramelessWindows os windows st) in
  (windows = [] \/ windows = m_framelessWindows st -> st' = st)
  /\ (windows <> [] -> windows <> m_framelessWindows st ->
        m_framelessWindows st' = windows
        /\ instance st' = true
        /\ userData st' = userData st)
  /\ (m_framelessWindows st <> [] -> m_framelessWindows st' <> []).
Proof.
  intros st'. subst st'. unfold setFramelessWindows. rewrite bind_run.
  change (get st) with (st, st). cbn [fst snd]. split; [|split].
  - intros [-> | ->].
    + reflexivity.
    + rewrite (bool_decide_eq_true_2 (m_framelessWindows st = m_framelessWindows st))
        by reflexivity.
      rewrite andb_false_r. reflexivity.
  - intros H1 H2.
    rewrite (bool_decide_eq_false_2 _ H1), (bool_decide_eq_false_2 _ H2).
    cbn [negb andb when]. rewrite bind_run. cbn [fst snd update].
    destruct (install_userData os (set_framelessWindows windows st))
      as (Hu & Hl & Hi & _).
    rewrite Hu, Hl, Hi. auto.
  - intros Hne.
    case_bool_decide as H1; cbn [negb andb when]; [exact Hne|].
    case_bool_decide as H2; cbn [negb andb when]; [exact Hne|].
    rewrite bind_run. cbn [fst snd update].
    destruct (install_userData os (set_framelessWindows windows st))
      as (_ & Hl & _).
    rewrite Hl. exact H1.
Qed.

(** ** Resolution of the function pointers *)

Lemma resolve_since_keeps {A} os v (cur found : option A) x :
  cur = Some x -> resolve_since os v cur found = Some x.
Proof.
  intros ->. unfold resolve_since. destruct (current_ge os v); reflexivity.
Qed.

Lemma resolve_since_idem {A} os v (cur found : option A) :
  resolve_since os v (resolve_since os v cur found) found
  = resolve_since os v cur found.
Proof.
  unfold resolve_since, resolve_if_null.
  destruct (current_ge os v), cur, found; reflexivity.
Qed.

(** X7. [initDLLs] resolves each function once: a pointer that is set is
    never replaced or cleared, and running [initDLLs] again changes nothing.
    So [install] after [uninstall] keeps what was resolved before, and a
    second [install] does nothing at all. *)
Theorem initDLLs_resolves_once os st :
  let c := caps st in
  let c' := caps (snd (initDLLs os st)) in
  (forall f, m_GetDpiForWindow c = Some f -> m_GetDpiForWindow c' = Some f)
  /\ (forall f, m_GetSystemDpiForProcess c = Some f ->
                m_GetSystemDpiForProcess c' = Some f)
  /\ (forall f, m_GetDpiForSystem c = Some f -> m_GetDpiForSystem c' = Some f)
  /\ (forall f, m_GetDpiForMonitor c = Some f -> m_GetDpiForMonitor c' = Some f)
  /\ (forall f, m_GetSystemMetricsForDpi c = Some f ->
                m_GetSystemMetricsForDpi c' = Some f)
  /\ (m_SetWindowCompositionAttribute c = true ->
        m_SetWindowCompositionAttribute c' = true)
  /\ initDLLs os (snd (initDLLs os st)) = initDLLs os st
  /\ install os (snd (install os st)) = (tt, snd (install os st)).
Proof.
  intros c c'. subst c c'. unfold initDLLs, update. cbn [snd caps set_caps].
  repeat (split; [intros f Hf; apply resolve_since_keeps; exact Hf|]).
  split; [|split].
  - intros ->. destruct (current_ge os Windows7); reflexivity.
  - unfold set_caps. cbn. rewrite !resolve_since_idem.
    destruct (current_ge os Windows7),
             (m_SetWindowCompositionAttribute (caps st)),
             (m_SetWindowCompositionAttribute (resolve os)); reflexivity.
  - destruct (install_userData os st) as (_ & _ & Hi & _).
    unfold install at 1. rewrite bind_run.
    change (get (snd (install os st))) with (snd (install os st), snd (install os st)).
    cbn [fst snd]. rewrite Hi. reflexivity.
Qed.

(** X8. On a system older than Windows 8.1 the filter resolves none of the
    DPI functions, whatever the libraries export, and the DPI of every
    window, and the one asked for with a null handle, is the one of the
    screen fallback. *)
Theorem old_system_uses_screen_dpi os h :
  versionCompare os Windows8_1 = Lt ->
  versionCompare os Windows10_14393 = Lt ->
  versionCompare os Windows10_17134 = Lt ->
  let st := snd (install os initial_State) in
  getDpiForWindow os st h = to_UINT (getScreenDpi os USER_DEFAULT_SCREEN_DPI)
  /\ m_GetSystemMetricsForDpi (caps st) = None.
Proof.
  intros H1 H2 H3 st. subst st.
  unfold install, when, bind, get, update, ret, initDLLs. cbn.
  unfold getDpiForWindow, resolve_since, current_ge, current_lt. cbn.
  rewrite H1, H2, H3. cbn. destruct (h =? nullptr); auto.
Qed.

Lemma old_system_uses_screen_dpi_witness :
  (versionCompare Samples.old_system Windows8_1 = Lt
   /\ versionCompare Samples.old_system Windows10_14393 = Lt
   /\ versionCompare Samples.old_system Windows10_17134 = Lt)
  /\ getDpiForWindow Samples.old_system
       (snd (install Samples.old_system initial_State)) 7 = 96.
Proof.
  split; [repeat split|].
  destruct (old_system_uses_screen_dpi Samples.old_system 7 eq_refl eq_refl eq_refl)
    as [Hd _].
  rewrite Hd. reflexivity.
Defined.

(** ** A window whose record exists *)

Lemma createUserData_None_exists h st :
  is_Some (userData st !! h) -> createUserData h None st = (tt, st).
Proof.
  intros [w Hw]. rewrite createUserData_None_run, Hw.
  destruct (h =? nullptr); reflexivity.
Qed.

Lemma borderWidth_exists os h st :
  is_Some (userData st !! h) -> snd (borderWidth os h st) = st.
Proof.
  intros Hs. unfold borderWidth.
  destruct (h =? nullptr); [reflexivity|].
  rewrite bind_run, (createUserData_None_exists h st Hs). cbn [fst snd].
  rewrite bind_run. change (get st) with (st, st). cbn [fst snd].
  destruct (0 <? _); reflexivity.
Qed.

Lemma borderHeight_exists os h st :
  is_Some (userData st !! h) -> snd (borderHeight os h st) = st.
Proof.
  intros Hs. unfold borderHeight.
  destruct (h =? nullptr); [reflexivity|].
  rewrite bind_run, (createUserData_None_exists h st Hs). cbn [fst snd].
  rewrite bind_run. change (get st) with (st, st). cbn [fst snd].
  destruct (0 <? _); reflexivity.
Qed.

Lemma titlebarHeight_exists os h st :
  is_Some (userData st !! h) -> snd (titlebarHeight os h st) = st.
Proof.
  intros Hs. unfold titlebarHeight.
  assert (Hm : snd ((bh <- borderHeight os h ;;
                     st0 <- get ;;
                     ret (bh + getSystemMetricsForWindow os st0 h SM_CYCAPTION))
                    st) = st).
  { rewrite bind_run, (borderHeight_exists os h st Hs). reflexivity. }
  destruct (h =? nullptr); [exact Hm|].
  rewrite bind_run, (createUserData_None_exists h st Hs). cbn [fst snd].
  rewrite bind_run. change (get st) with (st, st). cbn [fst snd].
  destruct (0 <? _); [reflexivity|exact Hm].
Qed.

Lemma getHTResult_exists os h lp d st :
  is_Some (userData st !! h) -> snd (getHTResult os h lp d st) = st.
Proof.
  intros Hs. rewrite getHTResult_eq. cbn [snd].
  unfold getHTResult_locals. rewrite bind_run, (borderWidth_exists os h st Hs).
  rewrite bind_run, (borderHeight_exists os h st Hs).
  rewrite bind_run, (titlebarHeight_exists os h st Hs).
  reflexivity.
Qed.

(** X9. Once the record of a window exists, asking for its border width,
    border height or title bar height, or running the hit test on it,
    changes nothing: no record, no list, no function pointer, no call. *)
Theorem metrics_and_hit_test_are_queries os h lp d st :
  is_Some (userData st !! h) ->
  snd (borderWidth os h st) = st
  /\ snd (borderHeight os h st) = st
  /\ snd (titlebarHeight os h st) = st
  /\ snd (getHTResult os h lp d st) = st.
Proof.
  intros Hs.
  split; [apply borderWidth_exists, Hs|].
  split; [apply borderHeight_exists, Hs|].
  split; [apply titlebarHeight_exists, Hs|].
  apply getHTResult_exists, Hs.
Qed.

Lemma metrics_and_hit_test_are_queries_witness :
  let os := Scenario.os false Scenario.screen in
  let st := Scenario.registered [] [] in
  is_Some (userData st !! 7)
  /\ snd (getHTResult os 7 (Scenario.at_point 4 4) 7 st) = st.
Proof.
  intros os st.
  assert (Hs : is_Some (userData st !! 7)) by (vm_compute; eauto).
  split; [exact Hs|].
  exact (proj2 (proj2 (proj2
    (metrics_and_hit_test_are_queries os 7 (Scenario.at_point 4 4) 7 st Hs)))).
Defined.

(** For a ready window the filter goes to its [switch] at once. *)
Lemma framelessHandling_ready_prefix os msg st :
  hwnd msg <> nullptr ->
  ready (hwnd msg) st ->
  snd (createUserData (hwnd msg) None st) = st
  /\ when (negb (inited (deref st (hwnd msg)))) (init os (hwnd msg)) st
     = (tt, st).
Proof.
  intros Hh (w & Hw & Hi). split.
  - rewrite createUserData_None_exists by eauto. reflexivity.
  - unfold deref. rewrite Hw. cbn. rewrite Hi. reflexivity.
Qed.

Ltac enter_switch os Hh Hr :=
  unfold framelessHandling;
  rewrite bind_run, (proj1 (framelessHandling_ready_prefix os _ _ Hh Hr));
  rewrite bind_run;
  match goal with |- context [get ?s] => change (get s) with (s, s) end;
  cbn [fst snd];
  rewrite bind_run, (proj2 (framelessHandling_ready_prefix os _ _ Hh Hr));
  cbn [fst snd]; cbv zeta.

Lemma framelessHandling_consumed os st msg :
  hwnd msg <> nullptr ->
  ready (hwnd msg) st ->
  handled (fst (framelessHandling os msg st))
  = consumed os (deref st (hwnd msg)) msg.
Proof.
  intros Hh Hr.
  enter_switch os Hh Hr. unfold consumed. cbv zeta.
  destruct (message msg =? WM_NCCREATE) eqn:E1.
  { apply Z.eqb_eq in E1. rewrite E1.
    destruct (target msg) as [|p|r|mmi]; reflexivity. }
  destruct (message msg =? WM_NCCALCSIZE) eqn:E2; [reflexivity|].
  destruct (message msg =? WM_DWMCOMPOSITIONCHANGED) eqn:E3.
  { rewrite bind_run. reflexivity. }
  destruct (message msg =? WM_NCUAHDRAWCAPTION) eqn:E4; [reflexivity|].
  destruct (message msg =? WM_NCUAHDRAWFRAME) eqn:E5; [reflexivity|].
  cbn [orb].
  destruct (message msg =? WM_NCPAINT) eqn:E6.
  { apply Z.eqb_eq in E6. rewrite E6. rewrite bind_run.
    change (get st) with (st, st). cbn [fst snd].
    destruct (dwmCompositionEnabled (deref st (hwnd msg))); reflexivity. }
  destruct (message msg =? WM_NCACTIVATE) eqn:E7.
  { rewrite bind_run. reflexivity. }
  destruct (message msg =? WM_NCHITTEST) eqn:E8.
  { rewrite bind_run. reflexivity. }
  cbn [orb andb].
  destruct (message msg =? WM_GETMINMAXINFO) eqn:E9.
  { apply Z.eqb_eq in E9. rewrite E9.
    destruct (MonitorFromWindow os (hwnd msg) =? nullptr); cbn [negb];
      [reflexivity|].
    rewrite bind_run. reflexivity. }
  cbn [andb orb].
  destruct (message msg =? WM_SETICON) eqn:E10,
           (message msg =? WM_SETTEXT) eqn:E11; cbn [orb andb].
  1-3: rewrite bind_run; change (get st) with (st, st); cbn [fst snd];
       destruct (dwmCompositionEnabled (deref st (hwnd msg))),
                (themeEnabled (deref st (hwnd msg)));
       cbn [negb andb]; try reflexivity; rewrite !bind_run; reflexivity.
  destruct (message msg =? WM_THEMECHANGED); [rewrite bind_run; reflexivity|].
  destruct (message msg =? WM_WINDOWPOSCHANGED);
    [rewrite bind_run; reflexivity|].
  destruct (message msg =? WM_DPICHANGED); [rewrite bind_run; reflexivity|].
  reflexivity.
Qed.


(** X10. For a window that is ready, the message is answered by the filter
    itself exactly in the cases of the table [consumed]: always for
    [WM_NCCALCSIZE], [WM_DWMCOMPOSITIONCHANGED], the two undocumented paint
    messages, [WM_NCACTIVATE] and [WM_NCHITTEST]; for [WM_NCPAINT] only
    while composition is off; for [WM_GETMINMAXINFO] only when a monitor is
    found; for [WM_SETICON] and [WM_SETTEXT] only while composition and
    theming are both off.  Every other message is passed on. *)
Theorem filter_consumes_by_table os st msg :
  hwnd msg <> nullptr ->
  isFramelessMessage os st msg = true ->
  ready (hwnd msg) st ->
  handled (fst (nativeEventFilter os msg st))
  = consumed os (deref st (hwnd msg)) msg.
Proof.
  intros Hh Hg Hr. rewrite (nativeEventFilter_gate os st msg Hh), Hg.
  apply framelessHandling_consumed; assumption.
Qed.

Lemma filter_consumes_by_table_witness :
  let os := Samples.old_system in
  let st := Samples.seen os 7 in
  let msg := Samples.message_to 7 WM_NCPAINT NoTarget in
  (hwnd msg <> nullptr /\ isFramelessMessage os st msg = true)
  /\ handled (fst (nativeEventFilter os msg st)) = true.
Proof.
  intros os st msg.
  assert (Hh : hwnd msg <> nullptr) by discriminate.
  assert (Hg : isFramelessMessage os st msg = true) by reflexivity.
  assert (Hr : ready (hwnd msg) st).
  { vm_compute. eexists. split; reflexivity. }
  split; [auto|].
  rewrite (filter_consumes_by_table os st msg Hh Hg Hr). reflexivity.
Defined.

(** *** Rules for [returns] *)

Lemma returns_ret {A} (Q : A -> Prop) a : Q a -> returns Q (ret a).
Proof. intros H st. exact H. Qed.

Lemma returns_bind {A B} (Q : B -> Prop) (m : M A) (k : A -> M B) :
  (forall a, returns Q (k a)) -> returns Q (bind m k).
Proof. intros Hk st. rewrite bind_run. apply Hk. Qed.

Ltac returns_cases leaf :=
  repeat first
    [ apply returns_bind; intros ?
    | apply returns_ret; leaf
    | progress cbv zeta
    | match goal with
      | |- returns _ (if ?b then _ else _) => destruct b eqn:?
      | |- returns _ (match ?t with _ => _ end) => destruct t eqn:?
      end ].

(** X11. Whatever the window and the message, the filter writes a result
    exactly when it reports the message as handled; a message it passes on
    has the structure behind [lParam] untouched, and that structure is only
    ever changed for [WM_NCCALCSIZE] and [WM_GETMINMAXINFO]. *)
Theorem filter_result_and_target os msg st :
  let o := fst (nativeEventFilter os msg st) in
  (handled o = true <-> is_Some (result o))
  /\ (handled o = false -> target' o = target msg)
  /\ (message msg <> WM_NCCALCSIZE -> message msg <> WM_GETMINMAXINFO ->
      target' o = target msg).
Proof.
  intros o. subst o. revert st.
  change (returns
    (fun o => (handled o = true <-> is_Some (result o))
              /\ (handled o = false -> target' o = target msg)
              /\ (message msg <> WM_NCCALCSIZE ->
                  message msg <> WM_GETMINMAXINFO -> target' o = target msg))
    (nativeEventFilter os msg)).
  unfold nativeEventFilter, framelessHandling.
  returns_cases idtac;
    cbn [handled result target' skipped done_with];
    (split; [split; intros H;
             first [reflexivity | discriminate H | solve [eauto]
                   | inversion H; discriminate]
            |split; [intros H; first [discriminate H | congruence]
                    |intros H1 H2;
                     first [congruence
                           | exfalso; apply H1, Z.eqb_eq; assumption
                           | exfalso; apply H2, Z.eqb_eq; assumption]]]).
Qed.

Lemma framelessHandling_without_effect os st msg :
  hwnd msg <> nullptr ->
  ready (hwnd msg) st ->
  message msg <> WM_NCCREATE ->
  message msg <> WM_DWMCOMPOSITIONCHANGED ->
  message msg <> WM_NCACTIVATE ->
  message msg <> WM_SETICON ->
  message msg <> WM_SETTEXT ->
  message msg <> WM_THEMECHANGED ->
  message msg <> WM_WINDOWPOSCHANGED ->
  message msg <> WM_DPICHANGED ->
  snd (framelessHandling os msg st) = st.
Proof.
  intros Hh Hr N1 N2 N3 N4 N5 N6 N7 N8.
  apply Z.eqb_neq in N1, N2, N3, N4, N5, N6, N7, N8.
  enter_switch os Hh Hr.
  rewrite N1, N2, N3, N4, N5, N6, N7, N8. cbn [orb].
  destruct (message msg =? WM_NCCALCSIZE); [reflexivity|].
  destruct (message msg =? WM_NCUAHDRAWCAPTION); [reflexivity|].
  destruct (message msg =? WM_NCUAHDRAWFRAME); [reflexivity|]. cbn [orb].
  destruct (message msg =? WM_NCPAINT).
  { rewrite bind_run. change (get st) with (st, st). cbn [fst snd].
    destruct (dwmCompositionEnabled _); reflexivity. }
  destruct (message msg =? WM_NCHITTEST).
  { rewrite bind_run. cbn [snd ret].
    apply getHTResult_exists. destruct Hr as (w & Hw & _). eauto. }
  destruct (message msg =? WM_GETMINMAXINFO); [|reflexivity].
  destruct (negb _); [|reflexivity].
  rewrite bind_run. reflexivity.
Qed.


(** X12. For a window that is ready, every message other than
    [WM_NCCREATE], [WM_DWMCOMPOSITIONCHANGED], [WM_NCACTIVATE],
    [WM_SETICON], [WM_SETTEXT], [WM_THEMECHANGED], [WM_WINDOWPOSCHANGED]
    and [WM_DPICHANGED] leaves the state as it is: the one-time setup is not
    run again, no record changes and no call is made.  This covers the
    frame query, the hit test, the paint messages, the size query and all
    messages the filter does not know. *)
Theorem ready_window_messages_without_effect os st msg :
  hwnd msg <> nullptr ->
  ready (hwnd msg) st ->
  message msg <> WM_NCCREATE ->
  message msg <> WM_DWMCOMPOSITIONCHANGED ->
  message msg <> WM_NCACTIVATE ->
  message msg <> WM_SETICON ->
  message msg <> WM_SETTEXT ->
  message msg <> WM_THEMECHANGED ->
  message msg <> WM_WINDOWPOSCHANGED ->
  message msg <> WM_DPICHANGED ->
  snd (nativeEventFilter os msg st) = st.
Proof.
  intros Hh Hr N1 N2 N3 N4 N5 N6 N7 N8.
  rewrite (nativeEventFilter_gate os st msg Hh).
  destruct (isFramelessMessage os st msg); [|reflexivity].
  apply framelessHandling_without_effect; assumption.
Qed.

Lemma ready_window_messages_without_effect_witness :
  let os := Samples.new_system in
  let st := Samples.seen os 7 in
  let msg := Samples.message_to 7 WM_NCHITTEST NoTarget in
  ready 7 st /\ snd (nativeEventFilter os msg st) = st.
Proof.
  intros os st msg.
  assert (Hr : ready (hwnd msg) st).
  { vm_compute. eexists. split; reflexivity. }
  split; [exact Hr|].
  apply (ready_window_messages_without_effect os st msg); try exact Hr;
    discriminate.
Defined.

(** ** Composition, theme and the one-time setup *)

Lemma handleBlurForWindow_run os d st :
  exists blur,
    handleBlurForWindow os d st = (tt, with_calls blur st)
    /\ (length blur <= 1)%nat
    /\ (dwmCompositionEnabled (deref st d)
        && blurEnabled (windowData (deref st d)) = false -> blur = [])
    /\ (current_lt os Windows7 = true -> blur = [])
    /\ (m_SetWindowCompositionAttribute (caps st) = false ->
        current_lt os Windows8 = false -> blur = []).
Proof.
  unfold handleBlurForWindow. rewrite bind_run. change (get st) with (st, st).
  cbn [fst snd]. cbv zeta.
  destruct (current_lt os Windows7) eqn:E7; cbn [orb].
  { exists []. rewrite with_calls_nil. repeat split; auto. }
  destruct (dwmCompositionEnabled (deref st d)
            && blurEnabled (windowData (deref st d))) eqn:Eb; cbn [negb].
  2:{ exists []. rewrite with_calls_nil. repeat split; auto. }
  destruct (current_lt os Windows8) eqn:E8.
  { eexists [_]. split; [reflexivity|].
    repeat split; auto; intros; discriminate. }
  destruct (m_SetWindowCompositionAttribute (caps st)) eqn:Ec; cbn [when].
  - eexists [_]. split; [reflexivity|].
    repeat split; auto; intros; discriminate.
  - exists []. rewrite with_calls_nil. repeat split; auto.
Qed.

Lemma modify_with_calls p f cs st :
  modify p f (with_calls cs st) = with_calls cs (modify p f st).
Proof. reflexivity. Qed.

Lemma deref_with_calls cs st p : deref (with_calls cs st) p = deref st p.
Proof. reflexivity. Qed.

Lemma deref_modify_eq p f st :
  is_Some (userData st !! p) -> deref (modify p f st) p = f (deref st p).
Proof.
  intros [w Hw]. unfold deref, modify, set_userData. cbn [userData].
  rewrite lookup_alter_eq, Hw. reflexivity.
Qed.

Lemma lookup_modify_ne p q f st :
  p <> q -> userData (modify p f st) !! q = userData st !! q.
Proof.
  intros Hne. unfold modify, set_userData. cbn [userData].
  apply lookup_alter_ne. exact Hne.
Qed.

(** What [handleDwmCompositionChanged] does to a window with a record. *)
Lemma handleDwmCompositionChanged_run os d st :
  is_Some (userData st !! d) ->
  let w := deref st d in
  let enabled := DwmIsCompositionEnabled os in
  exists blur,
    handleDwmCompositionChanged os d st
    = (tt,
       with_calls
         ((if enabled
           then [DwmSetWindowAttribute_NCRP_ENABLED (hWnd w);
                 DwmExtendFrameIntoClientArea (hWnd w) (-1)]
           else [])
          ++ blur ++ refresh (hWnd w))
         (modify d (set_dwmCompositionEnabled enabled) st))
    /\ (length blur <= 1)%nat
    /\ (enabled && blurEnabled (windowData w) = false -> blur = []).
Proof.
  intros Hs w enabled.
  unfold handleDwmCompositionChanged. cbv zeta. fold enabled.
  rewrite bind_run. cbn [fst snd update].
  set (st1 := modify d (set_dwmCompositionEnabled enabled) st).
  rewrite bind_run. change (get st1) with (st1, st1). cbn [fst snd].
  assert (Hw1 : deref st1 d = set_dwmCompositionEnabled enabled w)
    by (apply deref_modify_eq, Hs).
  rewrite Hw1. cbn [hWnd set_dwmCompositionEnabled].
  rewrite bind_run.
  assert (H1 : when enabled
                 (update (call (DwmSetWindowAttribute_NCRP_ENABLED (hWnd w))) ;;
                  update (call (DwmExtendFrameIntoClientArea (hWnd w) (-1)))) st1
               = (tt, with_calls
                        (if enabled
                         then [DwmSetWindowAttribute_NCRP_ENABLED (hWnd w);
                               DwmExtendFrameIntoClientArea (hWnd w) (-1)]
                         else []) st1)).
  { destruct enabled; cbn [when].
    - unfold bind, update. rewrite !call_with_calls, with_calls_app.
      reflexivity.
    - rewrite with_calls_nil. reflexivity. }
  rewrite H1. cbn [fst snd]. rewrite bind_run.
  destruct (handleBlurForWindow_run os d
              (with_calls
                 (if enabled
                  then [DwmSetWindowAttribute_NCRP_ENABLED (hWnd w);
                        DwmExtendFrameIntoClientArea (hWnd w) (-1)]
                  else []) st1)) as (blur & Hb & Hlen & Hoff & _).
  exists blur. rewrite Hb. cbn [fst snd].
  rewrite updateWindow_run, !with_calls_app. split; [reflexivity|].
  split; [exact Hlen|].
  intros Hc. apply Hoff. rewrite deref_with_calls, Hw1. exact Hc.
Qed.

(** X13. When the composition changes, a ready window gets the message
    answered with 0; its record takes the composition state of the system
    and nothing else in it changes; the records of the other windows stay.
    The calls made are: while composition is on, the two calls that bring
    the shadow back; then at most one call for blur, and none unless
    composition is on and blur was asked for; and last, always, the refresh
    of the frame. *)
Theorem composition_change_refreshes_frame os st msg :
  hwnd msg <> nullptr ->
  isFramelessMessage os st msg = true ->
  ready (hwnd msg) st ->
  message msg = WM_DWMCOMPOSITIONCHANGED ->
  let h := hwnd msg in
  let w := deref st h in
  let enabled := DwmIsCompositionEnabled os in
  let o := fst (nativeEventFilter os msg st) in
  let st' := snd (nativeEventFilter os msg st) in
  handled o = true /\ result o = Some 0
  /\ deref st' h = set_dwmCompositionEnabled enabled w
  /\ (forall p, p <> h -> userData st' !! p = userData st !! p)
  /\ m_framelessWindows st' = m_framelessWindows st
  /\ exists blur,
       calls st'
       = calls st
         ++ (if enabled
             then [DwmSetWindowAttribute_NCRP_ENABLED (hWnd w);
                   DwmExtendFrameIntoClientArea (hWnd w) (-1)]
             else [])
         ++ blur ++ refresh (hWnd w)
       /\ (length blur <= 1)%nat
       /\ (enabled && blurEnabled (windowData w) = false -> blur = []).
Proof.
  intros Hh Hg Hr Hm h w enabled o st'. subst o st'.
  rewrite (nativeEventFilter_gate os st msg Hh), Hg.
  assert (Hs : is_Some (userData st !! h))
    by (destruct Hr as (w0 & Hw0 & _); eauto).
  destruct (handleDwmCompositionChanged_run os h st Hs)
    as (blur & Hrun & Hlen & Hoff).
  enter_switch os Hh Hr. rewrite Hm.
  change (WM_DWMCOMPOSITIONCHANGED =? WM_NCCREATE) with false.
  change (WM_DWMCOMPOSITIONCHANGED =? WM_NCCALCSIZE) with false.
  change (WM_DWMCOMPOSITIONCHANGED =? WM_DWMCOMPOSITIONCHANGED) with true.
  cbv iota. rewrite bind_run. fold h. rewrite Hrun. cbn [fst snd ret].
  split; [reflexivity|]. split; [reflexivity|].
  split; [rewrite deref_with_calls; apply deref_modify_eq, Hs|].
  split.
  { intros p Hp. cbn [with_calls userData]. apply lookup_modify_ne. congruence. }
  split; [reflexivity|].
  exists blur. split; [reflexivity|]. split; assumption.
Qed.

Lemma composition_change_refreshes_frame_witness :
  let os := Samples.old_system in
  let st := Samples.seen Samples.new_system 7 in
  let msg := Samples.message_to 7 WM_DWMCOMPOSITIONCHANGED NoTarget in
  (hwnd msg <> nullptr /\ isFramelessMessage os st msg = true /\ ready 7 st)
  /\ dwmCompositionEnabled (deref (snd (nativeEventFilter os msg st)) 7) = false.
Proof.
  intros os st msg.
  assert (Hh : hwnd msg <> nullptr) by discriminate.
  assert (Hg : isFramelessMessage os st msg = true) by reflexivity.
  assert (Hr : ready (hwnd msg) st).
  { vm_compute. eexists. split; reflexivity. }
  split; [auto|].
  destruct (composition_change_refreshes_frame os st msg Hh Hg Hr eq_refl)
    as (_ & _ & Hd & _).
  cbv zeta in Hd. change (hwnd msg) with 7 in Hd. rewrite Hd. reflexivity.
Defined.

(** What [init] does to a window with a record. *)
Lemma init_run os h st :
  is_Some (userData st !! h) ->
  let w := deref st h in
  let enabled := DwmIsCompositionEnabled os in
  exists blur,
    init os h st
    = (tt,
       with_calls
         ([SetWindowLongPtr_STYLE (hWnd w)
             (Z.lor (Z.lor WS_OVERLAPPEDWINDOW WS_CLIPCHILDREN) WS_CLIPSIBLINGS);
           SetWindowLongPtr_EXSTYLE (hWnd w) (Z.lor WS_EX_APPWINDOW WS_EX_LAYERED);
           SetLayeredWindowAttributes_COLORKEY (hWnd w)]
          ++ (if enabled
              then [DwmSetWindowAttribute_NCRP_ENABLED (hWnd w);
                    DwmExtendFrameIntoClientArea (hWnd w) (-1)]
              else [])
          ++ blur ++ refresh (hWnd w))
         (modify h (set_themeEnabled (IsThemeActive os))
            (modify h (set_dwmCompositionEnabled enabled)
               (modify h (set_inited true) st))))
    /\ (length blur <= 1)%nat
    /\ (enabled && blurEnabled (windowData w) = false -> blur = []).
Proof.
  intros Hs w enabled. unfold init. rewrite bind_run. cbn [fst snd update].
  set (st1 := modify h (set_inited true) st).
  assert (Hw1 : deref st1 h = set_inited true w) by (apply deref_modify_eq, Hs).
  assert (Hs1 : is_Some (userData st1 !! h)).
  { destruct Hs as [w0 Hw0]. unfold st1, modify, set_userData. cbn [userData].
    rewrite lookup_alter_eq, Hw0. eauto. }
  rewrite bind_run. change (get st1) with (st1, st1). cbn [fst snd]. cbv zeta.
  rewrite Hw1. cbn [hWnd set_inited].
  unfold bind at 1 2 3, update at 1 2 3.
  rewrite !call_with_calls, !with_calls_app. cbn [app].
  set (st2 := with_calls _ st1).
  assert (Hs2 : is_Some (userData st2 !! h)) by exact Hs1.
  destruct (handleDwmCompositionChanged_run os h st2 Hs2)
    as (blur & Hrun & Hlen & Hoff).
  exists blur. rewrite bind_run, Hrun. cbn [fst snd].
  unfold handleThemeChanged, update. unfold st2 in *.
  rewrite !deref_with_calls, Hw1 in *. cbn [hWnd set_inited windowData] in *.
  rewrite !modify_with_calls, !with_calls_app.
  split; [|split; assumption].
  reflexivity.
Qed.

(** The filter is the setup followed by a [switch] that does not look at
    the state the filter started in. *)
Lemma framelessHandling_factor os msg :
  exists K : M Outcome,
    forall st,
      framelessHandling os msg st
      = K (snd (when (negb (inited (deref (snd (createUserData (hwnd msg) None st))
                                      (hwnd msg))))
                  (init os (hwnd msg))
                  (snd (createUserData (hwnd msg) None st)))).
Proof.
  eexists. intros st. unfold framelessHandling.
  rewrite bind_run, bind_run.
  match goal with |- context [get ?s] => change (get s) with (s, s) end.
  cbn [fst snd]. rewrite bind_run. cbv zeta. reflexivity.
Qed.

Lemma framelessHandling_after_setup os msg st :
  hwnd msg <> nullptr ->
  let s1 := snd (createUserData (hwnd msg) None st) in
  let s2 := snd (when (negb (inited (deref s1 (hwnd msg))))
                   (init os (hwnd msg)) s1) in
  ready (hwnd msg) s2
  /\ framelessHandling os msg st = framelessHandling os msg s2.
Proof.
  intros Hh s1 s2.
  destruct (lazy_init_ready os (hwnd msg) st Hh) as [Hr _]. fold s1 s2 in Hr.
  split; [exact Hr|].
  destruct (framelessHandling_factor os msg) as [K HK].
  rewrite (HK st), (HK s2). fold s1 s2. f_equal. symmetry.
  destruct (lazy_init_ready os (hwnd msg) s2 Hh) as [_ Hsame].
  apply Hsame, Hr.
Qed.

(** X14. The first message of a window the filter lets in creates the
    record of the window and runs the one-time setup before the message is
    looked at: the record has the handle, the composition and theme state
    of the system, the flag of the setup and the default settings; the
    records of the other windows stay.  For a message that has no effect of
    its own, the calls made are the two style calls and the color key, the
    two shadow calls while composition is on, and the refresh of the frame,
    and the message is answered by the table of the filter on the new
    record: a first [WM_NCPAINT] is blocked exactly when composition is
    off. *)
Theorem first_message_runs_setup os st msg :
  hwnd msg <> nullptr ->
  isFramelessMessage os st msg = true ->
  userData st !! hwnd msg = None ->
  message msg <> WM_NCCREATE ->
  message msg <> WM_DWMCOMPOSITIONCHANGED ->
  message msg <> WM_NCACTIVATE ->
  message msg <> WM_SETICON ->
  message msg <> WM_SETTEXT ->
  message msg <> WM_THEMECHANGED ->
  message msg <> WM_WINDOWPOSCHANGED ->
  message msg <> WM_DPICHANGED ->
  let h := hwnd msg in
  let enabled := DwmIsCompositionEnabled os in
  let record :=
    {| hWnd := h; dwmCompositionEnabled := enabled;
       themeEnabled := IsThemeActive os; inited := true;
       windowData := default_WINDOWDATA |} in
  let o := fst (nativeEventFilter os msg st) in
  let st' := snd (nativeEventFilter os msg st) in
  userData st' !! h = Some record
  /\ (forall p, p <> h -> userData st' !! p = userData st !! p)
  /\ calls st'
     = calls st
       ++ [SetWindowLongPtr_STYLE h
             (Z.lor (Z.lor WS_OVERLAPPEDWINDOW WS_CLIPCHILDREN) WS_CLIPSIBLINGS);
           SetWindowLongPtr_EXSTYLE h (Z.lor WS_EX_APPWINDOW WS_EX_LAYERED);
           SetLayeredWindowAttributes_COLORKEY h]
       ++ (if enabled
           then [DwmSetWindowAttribute_NCRP_ENABLED h;
                 DwmExtendFrameIntoClientArea h (-1)]
           else [])
       ++ refresh h
  /\ handled o = consumed os record msg
  /\ (message msg = WM_NCPAINT -> handled o = negb enabled).
Proof.
  intros Hh Hg Hnone N1 N2 N3 N4 N5 N6 N7 N8 h enabled record o st'.
  subst o st'. rewrite (nativeEventFilter_gate os st msg Hh), Hg.
  destruct (framelessHandling_after_setup os msg st Hh) as [Hr He].
  rewrite He. fold h in Hr, Hnone |- *.
  set (s2 := snd (when _ _ _)) in *.
  rewrite (framelessHandling_without_effect os s2 msg Hh Hr N1 N2 N3 N4 N5 N6 N7 N8).
  rewrite (framelessHandling_consumed os s2 msg Hh Hr). fold h.
  (* the state after the setup *)
  set (st0 := set_userData (<[h := new_WINDOW h None]> (userData st)) st).
  assert (Hs0 : snd (createUserData h None st) = st0).
  { rewrite createUserData_None_run. cbn [snd].
    apply Z.eqb_neq in Hh. fold h in Hh. rewrite Hh, Hnone. reflexivity. }
  assert (Hl0 : userData st0 !! h = Some (new_WINDOW h None))
    by (unfold st0, set_userData; cbn [userData]; apply lookup_insert_eq).
  assert (Hd0 : deref st0 h = new_WINDOW h None)
    by (unfold deref; rewrite Hl0; reflexivity).
  destruct (init_run os h st0 (ex_intro _ _ Hl0)) as (blur & Hrun & _ & Hoff).
  rewrite Hd0 in Hrun, Hoff. cbn [hWnd new_WINDOW windowData] in Hrun, Hoff.
  assert (Hb : blur = []).
  { apply Hoff. cbn. apply andb_false_r. }
  subst blur.
  assert (Hs2 : s2 = snd (init os h st0)).
  { unfold s2. rewrite Hs0, Hd0. reflexivity. }
  rewrite Hrun in Hs2. cbn [snd] in Hs2.
  assert (Hl2 : userData s2 !! h = Some record).
  { rewrite Hs2. unfold with_calls, modify, set_userData. cbn [userData].
    rewrite !lookup_alter_eq, Hl0. reflexivity. }
  assert (Hd2 : deref s2 h = record) by (unfold deref; rewrite Hl2; reflexivity).
  rewrite Hd2.
  split; [exact Hl2|]. split; [|split; [|split]].
  - intros p Hp. rewrite Hs2. unfold with_calls, modify, set_userData.
    cbn [userData]. rewrite !lookup_alter_ne by congruence.
    unfold st0, set_userData. cbn [userData].
    apply lookup_insert_ne. congruence.
  - rewrite Hs2. cbn [with_calls calls modify set_userData].
    unfold st0. cbn [calls set_userData]. reflexivity.
  - reflexivity.
  - intros Hm. unfold consumed. rewrite Hm. unfold record, enabled.
    cbn [dwmCompositionEnabled].
    destruct (DwmIsCompositionEnabled os); reflexivity.
Qed.

Lemma first_message_runs_setup_witness :
  let os := Samples.old_system in
  let msg := Samples.message_to 7 WM_NCPAINT NoTarget in
  (hwnd msg <> nullptr /\ isFramelessMessage os initial_State msg = true
   /\ userData initial_State !! hwnd msg = None)
  /\ handled (fst (nativeEventFilter os msg initial_State)) = true.
Proof.
  intros os msg.
  assert (Hh : hwnd msg <> nullptr) by discriminate.
  assert (Hg : isFramelessMessage os initial_State msg = true) by reflexivity.
  assert (Hn : userData initial_State !! hwnd msg = None) by reflexivity.
  split; [auto|].
  assert (H := first_message_runs_setup os initial_State msg Hh Hg Hn).
  destruct H as (_ & _ & _ & _ & Hp); try discriminate.
  rewrite (Hp eq_refl). reflexivity.
Defined.

(** ** Caption and size messages *)

Lemma hidden_style_bits style i :
  0 <= i ->
  Z.testbit (Z.land style (Z.lnot WS_VISIBLE)) i
  = Z.testbit style i && negb (i =? 28).
Proof.
  intros Hi. rewrite Z.land_spec, Z.lnot_spec by exact Hi.
  change WS_VISIBLE with (2 ^ 28). rewrite Z.pow2_bits_eqb by lia.
  rewrite (Z.eqb_sym 28 i). reflexivity.
Qed.

(** X15. [WM_SETICON] and [WM_SETTEXT] for a ready window: while
    composition and theming are both off, the filter hides the window for
    the time of the default handling, by a style that differs from the
    current one in the bit [WS_VISIBLE] only, and puts the current style
    back afterwards; the result is the one of the default handling.  While
    composition or theming is on the message is passed on and no call is
    made. *)
Theorem caption_messages_toggle_visibility os st msg :
  hwnd msg <> nullptr ->
  isFramelessMessage os st msg = true ->
  ready (hwnd msg) st ->
  message msg = WM_SETICON \/ message msg = WM_SETTEXT ->
  let h := hwnd msg in
  let w := deref st h in
  let oldStyle := GetWindowLongPtr_STYLE os h in
  let hidden := Z.land oldStyle (Z.lnot WS_VISIBLE) in
  nativeEventFilter os msg st
  = (if negb (dwmCompositionEnabled w) && negb (themeEnabled w) then
       (done_with msg
          (DefWindowProcW os h (message msg) (wParam msg) (lParam msg)),
        with_calls
          [SetWindowLongPtr_STYLE h hidden;
           DefWindowProc_called h (message msg) (wParam msg) (lParam msg);
           SetWindowLongPtr_STYLE h oldStyle]
          st)
     else (skipped msg, st))
  /\ Z.testbit hidden 28 = false
  /\ forall i, 0 <= i -> i <> 28 -> Z.testbit hidden i = Z.testbit oldStyle i.
Proof.
  intros Hh Hg Hr Hm h w oldStyle hidden. split.
  - rewrite (nativeEventFilter_gate os st msg Hh), Hg.
    enter_switch os Hh Hr. fold h.
    assert (Hsw : (message msg =? WM_SETICON) || (message msg =? WM_SETTEXT) = true).
    { destruct Hm as [-> | ->]; reflexivity. }
    assert (Hno : forall c, c <> WM_SETICON -> c <> WM_SETTEXT ->
                            (message msg =? c) = false).
    { intros c H1 H2. apply Z.eqb_neq. destruct Hm as [-> | ->]; congruence. }
    rewrite !Hno by discriminate. cbn [orb]. rewrite Hsw.
    rewrite bind_run. change (get st) with (st, st). cbn [fst snd]. fold w.
    destruct (negb (dwmCompositionEnabled w) && negb (themeEnabled w));
      [|reflexivity].
    unfold bind, update, ret. rewrite !call_with_calls, !with_calls_app.
    reflexivity.
  - split.
    + unfold hidden. rewrite hidden_style_bits by lia. apply andb_false_r.
    + intros i Hi Hne. unfold hidden. rewrite hidden_style_bits by exact Hi.
      apply Z.eqb_neq in Hne. rewrite Hne. apply andb_true_r.
Qed.

Lemma caption_messages_toggle_visibility_witness :
  let os := Samples.old_system in
  let st := Samples.seen os 7 in
  let msg := Samples.message_to 7 WM_SETTEXT NoTarget in
  (hwnd msg <> nullptr /\ isFramelessMessage os st msg = true /\ ready 7 st)
  /\ calls (snd (nativeEventFilter os msg st))
     = calls st ++ [SetWindowLongPtr_STYLE 7 5;
                    DefWindowProc_called 7 WM_SETTEXT 0 0;
                    SetWindowLongPtr_STYLE 7 (WS_VISIBLE + 5)].
Proof.
  intros os st msg.
  assert (Hh : hwnd msg <> nullptr) by discriminate.
  assert (Hg : isFramelessMessage os st msg = true) by reflexivity.
  assert (Hr : ready (hwnd msg) st).
  { vm_compute. eexists. split; reflexivity. }
  split; [auto|].
  destruct (caption_messages_toggle_visibility os st msg Hh Hg Hr
              (or_intror eq_refl)) as (He & _).
  rewrite He. reflexivity.
Defined.

(** X16. [WM_GETMINMAXINFO] for a ready window whose monitor is found is
    answered with 0.  The maximized size and the largest tracking size are
    both the size of the work area of the monitor; on systems newer than
    Windows 7 the maximized position is the offset of the work area inside
    the monitor, so that for a work area that lies inside its monitor the
    maximized window covers the work area and nothing else; the smallest
    tracking size is written only when a minimum size is set, and is that
    size scaled.  Without a monitor the message is passed on untouched. *)
Theorem min_max_info_fits_work_area os st msg mmi :
  hwnd msg <> nullptr ->
  isFramelessMessage os st msg = true ->
  ready (hwnd msg) st ->
  message msg = WM_GETMINMAXINFO ->
  target msg = MinMaxInfo mmi ->
  let h := hwnd msg in
  let monitor := MonitorFromWindow os h in
  let work := rcWork os monitor in
  let area := rcMonitor os monitor in
  let minSize := minimumSize (windowData (deref st h)) in
  let o := fst (nativeEventFilter os msg st) in
  (monitor = nullptr -> o = skipped msg)
  /\ (monitor <> nullptr ->
      left area <= left work <= right work ->
      top area <= top work <= bottom work ->
      exists mmi',
        o = {| handled := true; result := Some 0; target' := MinMaxInfo mmi' |}
        /\ ptMaxSize mmi'
           = {| px := right work - left work; py := bottom work - top work |}
        /\ ptMaxTrackSize mmi' = ptMaxSize mmi'
        /\ (current_gt os Windows7 = true ->
            ptMaxPosition mmi'
            = {| px := left work - left area; py := top work - top area |})
        /\ (current_gt os Windows7 = false ->
            ptMaxPosition mmi' = {| px := left area; py := top area |})
        /\ (isEmpty minSize = true -> ptMinTrackSize mmi' = ptMinTrackSize mmi)
        /\ (isEmpty minSize = false ->
            ptMinTrackSize mmi'
            = {| px := scaled (wd minSize) (getDprForWindow os st h);
                 py := scaled (ht minSize) (getDprForWindow os st h) |})).
Proof.
  intros Hh Hg Hr Hm Ht h monitor work area minSize o. subst o.
  rewrite (nativeEventFilter_gate os st msg Hh), Hg.
  enter_switch os Hh Hr. rewrite Hm, Ht.
  change (WM_GETMINMAXINFO =? WM_NCCREATE) with false.
  change (WM_GETMINMAXINFO =? WM_NCCALCSIZE) with false.
  change (WM_GETMINMAXINFO =? WM_DWMCOMPOSITIONCHANGED) with false.
  change (WM_GETMINMAXINFO =? WM_NCUAHDRAWCAPTION) with false.
  change (WM_GETMINMAXINFO =? WM_NCUAHDRAWFRAME) with false.
  change (WM_GETMINMAXINFO =? WM_NCPAINT) with false.
  change (WM_GETMINMAXINFO =? WM_NCACTIVATE) with false.
  change (WM_GETMINMAXINFO =? WM_NCHITTEST) with false.
  change (WM_GETMINMAXINFO =? WM_GETMINMAXINFO) with true.
  cbn [orb]. cbv iota. fold h monitor. split.
  - intros ->. reflexivity.
  - intros Hmon Hx Hy. apply Z.eqb_neq in Hmon. rewrite Hmon. cbn [negb].
    rewrite bind_run. change (get st) with (st, st). cbn [fst snd ret].
    eexists. split; [reflexivity|].
    unfold getMinMaxInfo. fold work area minSize.
    cbn [ptMaxSize ptMaxTrackSize ptMaxPosition ptMinTrackSize].
    rewrite !Z.abs_eq by lia.
    split; [reflexivity|]. split; [reflexivity|].
    split; [intros ->; reflexivity|].
    split; [intros ->; reflexivity|].
    split; intros ->; reflexivity.
Qed.

Lemma min_max_info_fits_work_area_witness :
  let os := Samples.new_system in
  let st := Samples.seen os 7 in
  let mmi := {| ptMaxSize := {| px := 0; py := 0 |};
                ptMaxPosition := {| px := 0; py := 0 |};
                ptMinTrackSize := {| px := 1; py := 1 |};
                ptMaxTrackSize := {| px := 0; py := 0 |} |} in
  let msg := Samples.message_to 7 WM_GETMINMAXINFO (MinMaxInfo mmi) in
  (hwnd msg <> nullptr /\ isFramelessMessage os st msg = true /\ ready 7 st)
  /\ exists mmi',
       target' (fst (nativeEventFilter os msg st)) = MinMaxInfo mmi'
       /\ ptMaxSize mmi' = {| px := 1920; py := 1040 |}
       /\ ptMaxPosition mmi' = {| px := 0; py := 40 |}.
Proof.
  intros os st mmi msg.
  assert (Hh : hwnd msg <> nullptr) by discriminate.
  assert (Hg : isFramelessMessage os st msg = true) by reflexivity.
  assert (Hr : ready (hwnd msg) st).
  { vm_compute. eexists. split; reflexivity. }
  split; [auto|].
  destruct (min_max_info_fits_work_area os st msg mmi Hh Hg Hr eq_refl eq_refl)
    as (_ & Hfound).
  destruct Hfound as (mmi' & He & Hsize & _ & Hpos & _);
    [discriminate|vm_compute; split; discriminate
    |vm_compute; split; discriminate|].
  exists mmi'. rewrite He. split; [reflexivity|].
  split; [exact Hsize|exact (Hpos eq_refl)].
Defined.

(** ** System metrics and scale factor *)

(** X17. With [GetSystemMetricsForDpi] at hand a system metric is asked for
    at the DPI of the window itself under the pass-through policy, and
    otherwise at that DPI brought to a step of the baseline: below the
    baseline it is the baseline; from there up to 432 it is a multiple of
    48 less than 48 away, and a half step (144, 240, 336) only when the DPI
    is exactly that; from 432 on it is left as it is. *)
Theorem system_metrics_dpi_steps os st h index f :
  m_GetSystemMetricsForDpi (caps st) = Some f ->
  let dpi := getDpiForWindow os st h in
  let metric := getSystemMetricsForWindow os st h index in
  (highDpiScaleFactorRoundingPolicy os = PassThrough -> metric = f index dpi)
  /\ (highDpiScaleFactorRoundingPolicy os <> PassThrough ->
      exists d,
        metric = f index d
        /\ (dpi < 96 -> d = 96)
        /\ (96 <= dpi < 432 ->
            (48 | d) /\ Z.abs (d - dpi) < 48 /\ 96 <= d <= 384
            /\ (~ (96 | d) -> d = dpi))
        /\ (432 <= dpi -> d = dpi)).
Proof.
  intros Hf dpi metric. subst metric. unfold getSystemMetricsForWindow.
  rewrite Hf. fold dpi. cbv zeta. split.
  - intros ->. reflexivity.
  - intros Hp.
    assert (Hround : match highDpiScaleFactorRoundingPolicy os with
                     | PassThrough => false | _ => true end = true)
      by (destruct (highDpiScaleFactorRoundingPolicy os); congruence).
    rewrite Hround. unfold USER_DEFAULT_SCREEN_DPI.
    assert (D48 : forall k, (48 | 48 * k)) by (intros k; exists k; lia).
    destruct (dpi <? 144) eqn:E1.
    { apply Z.ltb_lt in E1. exists 96. split; [reflexivity|].
      split; [reflexivity|]. split; [|lia]. intros Hr.
      split; [apply (D48 2)|]. split; [lia|]. split; [lia|].
      intros Hn. exfalso. apply Hn. exists 1. reflexivity. }
    apply Z.ltb_ge in E1.
    destruct (dpi =? 144) eqn:E2.
    { apply Z.eqb_eq in E2. exists 144. split; [reflexivity|].
      split; [lia|]. split; [|lia]. intros Hr.
      split; [apply (D48 3)|]. split; [lia|]. split; [lia|]. lia. }
    apply Z.eqb_neq in E2.
    destruct (dpi <? 240) eqn:E3.
    { apply Z.ltb_lt in E3. exists (96 * 2). split; [reflexivity|].
      split; [lia|]. split; [|lia]. intros Hr.
      split; [apply (D48 4)|]. split; [lia|]. split; [lia|].
      intros Hn. exfalso. apply Hn. exists 2. reflexivity. }
    apply Z.ltb_ge in E3.
    destruct (dpi =? 240) eqn:E4.
    { apply Z.eqb_eq in E4. exists 240. split; [reflexivity|].
      split; [lia|]. split; [|lia]. intros Hr.
      split; [apply (D48 5)|]. split; [lia|]. split; [lia|]. lia. }
    apply Z.eqb_neq in E4.
    destruct (dpi <? 336) eqn:E5.
    { apply Z.ltb_lt in E5. exists (96 * 3). split; [reflexivity|].
      split; [lia|]. split; [|lia]. intros Hr.
      split; [apply (D48 6)|]. split; [lia|]. split; [lia|].
      intros Hn. exfalso. apply Hn. exists 3. reflexivity. }
    apply Z.ltb_ge in E5.
    destruct (dpi =? 336) eqn:E6.
    { apply Z.eqb_eq in E6. exists 336. split; [reflexivity|].
      split; [lia|]. split; [|lia]. intros Hr.
      split; [apply (D48 7)|]. split; [lia|]. split; [lia|]. lia. }
    apply Z.eqb_neq in E6.
    destruct (dpi <? 432) eqn:E7.
    { apply Z.ltb_lt in E7. exists (96 * 4). split; [reflexivity|].
      split; [lia|]. split; [|lia]. intros Hr.
      split; [apply (D48 8)|]. split; [lia|]. split; [lia|].
      intros Hn. exfalso. apply Hn. exists 4. reflexivity. }
    apply Z.ltb_ge in E7.
    exists dpi. split; [reflexivity|]. split; [lia|]. split; [lia|]. reflexivity.
Qed.

Lemma system_metrics_dpi_steps_witness :
  let os := Samples.old_system in
  let st := set_caps Samples.all_resolved initial_State in
  m_GetSystemMetricsForDpi (caps st) = Some (fun index dpi => index + dpi)
  /\ exists d, getSystemMetricsForWindow os st 7 SM_CXFRAME = SM_CXFRAME + d
               /\ (48 | d).
Proof.
  intros os st.
  assert (Hf : m_GetSystemMetricsForDpi (caps st)
               = Some (fun index dpi => index + dpi)) by reflexivity.
  split; [exact Hf|].
  destruct (system_metrics_dpi_steps os st 7 SM_CXFRAME _ Hf) as [_ Hstep].
  destruct Hstep as (d & Hm & _ & Hmid & _);
    [intros H; vm_compute in H; discriminate H|].
  exists d. split; [exact Hm|].
  apply Hmid. vm_compute. split; [discriminate|reflexivity].
Defined.

Lemma getDpiForWindow_with_policy p os st h :
  getDpiForWindow (with_policy p os) st h = getDpiForWindow os st h.
Proof. reflexivity. Qed.

Lemma Qfloor_half_between q :
  Qfloor q <= Qfloor (q + (1 # 2)) <= Qceiling q.
Proof.
  pose proof (Qfloor_le q) as F1. pose proof (Qlt_floor q) as F2.
  pose proof (Qfloor_le (q + (1 # 2))) as R1.
  pose proof (Qlt_floor (q + (1 # 2))) as R2.
  pose proof (Qle_ceiling q) as C1.
  rewrite inject_Z_plus in F2, R2. change (inject_Z 1) with 1%Q in F2, R2.
  split.
  - apply Z.lt_succ_r. rewrite Zlt_Qlt. unfold Z.succ.
    rewrite inject_Z_plus. change (inject_Z 1) with 1%Q. lra.
  - apply Z.lt_succ_r. rewrite Zlt_Qlt. unfold Z.succ.
    rewrite inject_Z_plus. change (inject_Z 1) with 1%Q. lra.
Qed.

Lemma Qceiling_floor_gap q : Qfloor q <= Qceiling q <= Qfloor q + 1.
Proof.
  pose proof (Qfloor_le q) as F1. pose proof (Qlt_floor q) as F2.
  pose proof (Qle_ceiling q) as C1. pose proof (Qceiling_lt q) as C2.
  rewrite inject_Z_plus in F2. change (inject_Z 1) with 1%Q in F2.
  unfold Z.sub in C2. rewrite inject_Z_plus, inject_Z_opp in C2.
  change (inject_Z 1) with 1%Q in C2.
  split.
  - apply Z.lt_succ_r. rewrite Zlt_Qlt. unfold Z.succ.
    rewrite inject_Z_plus. change (inject_Z 1) with 1%Q. lra.
  - apply Z.lt_succ_r. rewrite Zlt_Qlt. unfold Z.succ.
    rewrite !inject_Z_plus. change (inject_Z 1) with 1%Q. lra.
Qed.

(** X18. For one window at one DPI the rounding policies give scale factors
    in a fixed order: floor is at most pass-through and at most round, both
    are at most ceil, and ceil is at most one above floor.  At a DPI that
    is a multiple of 96 all policies give the same whole factor. *)
Theorem rounding_policies_compared os st h :
  h <> nullptr ->
  let scale p := getDprForWindow (with_policy p os) st h in
  (scale Floor <= scale PassThrough <= scale Ceil)%Q
  /\ (scale Floor <= scale Round <= scale Ceil)%Q
  /\ (scale Ceil <= scale Floor + 1)%Q
  /\ forall k, getDpiForWindow os st h = 96 * k ->
       forall p, (scale p == inject_Z k)%Q.
Proof.
  intros Hh scale.
  pose proof (getDpiForWindow_range os st h) as Hdpi.
  destruct (dpi_quotient_rounding _ Hdpi) as (Hd0 & Hf & Hc & _).
  unfold qFloor, qCeil in Hf, Hc.
  set (q := (inject_Z (getDpiForWindow os st h)
             / inject_Z USER_DEFAULT_SCREEN_DPI)%Q) in *.
  set (d := qreal_div (inject_Z (getDpiForWindow os st h))
              (inject_Z USER_DEFAULT_SCREEN_DPI)) in *.
  assert (Hs : forall p, scale p
                = match p with
                  | PassThrough => d
                  | Floor => inject_Z (Qfloor q)
                  | Ceil => inject_Z (Qceiling q)
                  | _ => inject_Z (Qfloor (q + (1 # 2)))
                  end).
  { intros p. unfold scale.
    rewrite (getDprForWindow_rounded (with_policy p os) st h Hh).
    rewrite getDpiForWindow_with_policy. fold q d.
    destruct p; reflexivity. }
  rewrite !Hs.
  pose proof (Qfloor_half_between q) as [B1 B2].
  pose proof (Qceiling_floor_gap q) as [G1 G2].
  split.
  { rewrite <- Hf, <- Hc. split; [apply Qfloor_le|apply Qle_ceiling]. }
  split; [split; rewrite <- Zle_Qle; assumption|].
  split.
  { rewrite <- (inject_Z_plus _ 1). rewrite <- Zle_Qle. exact G2. }
  intros k Hk p. rewrite Hs.
  assert (Hqk : (q == inject_Z k)%Q).
  { unfold q. rewrite Hk, inject_Z_mult. unfold USER_DEFAULT_SCREEN_DPI. field. }
  assert (Hdk : (d == inject_Z k)%Q).
  { unfold d, qreal_div. fold q. apply round_double_Z; [lia|exact Hqk]. }
  assert (Hfl : Qfloor q = k) by (rewrite Hqk; apply Qfloor_Z).
  assert (Hce : Qceiling q = k) by (rewrite Hqk; apply Qceiling_Z).
  assert (Hro : Qfloor (q + (1 # 2)) = k) by lia.
  rewrite Hfl, Hce, Hro.
  destruct p; first [reflexivity | exact Hdk].
Qed.

Lemma rounding_policies_compared_witness :
  let os := Samples.old_system in
  let st := set_caps Samples.all_resolved initial_State in
  7 <> nullptr
  /\ (getDprForWindow (with_policy Ceil os) st 7
      <= getDprForWindow (with_policy Floor os) st 7 + 1)%Q.
Proof.
  intros os st.
  assert (H7 : 7 <> nullptr) by discriminate.
  split; [exact H7|].
  exact (proj1 (proj2 (proj2 (rounding_policies_compared os st 7 H7)))).
Defined.

(** ** Settings of a window *)

(** X19. [setWindowData] followed by [windowData] is a round trip: the
    settings read back are the ones written.  Writing keeps the flags of a
    record that exists (a window that was set up is not set up again),
    leaves the records of the other windows alone and refreshes the frame
    of the window; reading changes nothing.  With a null handle or with no
    settings [setWindowData] does nothing, and [windowData] of a null
    handle is null. *)
Theorem setWindowData_round_trip window d st :
  window <> nullptr ->
  let st' := snd (setWindowData window (Some d) st) in
  WinNativeEventFilterData.windowData window st' = (Some window, st')
  /\ windowData (deref st' window) = d
  /\ inited (deref st' window) = inited (deref st window)
  /\ dwmCompositionEnabled (deref st' window)
     = dwmCompositionEnabled (deref st window)
  /\ themeEnabled (deref st' window) = themeEnabled (deref st window)
  /\ (forall p, p <> window -> userData st' !! p = userData st !! p)
  /\ calls st' = calls st ++ refresh window
  /\ m_framelessWindows st' = m_framelessWindows st
  /\ setWindowData window None st = (tt, st)
  /\ setWindowData nullptr (Some d) st = (tt, st)
  /\ WinNativeEventFilterData.windowData nullptr st = (None, st).
Proof.
  intros Hw st'.
  assert (Hz : (window =? nullptr) = false) by (apply Z.eqb_neq; exact Hw).
  destruct (createUserData_Some_deref window d st Hw)
    as (Hd & _ & Hi & Hc & Ht & Ho & Hs & _ & Hcalls & Hl & _).
  assert (Hst : st' = with_calls (refresh window)
                        (snd (createUserData window (Some d) st))).
  { subst st'. unfold setWindowData. rewrite Hz. cbn [negb when].
    rewrite bind_run, updateWindow_run. reflexivity. }
  rewrite Hst. rewrite !deref_with_calls.
  split.
  { unfold WinNativeEventFilterData.windowData. rewrite Hz. cbn [negb].
    rewrite bind_run, createUserData_None_exists by exact Hs. reflexivity. }
  split; [exact Hd|]. split; [exact Hi|]. split; [exact Hc|].
  split; [exact Ht|]. split; [exact Ho|].
  split; [cbn [with_calls calls]; rewrite Hcalls; reflexivity|].
  split; [exact Hl|]. repeat split.
Qed.

Lemma setWindowData_round_trip_witness :
  let st := Scenario.registered [] [] in
  let d := Scenario.settings [mkQRect 0 0 10 10] [] in
  8 <> nullptr
  /\ windowData (deref (snd (setWindowData 8 (Some d) st)) 8) = d.
Proof.
  intros st d.
  assert (H8 : 8 <> nullptr) by discriminate.
  split; [exact H8|].
  exact (proj1 (proj2 (setWindowData_round_trip 8 d st H8))).
Defined.

(** ** Areas *)

Lemma insideSomeArea_app x y l1 l2 dpr :
  insideSomeArea x y (l1 ++ l2) dpr
  <-> insideSomeArea x y l1 dpr \/ insideSomeArea x y l2 dpr.
Proof. unfold insideSomeArea. apply Exists_app. Qed.

(** X20. Whether a point lies in a sequence of areas does not depend on
    the order of the rectangles and is not changed by rectangles that are
    not valid; for two sequences put one after the other it is the
    disjunction of the two answers, so adding rectangles never takes a
    point out. *)
Theorem areas_as_a_set x y dpr areas areas' :
  (areas ≡ₚ areas' ->
     isInSpecificAreas x y areas dpr = isInSpecificAreas x y areas' dpr)
  /\ isInSpecificAreas x y (areas ++ areas') dpr
     = isInSpecificAreas x y areas dpr || isInSpecificAreas x y areas' dpr
  /\ isInSpecificAreas x y (List.filter isValid areas) dpr
     = isInSpecificAreas x y areas dpr.
Proof.
  split; [|split].
  - intros Hp. apply eq_true_iff_eq. rewrite !isInSpecificAreas_iff.
    unfold insideSomeArea. rewrite !Exists_exists.
    split; intros (a & Hin & Ha); exists a; (split; [|exact Ha]).
    + apply list_elem_of_In. rewrite <- Hp. apply list_elem_of_In, Hin.
    + apply list_elem_of_In. rewrite Hp. apply list_elem_of_In, Hin.
  - apply eq_true_iff_eq.
    rewrite orb_true_iff, !isInSpecificAreas_iff. apply insideSomeArea_app.
  - induction areas as [|a l IH]; [reflexivity|].
    cbn [List.filter isInSpecificAreas].
    destruct (isValid a) eqn:E; cbn [isInSpecificAreas negb].
    + rewrite E. cbn [negb]. rewrite IH. reflexivity.
    + exact IH.
Qed.

(** ** The table of the toolkit-event fallback *)

Lemma table_ok_empty {UserSettings SystemParameters QWindowPtr : Type}
    (isValid : SystemParameters -> bool) (getWindowId : SystemParameters -> Z)
    (cs : list (FramelessHelperQt.QtCall (SystemParameters := SystemParameters)
                  (QWindowPtr := QWindowPtr))) :
  Invariants.table_ok (UserSettings := UserSettings) isValid getWindowId
    {| FramelessHelperQt.data := ∅; FramelessHelperQt.allocated := 0%nat;
       FramelessHelperQt.qtCalls := cs |}.
Proof.
  split; [|split].
  - intros k d H. cbn in H. rewrite lookup_empty in H. discriminate H.
  - intros k1 k2 d1 d2 H. cbn in H. rewrite lookup_empty in H. discriminate H.
  - cbn. apply map_size_empty.
Qed.

(** X21. [addWindow] keeps the table of the toolkit-event fallback
    consistent: every record is stored under the id of its window with
    valid parameters, no two records share an event filter and every event
    filter created is owned by a record.  A record that is in the table is
    never replaced and the records of other ids are not touched; valid
    parameters are in the table after the call.  The calls made before are
    kept, and every window flag set by the call carries the frameless
    hint. *)
Theorem qt_table_stays_consistent
    {UserSettings SystemParameters QWindowPtr : Type}
    (isValid : SystemParameters -> bool)
    (getWindowId : SystemParameters -> Z)
    (getWindowHandle : SystemParameters -> QWindowPtr)
    (getWindowFlags : SystemParameters -> Z)
    (s : UserSettings) (p : SystemParameters)
    (g : FramelessHelperQt.QtHelper (QWindowPtr := QWindowPtr)) :
  Invariants.table_ok isValid getWindowId g ->
  let g' :=
    FramelessHelperQt.addWindow isValid getWindowId getWindowHandle
      getWindowFlags s p g in
  Invariants.table_ok isValid getWindowId g'
  /\ (forall k d, FramelessHelperQt.data g !! k = Some d ->
        FramelessHelperQt.data g' !! k = Some d)
  /\ (forall k, k <> getWindowId p ->
        FramelessHelperQt.data g' !! k = FramelessHelperQt.data g !! k)
  /\ (isValid p = true ->
        is_Some (FramelessHelperQt.data g' !! getWindowId p))
  /\ exists cs,
       FramelessHelperQt.qtCalls g' = FramelessHelperQt.qtCalls g ++ cs
       /\ forall p' flags,
            FramelessHelperQt.setWindowFlags p' flags ∈ cs ->
            Z.land flags FramelessHelperQt.FramelessWindowHint
            = FramelessHelperQt.FramelessWindowHint.
Proof.
  intros Hok g'. subst g'. unfold FramelessHelperQt.addWindow.
  assert (Hsame :
    Invariants.table_ok isValid getWindowId g
    /\ (forall k d, FramelessHelperQt.data g !! k = Some d ->
          FramelessHelperQt.data g !! k = Some d)
    /\ (forall k, k <> getWindowId p ->
          FramelessHelperQt.data g !! k = FramelessHelperQt.data g !! k)).
  { split; [exact Hok|]. split; [intros k d H; exact H|reflexivity]. }
  assert (Hnil : exists cs,
       FramelessHelperQt.qtCalls g = FramelessHelperQt.qtCalls g ++ cs
       /\ forall p' flags,
            FramelessHelperQt.setWindowFlags (QWindowPtr := QWindowPtr)
              p' flags ∈ cs ->
            Z.land flags FramelessHelperQt.FramelessWindowHint
            = FramelessHelperQt.FramelessWindowHint).
  { exists []. split; [rewrite app_nil_r; reflexivity|].
    intros p' flags H. apply not_elem_of_nil in H. destruct H. }
  destruct (isValid p) eqn:Hv; cbn [negb].
  2:{ destruct Hsame as (H1 & H2 & H3).
      split; [exact H1|]. split; [exact H2|]. split; [exact H3|].
      split; [discriminate|exact Hnil]. }
  destruct (FramelessHelperQt.data g !! getWindowId p) as [r|] eqn:E.
  { destruct Hsame as (H1 & H2 & H3).
    split; [exact H1|]. split; [exact H2|]. split; [exact H3|].
    split; [intros _; rewrite E; eauto|exact Hnil]. }
  destruct Hok as (Hrec & Hinj & Hsize). unfold Invariants.table_ok.
  cbn [FramelessHelperQt.data FramelessHelperQt.allocated
       FramelessHelperQt.qtCalls FramelessHelperQt.eventFilter].
  split; [split; [|split]|].
  - intros k d. destruct (decide (k = getWindowId p)) as [->|Hne].
    + rewrite lookup_insert_eq. intros [= <-]. cbn. repeat split; [exact Hv|lia].
    + rewrite lookup_insert_ne by congruence. intros H.
      destruct (Hrec k d H) as (Ha & Hb & Hc).
      split; [exact Ha|]. split; [exact Hb|lia].
  - intros k1 k2 d1 d2.
    destruct (decide (k1 = getWindowId p)) as [->|Hne1];
      destruct (decide (k2 = getWindowId p)) as [->|Hne2].
    + reflexivity.
    + rewrite lookup_insert_eq, lookup_insert_ne by congruence.
      intros [= <-] H2 He. cbn in He.
      destruct (Hrec k2 d2 H2) as (_ & _ & Hc). lia.
    + rewrite lookup_insert_eq, lookup_insert_ne by congruence.
      intros H1 [= <-] He. cbn in He.
      destruct (Hrec k1 d1 H1) as (_ & _ & Hc). lia.
    + rewrite !lookup_insert_ne by congruence. apply Hinj.
  - rewrite map_size_insert_None by exact E. rewrite Hsize. reflexivity.
  - split.
    { intros k d H. rewrite lookup_insert_ne; [exact H|].
      intros <-. rewrite E in H. discriminate H. }
    split; [intros k Hne; apply lookup_insert_ne; congruence|].
    split; [intros _; rewrite lookup_insert_eq; eauto|].
    eexists. split; [reflexivity|].
    intros p' flags H. apply elem_of_cons in H as [H|H].
    + injection H as _ ->. unfold FramelessHelperQt.FramelessWindowHint.
      apply Z.bits_inj'. intros n Hn.
      rewrite Z.land_spec, Z.lor_spec.
      destruct (Z.testbit 2048 n);
        [rewrite orb_true_r; reflexivity|apply andb_false_r].
    + apply list_elem_of_singleton in H. discriminate H.
Qed.

Lemma qt_table_stays_consistent_witness :
  let isValid := fun p : Z => 0 <? p in
  let getId := fun p : Z => p in
  let g := {| FramelessHelperQt.data := ∅; FramelessHelperQt.allocated := 0%nat;
              FramelessHelperQt.qtCalls := [] |} in
  let add := FramelessHelperQt.addWindow (UserSettings := Z) (QWindowPtr := Z)
               isValid getId getId getId in
  Invariants.table_ok isValid getId g
  /\ Invariants.table_ok isValid getId (add 2 8 (add 1 7 g)).
Proof.
  intros isValid getId g add.
  assert (H0 : Invariants.table_ok isValid getId g) by apply table_ok_empty.
  split; [exact H0|].
  apply (qt_table_stays_consistent isValid getId getId getId).
  apply (qt_table_stays_consistent isValid getId getId getId). exact H0.
Defined.

(** ** Mouse events of the toolkit-event fallback *)

(** X22. [eventFilter] consumes an event in one case only: a press of the
    left button, not a theme change, on a window that is in the table and
    not of fixed size, at a point for which some edge is computed; then it
    makes one call, the start of a system resize with these edges at the
    global position of the event.  In every other case it returns false
    and starts no resize.  Apart from the theme notification, calls are
    made only on windows of the table that are not of fixed size, the
    cursor is not touched when the settings of the window say so, and at
    most one call is made for an event. *)
Theorem eventFilter_consumes_only_resize
    {UserSettings SystemParameters QWindowPtr QPoint CursorShape Edges : Type}
    `{EqDecision CursorShape} `{EqDecision Edges}
    (DontTouchCursorShape : UserSettings -> bool)
    (isWindowFixedSize : SystemParameters -> bool)
    (ArrowCursor : CursorShape) (noEdges : Edges)
    (calculateCursorShape : QWindowPtr -> QPoint -> CursorShape)
    (calculateWindowEdges : QWindowPtr -> QPoint -> Edges)
    (winId : QWindowPtr -> Z)
    (g : FramelessHelperQt.QtHelper (UserSettings := UserSettings)
           (SystemParameters := SystemParameters) (QWindowPtr := QWindowPtr))
    (object : option FramelessHelperQtEvent.QObject)
    (event : option FramelessHelperQtEvent.QEvent) :
  let r :=
    FramelessHelperQtEvent.eventFilter DontTouchCursorShape isWindowFixedSize
      ArrowCursor noEdges calculateCursorShape calculateWindowEdges winId
      g object event in
  (fst r = true <->
     exists window ev d,
       object = Some (FramelessHelperQtEvent.Window window)
       /\ event = Some ev
       /\ FramelessHelperQtEvent.isThemeChangeEvent ev = false
       /\ FramelessHelperQtEvent.type ev
          = FramelessHelperQtEvent.MouseButtonPress
       /\ FramelessHelperQtEvent.button ev = FramelessHelperQtEvent.LeftButton
       /\ FramelessHelperQt.data g !! winId window = Some d
       /\ isWindowFixedSize (FramelessHelperQt.params d) = false
       /\ calculateWindowEdges window (FramelessHelperQtEvent.scenePos ev)
          <> noEdges)
  /\ (fst r = true ->
      exists window ev,
        object = Some (FramelessHelperQtEvent.Window window)
        /\ event = Some ev
        /\ snd r
           = [FramelessHelperQtEvent.startSystemResize window
                (calculateWindowEdges window
                   (FramelessHelperQtEvent.scenePos ev))
                (FramelessHelperQtEvent.globalPos ev)])
  /\ (fst r = false ->
      forall w e q, FramelessHelperQtEvent.startSystemResize w e q ∉ snd r)
  /\ (forall c, c ∈ snd r ->
      c <> FramelessHelperQtEvent.notifySystemThemeHasChangedOrNot ->
      exists window d,
        object = Some (FramelessHelperQtEvent.Window window)
        /\ FramelessHelperQt.data g !! winId window = Some d
        /\ isWindowFixedSize (FramelessHelperQt.params d) = false
        /\ (DontTouchCursorShape (FramelessHelperQt.settings d) = true ->
            exists e q, c = FramelessHelperQtEvent.startSystemResize window e q))
  /\ (length (snd r) <= 1)%nat.
Proof.
  intros r. subst r. unfold FramelessHelperQtEvent.eventFilter.
  assert (Hnone : forall w (e : Edges) q,
    FramelessHelperQtEvent.startSystemResize (QWindowPtr := QWindowPtr)
      (QPoint := QPoint) (CursorShape := CursorShape) w e q ∉ []).
  { intros w e q. apply not_elem_of_nil. }
  assert (Hone : forall (c : FramelessHelperQtEvent.FilterCall
                           (QWindowPtr := QWindowPtr) (QPoint := QPoint)
                           (CursorShape := CursorShape) (Edges := Edges)) w e q,
    c <> FramelessHelperQtEvent.startSystemResize w e q ->
    FramelessHelperQtEvent.startSystemResize w e q ∉ [c]).
  { intros c w e q Hc Hin. apply list_elem_of_singleton in Hin. congruence. }
  destruct object as [[window|]|], event as [ev|];
    try (cbn; split; [split; [discriminate|intros (?&?&?&?&?&_); congruence]|];
         split; [discriminate|]; split; [intros _; exact Hnone|];
         split; [intros c Hc; apply not_elem_of_nil in Hc; destruct Hc|lia]).
  - destruct (FramelessHelperQtEvent.isThemeChangeEvent ev) eqn:Et.
    { cbn. split; [split; [discriminate|
                           intros (?&?&?&_&[= <-]&?&_); congruence]|].
      split; [discriminate|].
      split; [intros _ w e q; apply Hone; discriminate|].
      split; [|lia].
      intros c Hc Hn. apply list_elem_of_singleton in Hc. congruence. }
    destruct (FramelessHelperQtEvent.type ev) eqn:Ety.
    3:{ cbn. split; [split; [discriminate|
                             intros (?&?&?&_&[= <-]&_&?&_); congruence]|].
        split; [discriminate|]. split; [intros _; exact Hnone|].
        split; [intros c Hc; apply not_elem_of_nil in Hc; destruct Hc|lia]. }
    + destruct (FramelessHelperQt.data g !! winId window) as [d|] eqn:Ed.
      2:{ cbn. split; [split; [discriminate|
                 intros (?&?&?&[= <-]&_&_&_&_&?&_); congruence]|].
          split; [discriminate|]. split; [intros _; exact Hnone|].
          split; [intros c Hc; apply not_elem_of_nil in Hc; destruct Hc|lia]. }
      destruct (isWindowFixedSize (FramelessHelperQt.params d)) eqn:Ef.
      { cbn. split; [split; [discriminate|
                 intros (?&?&?&[= <-]&_&_&_&_&?&?&_); congruence]|].
        split; [discriminate|]. split; [intros _; exact Hnone|].
        split; [intros c Hc; apply not_elem_of_nil in Hc; destruct Hc|lia]. }
      destruct (FramelessHelperQtEvent.button ev) eqn:Eb.
      2:{ cbn. split; [split; [discriminate|
                 intros (?&?&?&_&[= <-]&_&_&?&_); congruence]|].
          split; [discriminate|]. split; [intros _; exact Hnone|].
          split; [intros c Hc; apply not_elem_of_nil in Hc; destruct Hc|lia]. }
      case_bool_decide as Ee.
      { cbn. split; [split; [discriminate|
                 intros (?&?&?&[= <-]&[= <-]&_&_&_&_&_&?); congruence]|].
        split; [discriminate|]. split; [intros _; exact Hnone|].
        split; [intros c Hc; apply not_elem_of_nil in Hc; destruct Hc|lia]. }
      cbn. split.
      { split; [intros _|reflexivity]. exists window, ev, d. auto 10. }
      split; [intros _; exists window, ev; auto|].
      split; [discriminate|]. split; [|lia].
      intros c Hc _. apply list_elem_of_singleton in Hc. subst c.
      exists window, d. split; [reflexivity|]. split; [exact Ed|].
      split; [exact Ef|]. intros _. eauto.
    + destruct (FramelessHelperQt.data g !! winId window) as [d|] eqn:Ed.
      2:{ cbn. split; [split; [discriminate|
                 intros (?&?&?&_&[= <-]&_&?&_); congruence]|].
          split; [discriminate|]. split; [intros _; exact Hnone|].
          split; [intros c Hc; apply not_elem_of_nil in Hc; destruct Hc|lia]. }
      destruct (isWindowFixedSize (FramelessHelperQt.params d)) eqn:Ef.
      { cbn. split; [split; [discriminate|
                 intros (?&?&?&_&[= <-]&_&?&_); congruence]|].
        split; [discriminate|]. split; [intros _; exact Hnone|].
        split; [intros c Hc; apply not_elem_of_nil in Hc; destruct Hc|lia]. }
      destruct (DontTouchCursorShape (FramelessHelperQt.settings d)) eqn:Ec.
      { cbn. split; [split; [discriminate|
                 intros (?&?&?&_&[= <-]&_&?&_); congruence]|].
        split; [discriminate|]. split; [intros _; exact Hnone|].
        split; [intros c Hc; apply not_elem_of_nil in Hc; destruct Hc|lia]. }
      case_bool_decide as Ea; cbn;
        (split; [split; [discriminate|
                 intros (?&?&?&_&[= <-]&_&?&_); congruence]|];
         split; [discriminate|];
         split; [intros _ w e q; apply Hone; discriminate|];
         split; [|lia];
         intros c Hc _; exists window, d; split; [reflexivity|];
         split; [exact Ed|]; split; [exact Ef|]; congruence).
  - destruct (FramelessHelperQtEvent.isThemeChangeEvent ev) eqn:Et; cbn.
    + split; [split; [discriminate|intros (?&?&?&?&_); congruence]|].
      split; [discriminate|].
      split; [intros _ w e q; apply Hone; discriminate|].
      split; [|lia].
      intros c Hc Hn. apply list_elem_of_singleton in Hc. congruence.
    + split; [split; [discriminate|intros (?&?&?&?&_); congruence]|].
      split; [discriminate|]. split; [intros _; exact Hnone|].
      split; [intros c Hc; apply not_elem_of_nil in Hc; destruct Hc|lia].
Qed.

(** X23. [addWindow] is what makes [eventFilter] act on a window.  Before
    the window is added its mouse events pass without a call; once valid
    parameters with the id of the window are added, a press of the left
    button on an edge starts a system resize, unless the parameters say
    that the window is of fixed size, in which case mouse events still
    pass without a call.  Events of windows with another id and of objects
    that are not windows are treated as before. *)
Theorem added_window_is_filtered
    {UserSettings SystemParameters QWindowPtr QPoint CursorShape Edges : Type}
    `{EqDecision CursorShape} `{EqDecision Edges}
    (isValid : SystemParameters -> bool)
    (getWindowId : SystemParameters -> Z)
    (getWindowHandle : SystemParameters -> QWindowPtr)
    (getWindowFlags : SystemParameters -> Z)
    (DontTouchCursorShape : UserSettings -> bool)
    (isWindowFixedSize : SystemParameters -> bool)
    (ArrowCursor : CursorShape) (noEdges : Edges)
    (calculateCursorShape : QWindowPtr -> QPoint -> CursorShape)
    (calculateWindowEdges : QWindowPtr -> QPoint -> Edges)
    (winId : QWindowPtr -> Z)
    (s : UserSettings) (p : SystemParameters)
    (g : FramelessHelperQt.QtHelper (QWindowPtr := QWindowPtr))
    (window : QWindowPtr) (ev : FramelessHelperQtEvent.QEvent) :
  isValid p = true ->
  FramelessHelperQt.data g !! getWindowId p = None ->
  winId window = getWindowId p ->
  FramelessHelperQtEvent.isThemeChangeEvent ev = false ->
  let g' :=
    FramelessHelperQt.addWindow isValid getWindowId getWindowHandle
      getWindowFlags s p g in
  let filter :=
    FramelessHelperQtEvent.eventFilter DontTouchCursorShape isWindowFixedSize
      ArrowCursor noEdges calculateCursorShape calculateWindowEdges winId in
  let edges :=
    calculateWindowEdges window (FramelessHelperQtEvent.scenePos ev) in
  filter g (Some (FramelessHelperQtEvent.Window window)) (Some ev)
  = (false, [])
  /\ (FramelessHelperQtEvent.type ev = FramelessHelperQtEvent.MouseButtonPress ->
      FramelessHelperQtEvent.button ev = FramelessHelperQtEvent.LeftButton ->
      isWindowFixedSize p = false ->
      edges <> noEdges ->
      filter g' (Some (FramelessHelperQtEvent.Window window)) (Some ev)
      = (true, [FramelessHelperQtEvent.startSystemResize window edges
                  (FramelessHelperQtEvent.globalPos ev)]))
  /\ (isWindowFixedSize p = true ->
      filter g' (Some (FramelessHelperQtEvent.Window window)) (Some ev)
      = (false, []))
  /\ (forall w e, winId w <> getWindowId p ->
      filter g' (Some (FramelessHelperQtEvent.Window w)) e
      = filter g (Some (FramelessHelperQtEvent.Window w)) e)
  /\ (forall e,
      filter g' (Some FramelessHelperQtEvent.NotWindow) e
      = filter g (Some FramelessHelperQtEvent.NotWindow) e).
Proof.
  intros Hv Hnew Hid Ht g' filter edges.
  assert (Hg : FramelessHelperQt.data g'
               = <[getWindowId p :=
                     {| FramelessHelperQt.settings := s;
                        FramelessHelperQt.params := p;
                        FramelessHelperQt.eventFilter :=
                          FramelessHelperQt.allocated g |}]>
                   (FramelessHelperQt.data g)).
  { subst g'. unfold FramelessHelperQt.addWindow.
    rewrite Hv, Hnew. reflexivity. }
  subst filter. unfold FramelessHelperQtEvent.eventFilter.
  rewrite Ht, Hg, Hid, Hnew, lookup_insert_eq.
  cbn [FramelessHelperQt.params FramelessHelperQt.settings].
  split; [destruct (FramelessHelperQtEvent.type ev); reflexivity|].
  split.
  { intros Hty Hb Hf He. rewrite Hty, Hf, Hb.
    fold edges. rewrite (bool_decide_eq_false_2 _ He). reflexivity. }
  split.
  { intros Hf. rewrite Hf.
    destruct (FramelessHelperQtEvent.type ev); reflexivity. }
  split.
  - intros w e Hw. rewrite lookup_insert_ne by congruence. reflexivity.
  - intros e. reflexivity.
Qed.

Lemma added_window_is_filtered_witness :
  let isValid := fun p : Z => 0 <? p in
  let getId := fun p : Z => p in
  let g := {| FramelessHelperQt.data := ∅; FramelessHelperQt.allocated := 0%nat;
              FramelessHelperQt.qtCalls := [] |} in
  let ev := {| FramelessHelperQtEvent.isThemeChangeEvent := false;
               FramelessHelperQtEvent.type :=
                 FramelessHelperQtEvent.MouseButtonPress;
               FramelessHelperQtEvent.button :=
                 FramelessHelperQtEvent.LeftButton;
               FramelessHelperQtEvent.scenePos := 3;
               FramelessHelperQtEvent.globalPos := 103 |} in
  let filter :=
    FramelessHelperQtEvent.eventFilter (UserSettings := Z)
      (fun s => s =? 1) (fun p => p =? 9) 0 0 (fun _ q => q) (fun _ q => q)
      getId in
  (isValid 7 = true /\ FramelessHelperQt.data g !! getId 7 = None
   /\ getId 7 = getId 7
   /\ FramelessHelperQtEvent.isThemeChangeEvent ev = false)
  /\ filter (FramelessHelperQt.addWindow isValid getId getId getId 2 7 g)
       (Some (FramelessHelperQtEvent.Window 7)) (Some ev)
     = (true, [FramelessHelperQtEvent.startSystemResize 7 3 103]).
Proof.
  intros isValid getId g ev filter.
  assert (Hv : isValid 7 = true) by reflexivity.
  assert (Hn : FramelessHelperQt.data g !! getId 7 = None) by reflexivity.
  assert (Hi : getId 7 = getId 7) by reflexivity.
  assert (Ht : FramelessHelperQtEvent.isThemeChangeEvent ev = false)
    by reflexivity.
  split; [auto|].
  apply (proj1 (proj2
    (added_window_is_filtered isValid getId getId getId
       (fun s => s =? 1) (fun p => p =? 9) 0 0 (fun _ q => q) (fun _ q => q)
       getId 2 7 g 7 ev Hv Hn Hi Ht)));
    [reflexivity|reflexivity|reflexivity|discriminate].
Defined.

(** ** The list of managed window ids *)

(** X24. The list of window ids of the manager never holds an id twice:
    [addWindow] and [removeWindow] keep it free of repetitions.  After
    [addWindow] the id of the parameters is listed and nothing that was
    listed is lost; after [removeWindow] of a listed window its id is
    listed no more and the other ids are listed as before; adding a new id
    and removing the window of that id gives the list back. *)
Theorem manager_list_operations
    {QWindowPtr FramelessParams : Type}
    (winId appliedWinId : QWindowPtr -> Z)
    (getWindowId : FramelessParams -> Z)
    (pureQt Q_OS_WINDOWS : bool)
    (g : FramelessManagerPrivate.FramelessManagerHelper
           (QWindowPtr := QWindowPtr) (FramelessParams := FramelessParams))
    (params : FramelessParams) (window : QWindowPtr) :
  NoDup (FramelessManagerPrivate.windowIds g) ->
  let add := FramelessManagerPrivate.addWindow (QWindowPtr := QWindowPtr)
               getWindowId pureQt Q_OS_WINDOWS in
  let remove := FramelessManagerPrivate.removeWindow (FramelessParams := FramelessParams)
                  winId appliedWinId pureQt Q_OS_WINDOWS in
  let ids := FramelessManagerPrivate.windowIds in
  NoDup (ids (add (Some params) g))
  /\ NoDup (ids (remove (Some window) g))
  /\ getWindowId params ∈ ids (add (Some params) g)
  /\ (forall k, k ∈ ids g -> k ∈ ids (add (Some params) g))
  /\ (winId window ∈ ids g ->
      (winId window ∉ ids (remove (Some window) g))
      /\ forall k, k <> winId window ->
           (k ∈ ids (remove (Some window) g) <-> k ∈ ids g))
  /\ (getWindowId params ∉ ids g ->
      winId window = getWindowId params ->
      ids (remove (Some window) (add (Some params) g)) = ids g).
Proof.
  intros Hnd add remove ids. subst add remove ids.
  unfold FramelessManagerPrivate.addWindow, FramelessManagerPrivate.removeWindow.
  split.
  { case_bool_decide as Hin; [exact Hnd|]. cbn.
    apply NoDup_app. split; [exact Hnd|]. split; [|apply NoDup_singleton].
    intros x Hx Hx'. apply list_elem_of_singleton in Hx'. subst x. tauto. }
  split.
  { case_bool_decide as Hin; cbn [negb].
    - cbn. apply NoDup_filter, Hnd.
    - destruct (appliedWinId window =? 0); [exact Hnd|].
      cbn. apply NoDup_filter, Hnd. }
  split.
  { case_bool_decide as Hin; [exact Hin|]. cbn.
    apply elem_of_app. right. apply list_elem_of_singleton. reflexivity. }
  split.
  { intros k Hk. case_bool_decide as Hin; [exact Hk|]. cbn.
    apply elem_of_app. left. exact Hk. }
  split.
  { intros Hin. rewrite (bool_decide_eq_true_2 _ Hin). cbn. split.
    - intros H. apply list_elem_of_filter in H. tauto.
    - intros k Hk. rewrite list_elem_of_filter. tauto. }
  intros Hnew Hid. rewrite (bool_decide_eq_false_2 _ Hnew).
  cbn [FramelessManagerPrivate.windowIds]. rewrite Hid.
  assert (Hin : getWindowId params
                ∈ FramelessManagerPrivate.windowIds g ++ [getWindowId params]).
  { apply elem_of_app. right. apply list_elem_of_singleton. reflexivity. }
  rewrite (bool_decide_eq_true_2 _ Hin). cbn.
  rewrite filter_app, filter_ne_not_elem by exact Hnew.
  rewrite filter_cons_False by tauto. rewrite filter_nil. apply app_nil_r.
Qed.

Lemma manager_list_operations_witness :
  let g := {| FramelessManagerPrivate.windowIds := [7; 9];
              FramelessManagerPrivate.helperCalls := [] |} in
  NoDup (FramelessManagerPrivate.windowIds g)
  /\ FramelessManagerPrivate.windowIds
       (FramelessManagerPrivate.removeWindow (QWindowPtr := Z)
          (FramelessParams := Z) (fun w => w) (fun _ => 0) false true (Some 8)
          (FramelessManagerPrivate.addWindow (QWindowPtr := Z)
             (fun p => p) false true (Some 8) g))
     = [7; 9].
Proof.
  intros g.
  assert (Hnd : NoDup (FramelessManagerPrivate.windowIds g)).
  { apply NoDup_cons. split; [|apply NoDup_singleton].
    intros H. apply list_elem_of_singleton in H. discriminate H. }
  split; [exact Hnd|].
  apply (manager_list_operations (fun w => w) (fun _ => 0) (fun p => p)
           false true g 8 8 Hnd).
  - intros H. apply list_elem_of_In in H. cbn in H.
    destruct H as [H|[H|[]]]; discriminate H.
  - reflexivity.
Defined.

(** X25. Each window goes to one implementation.  The pure Qt
    implementation is always chosen outside Windows; under this condition
    [addWindow] of a new id makes exactly one call that adds the window,
    to the toolkit-event fallback if the pure Qt implementation is chosen
    and to the native helper otherwise, and [removeWindow] of a listed
    window makes exactly one call that removes it, to the same
    implementation.  The system menu hook is installed and uninstalled on
    Windows only.  The calls made before are kept. *)
Theorem manager_picks_one_implementation
    {QWindowPtr FramelessParams : Type}
    (winId appliedWinId : QWindowPtr -> Z)
    (getWindowId : FramelessParams -> Z)
    (pureQt Q_OS_WINDOWS : bool)
    (g : FramelessManagerPrivate.FramelessManagerHelper
           (QWindowPtr := QWindowPtr) (FramelessParams := FramelessParams))
    (params : FramelessParams) (window : QWindowPtr) :
  (Q_OS_WINDOWS = false -> pureQt = true) ->
  getWindowId params ∉ FramelessManagerPrivate.windowIds g ->
  winId window ∈ FramelessManagerPrivate.windowIds g ->
  exists ca cr,
    FramelessManagerPrivate.helperCalls
      (FramelessManagerPrivate.addWindow getWindowId pureQt Q_OS_WINDOWS
         (Some params) g)
    = FramelessManagerPrivate.helperCalls g ++ ca
    /\ FramelessManagerPrivate.helperCalls
         (FramelessManagerPrivate.removeWindow winId appliedWinId pureQt
            Q_OS_WINDOWS (Some window) g)
       = FramelessManagerPrivate.helperCalls g ++ cr
    /\ length (List.filter Invariants.is_add ca) = 1%nat
    /\ length (List.filter Invariants.is_remove cr) = 1%nat
    /\ forallb Invariants.is_qt (List.filter Invariants.is_add ca) = pureQt
    /\ forallb Invariants.is_qt (List.filter Invariants.is_remove cr) = pureQt
    /\ length ca = (if Q_OS_WINDOWS then 2 else 1)%nat
    /\ length cr = (if Q_OS_WINDOWS then 2 else 1)%nat
    /\ (Q_OS_WINDOWS = true ->
        last ca
        = Some (FramelessManagerPrivate.installSystemMenuHook
                  (getWindowId params) params)
        /\ last cr
           = Some (FramelessManagerPrivate.uninstallSystemMenuHook
                     (winId window))).
Proof.
  intros Hos Hnew Hin.
  unfold FramelessManagerPrivate.addWindow, FramelessManagerPrivate.removeWindow.
  rewrite (bool_decide_eq_false_2 _ Hnew), (bool_decide_eq_true_2 _ Hin).
  cbn [negb FramelessManagerPrivate.helperCalls].
  eexists. eexists. split; [reflexivity|]. split; [reflexivity|].
  destruct Q_OS_WINDOWS, pureQt; cbn;
    try (specialize (Hos eq_refl); discriminate Hos);
    repeat split; discriminate.
Qed.

Lemma manager_picks_one_implementation_witness :
  let g := {| FramelessManagerPrivate.windowIds := [7; 9];
              FramelessManagerPrivate.helperCalls := [] |} in
  ((true = false -> false = true)
   /\ (8 ∉ FramelessManagerPrivate.windowIds g)
   /\ 9 ∈ FramelessManagerPrivate.windowIds g)
  /\ exists ca cr,
       FramelessManagerPrivate.helperCalls
         (FramelessManagerPrivate.addWindow (QWindowPtr := Z)
            (fun p : Z => p) false true (Some 8) g) = ca
       /\ FramelessManagerPrivate.helperCalls
            (FramelessManagerPrivate.removeWindow (FramelessParams := Z)
               (fun w : Z => w) (fun _ => 0) false true (Some 9) g) = cr
       /\ length ca = 2%nat /\ length cr = 2%nat.
Proof.
  intros g.
  assert (Hos : true = false -> false = true) by discriminate.
  assert (Hnew : 8 ∉ FramelessManagerPrivate.windowIds g).
  { intros H. apply list_elem_of_In in H. cbn in H.
    destruct H as [H|[H|[]]]; discriminate H. }
  assert (Hin : 9 ∈ FramelessManagerPrivate.windowIds g).
  { apply list_elem_of_In. cbn. right. left. reflexivity. }
  split; [auto|].
  destruct (manager_picks_one_implementation (fun w : Z => w) (fun _ => 0)
              (fun p : Z => p) false true g 8 9 Hos Hnew Hin)
    as (ca & cr & Ha & Hr & _ & _ & _ & _ & Hla & Hlr & _).
  exists ca, cr. auto.
Defined.

(** ** System theme and wallpaper *)

(** X26. What [setOverrideTheme] leaves.  Asked for a theme other than
    [Unknown], the manager reports that theme afterwards; asked for
    [Unknown], it reports the theme of the system.  The signal is emitted
    once if the theme in effect was another one and not at all otherwise.
    An override is in force afterwards exactly when the theme asked for is
    not [Unknown] and either an override was in force before or the theme of
    the system is another one: asking for the theme that the system has
    does not pin it.  What is known of the system is not touched. *)
Theorem setOverrideTheme_effect
    {SystemTheme QColor DwmColorizationArea QString WallpaperAspectStyle : Type}
    `{EqDecision SystemTheme}
    (Unknown theme : SystemTheme)
    (d : FramelessManagerTheme.FramelessManagerPrivate
           (QColor := QColor) (DwmColorizationArea := DwmColorizationArea)
           (QString := QString)
           (WallpaperAspectStyle := WallpaperAspectStyle)) :
  let d' := FramelessManagerTheme.setOverrideTheme Unknown theme d in
  FramelessManagerTheme.systemTheme Unknown d'
  = (if bool_decide (theme = Unknown)
     then FramelessManagerTheme.m_systemTheme d else theme)
  /\ FramelessManagerTheme.emitted d'
     = FramelessManagerTheme.emitted d
       ++ (if bool_decide (FramelessManagerTheme.systemTheme Unknown d = theme)
           then [] else [FramelessManagerTheme.systemThemeChanged])
  /\ FramelessManagerTheme.isThemeOverrided Unknown d'
     = negb (bool_decide (theme = Unknown))
       && (FramelessManagerTheme.isThemeOverrided Unknown d
           || negb (bool_decide (FramelessManagerTheme.m_systemTheme d = theme)))
  /\ FramelessManagerTheme.m_systemTheme d'
     = FramelessManagerTheme.m_systemTheme d
  /\ FramelessManagerTheme.systemAccentColor d'
     = FramelessManagerTheme.systemAccentColor d
  /\ FramelessManagerTheme.wallpaper d' = FramelessManagerTheme.wallpaper d
  /\ FramelessManagerTheme.wallpaperAspectStyle d'
     = FramelessManagerTheme.wallpaperAspectStyle d.
Proof.
  intros d'. subst d'.
  unfold FramelessManagerTheme.setOverrideTheme,
    FramelessManagerTheme.systemTheme,
    FramelessManagerTheme.isThemeOverrided,
    FramelessManagerTheme.systemAccentColor, FramelessManagerTheme.wallpaper,
    FramelessManagerTheme.wallpaperAspectStyle.
  destruct d as [st [o|] ac ca wp ws em fs gf]; cbn;
    repeat (case_bool_decide; cbn in *; try congruence);
    rewrite ?app_nil_r; repeat split; try congruence;
    repeat (case_bool_decide; cbn in *; try congruence);
    exfalso; congruence.
Qed.

(** X27. While an override is in force a change of the system is recorded
    but not announced: [notifySystemThemeHasChangedOrNot] emits nothing and
    the theme reported stays the override, while the theme and the accent
    color of the system are taken over.  When the override is taken back
    with [Unknown] afterwards, the theme reported is the one the system
    had at the notification and the signal is emitted once. *)
Theorem override_shields_notifications
    {SystemTheme QColor DwmColorizationArea QString WallpaperAspectStyle : Type}
    `{EqDecision SystemTheme} `{EqDecision QColor}
    `{EqDecision DwmColorizationArea}
    (Unknown : SystemTheme) (Q_OS_WINDOWS : bool)
    (utils : FramelessManagerTheme.Utils (SystemTheme := SystemTheme)
               (QColor := QColor) (DwmColorizationArea := DwmColorizationArea)
               (QString := QString)
               (WallpaperAspectStyle := WallpaperAspectStyle))
    (d : FramelessManagerTheme.FramelessManagerPrivate
           (SystemTheme := SystemTheme) (QColor := QColor)
           (DwmColorizationArea := DwmColorizationArea) (QString := QString)
           (WallpaperAspectStyle := WallpaperAspectStyle)) :
  FramelessManagerTheme.isThemeOverrided Unknown d = true ->
  let d' :=
    FramelessManagerTheme.notifySystemThemeHasChangedOrNot Unknown Q_OS_WINDOWS
      utils d in
  let d'' := FramelessManagerTheme.setOverrideTheme Unknown Unknown d' in
  FramelessManagerTheme.emitted d' = FramelessManagerTheme.emitted d
  /\ FramelessManagerTheme.systemTheme Unknown d'
     = FramelessManagerTheme.systemTheme Unknown d
  /\ FramelessManagerTheme.m_systemTheme d'
     = FramelessManagerTheme.getSystemTheme utils
  /\ FramelessManagerTheme.systemAccentColor d'
     = FramelessManagerTheme.getAccentColor utils
  /\ FramelessManagerTheme.systemTheme Unknown d''
     = FramelessManagerTheme.getSystemTheme utils
  /\ FramelessManagerTheme.emitted d''
     = FramelessManagerTheme.emitted d
       ++ [FramelessManagerTheme.systemThemeChanged].
Proof.
  intros Ho d' d''. subst d'' d'.
  unfold FramelessManagerTheme.setOverrideTheme,
    FramelessManagerTheme.notifySystemThemeHasChangedOrNot,
    FramelessManagerTheme.systemTheme,
    FramelessManagerTheme.isThemeOverrided,
    FramelessManagerTheme.systemAccentColor in *.
  destruct d as [st [o|] ac ca wp ws em fs gf]; cbn in Ho |- *;
    [|rewrite bool_decide_eq_true_2 in Ho by reflexivity; discriminate Ho].
  apply negb_true_iff in Ho. rewrite Ho. cbn.
  rewrite andb_false_r. cbn. rewrite Ho. cbn.
  assert (Hne : o <> Unknown) by (intros ->; case_bool_decide; congruence).
  rewrite (bool_decide_eq_false_2 _ Hne). cbn.
  rewrite (bool_decide_eq_true_2 (Unknown = Unknown)) by reflexivity. cbn.
  repeat split;
    repeat (case_bool_decide; cbn in *; try congruence).
Qed.

Lemma override_shields_notifications_witness :
  let utils := {| FramelessManagerTheme.getSystemTheme := 2;
                  FramelessManagerTheme.getDwmColorizationArea := 0;
                  FramelessManagerTheme.getAccentColor := 5;
                  FramelessManagerTheme.getWallpaperFilePath := 0;
                  FramelessManagerTheme.getWallpaperAspectStyle := 0 |} in
  let d := {| FramelessManagerTheme.m_systemTheme := 1;
              FramelessManagerTheme.m_overrideTheme := Some 1;
              FramelessManagerTheme.m_accentColor := 4;
              FramelessManagerTheme.m_colorizationArea := 0;
              FramelessManagerTheme.m_wallpaper := 0;
              FramelessManagerTheme.m_wallpaperAspectStyle := 0;
              FramelessManagerTheme.emitted := [];
              FramelessManagerTheme.flagSet := false;
              FramelessManagerTheme.globalFlag := [] |} in
  FramelessManagerTheme.isThemeOverrided 0 d = true
  /\ FramelessManagerTheme.emitted
       (FramelessManagerTheme.notifySystemThemeHasChangedOrNot 0 true utils d)
     = [].
Proof.
  intros utils d.
  assert (Ho : FramelessManagerTheme.isThemeOverrided 0 d = true)
    by reflexivity.
  split; [exact Ho|].
  exact (proj1 (override_shields_notifications 0 true utils d Ho)).
Defined.

Lemma notifySystemTheme_fixpoint
    {SystemTheme QColor DwmColorizationArea QString WallpaperAspectStyle : Type}
    `{EqDecision SystemTheme} `{EqDecision QColor}
    `{EqDecision DwmColorizationArea}
    (Unknown : SystemTheme) (Q_OS_WINDOWS : bool)
    (utils : FramelessManagerTheme.Utils (SystemTheme := SystemTheme)
               (QColor := QColor) (DwmColorizationArea := DwmColorizationArea)
               (QString := QString)
               (WallpaperAspectStyle := WallpaperAspectStyle))
    (d : FramelessManagerTheme.FramelessManagerPrivate
           (SystemTheme := SystemTheme) (QColor := QColor)
           (DwmColorizationArea := DwmColorizationArea) (QString := QString)
           (WallpaperAspectStyle := WallpaperAspectStyle)) :
  FramelessManagerTheme.m_systemTheme d
  = FramelessManagerTheme.getSystemTheme utils ->
  FramelessManagerTheme.m_accentColor d
  = FramelessManagerTheme.getAccentColor utils ->
  (Q_OS_WINDOWS = true ->
   FramelessManagerTheme.m_colorizationArea d
   = FramelessManagerTheme.getDwmColorizationArea utils) ->
  FramelessManagerTheme.notifySystemThemeHasChangedOrNot Unknown Q_OS_WINDOWS
    utils d = d.
Proof.
  intros Ht Hc Ha.
  unfold FramelessManagerTheme.notifySystemThemeHasChangedOrNot.
  rewrite (bool_decide_eq_true_2 _ Ht), (bool_decide_eq_true_2 _ Hc).
  destruct Q_OS_WINDOWS; cbn.
  - rewrite (bool_decide_eq_true_2 _ (Ha eq_refl)). cbn.
    destruct d; reflexivity.
  - destruct d; reflexivity.
Qed.

Lemma notifyWallpaper_fixpoint
    {SystemTheme QColor DwmColorizationArea QString WallpaperAspectStyle : Type}
    `{EqDecision QString} `{EqDecision WallpaperAspectStyle}
    (utils : FramelessManagerTheme.Utils (SystemTheme := SystemTheme)
               (QColor := QColor) (DwmColorizationArea := DwmColorizationArea)
               (QString := QString)
               (WallpaperAspectStyle := WallpaperAspectStyle))
    (d : FramelessManagerTheme.FramelessManagerPrivate
           (SystemTheme := SystemTheme) (QColor := QColor)
           (DwmColorizationArea := DwmColorizationArea) (QString := QString)
           (WallpaperAspectStyle := WallpaperAspectStyle)) :
  FramelessManagerTheme.m_wallpaper d
  = FramelessManagerTheme.getWallpaperFilePath utils ->
  FramelessManagerTheme.m_wallpaperAspectStyle d
  = FramelessManagerTheme.getWallpaperAspectStyle utils ->
  FramelessManagerTheme.notifyWallpaperHasChangedOrNot utils d = d.
Proof.
  intros Hp Hs.
  unfold FramelessManagerTheme.notifyWallpaperHasChangedOrNot.
  rewrite (bool_decide_eq_true_2 _ Hp), (bool_decide_eq_true_2 _ Hs). cbn.
  destruct d; reflexivity.
Qed.

Lemma notifySystemTheme_fields
    {SystemTheme QColor DwmColorizationArea QString WallpaperAspectStyle : Type}
    `{EqDecision SystemTheme} `{EqDecision QColor}
    `{EqDecision DwmColorizationArea}
    (Unknown : SystemTheme) (Q_OS_WINDOWS : bool)
    (utils : FramelessManagerTheme.Utils (SystemTheme := SystemTheme)
               (QColor := QColor) (DwmColorizationArea := DwmColorizationArea)
               (QString := QString)
               (WallpaperAspectStyle := WallpaperAspectStyle))
    (d : FramelessManagerTheme.FramelessManagerPrivate
           (SystemTheme := SystemTheme) (QColor := QColor)
           (DwmColorizationArea := DwmColorizationArea) (QString := QString)
           (WallpaperAspectStyle := WallpaperAspectStyle)) :
  let d' :=
    FramelessManagerTheme.notifySystemThemeHasChangedOrNot Unknown Q_OS_WINDOWS
      utils d in
  FramelessManagerTheme.m_systemTheme d'
  = FramelessManagerTheme.getSystemTheme utils
  /\ FramelessManagerTheme.m_accentColor d'
     = FramelessManagerTheme.getAccentColor utils
  /\ FramelessManagerTheme.m_colorizationArea d'
     = (if Q_OS_WINDOWS then FramelessManagerTheme.getDwmColorizationArea utils
        else FramelessManagerTheme.m_colorizationArea d)
  /\ FramelessManagerTheme.m_overrideTheme d'
     = FramelessManagerTheme.m_overrideTheme d
  /\ FramelessManagerTheme.m_wallpaper d' = FramelessManagerTheme.m_wallpaper d
  /\ FramelessManagerTheme.m_wallpaperAspectStyle d'
     = FramelessManagerTheme.m_wallpaperAspectStyle d
  /\ FramelessManagerTheme.flagSet d' = FramelessManagerTheme.flagSet d
  /\ FramelessManagerTheme.globalFlag d' = FramelessManagerTheme.globalFlag d.
Proof.
  intros d'. subst d'.
  unfold FramelessManagerTheme.notifySystemThemeHasChangedOrNot.
  match goal with
  | |- context [if ?c then FramelessManagerTheme.emit _ _ else _] =>
      destruct c
  end; cbn;
    destruct Q_OS_WINDOWS; cbn;
    repeat split; repeat (case_bool_decide; cbn; try congruence).
Qed.

Lemma notifyWallpaper_fields
    {SystemTheme QColor DwmColorizationArea QString WallpaperAspectStyle : Type}
    `{EqDecision QString} `{EqDecision WallpaperAspectStyle}
    (utils : FramelessManagerTheme.Utils (SystemTheme := SystemTheme)
               (QColor := QColor) (DwmColorizationArea := DwmColorizationArea)
               (QString := QString)
               (WallpaperAspectStyle := WallpaperAspectStyle))
    (d : FramelessManagerTheme.FramelessManagerPrivate
           (SystemTheme := SystemTheme) (QColor := QColor)
           (DwmColorizationArea := DwmColorizationArea) (QString := QString)
           (WallpaperAspectStyle := WallpaperAspectStyle)) :
  let d' := FramelessManagerTheme.notifyWallpaperHasChangedOrNot utils d in
  FramelessManagerTheme.m_wallpaper d'
  = FramelessManagerTheme.getWallpaperFilePath utils
  /\ FramelessManagerTheme.m_wallpaperAspectStyle d'
     = FramelessManagerTheme.getWallpaperAspectStyle utils
  /\ FramelessManagerTheme.m_systemTheme d'
     = FramelessManagerTheme.m_systemTheme d
  /\ FramelessManagerTheme.m_overrideTheme d'
     = FramelessManagerTheme.m_overrideTheme d
  /\ FramelessManagerTheme.m_accentColor d'
     = FramelessManagerTheme.m_accentColor d
  /\ FramelessManagerTheme.m_colorizationArea d'
     = FramelessManagerTheme.m_colorizationArea d
  /\ FramelessManagerTheme.flagSet d' = FramelessManagerTheme.flagSet d
  /\ FramelessManagerTheme.globalFlag d' = FramelessManagerTheme.globalFlag d.
Proof.
  intros d'. subst d'.
  unfold FramelessManagerTheme.notifyWallpaperHasChangedOrNot.
  match goal with
  | |- context [if ?c then FramelessManagerTheme.emit _ _ else _] =>
      destruct c
  end; cbn;
    repeat split; repeat (case_bool_decide; cbn; try congruence).
Qed.

(** X28. The two notifications bring the manager up to date and settle.
    After [notifySystemThemeHasChangedOrNot] the theme and the accent color
    held are those of the system, and without an override the theme
    reported is the one of the system; after
    [notifyWallpaperHasChangedOrNot] the wallpaper and its aspect style are
    those of the system.  A second notification with the same answers of
    the system changes nothing and emits nothing.  A changed theme is
    announced by one signal when no override is in force, a changed
    wallpaper always; neither notification touches what the other one
    maintains. *)
Theorem notifications_sync_and_settle
    {SystemTheme QColor DwmColorizationArea QString WallpaperAspectStyle : Type}
    `{EqDecision SystemTheme} `{EqDecision QColor}
    `{EqDecision DwmColorizationArea} `{EqDecision QString}
    `{EqDecision WallpaperAspectStyle}
    (Unknown : SystemTheme) (Q_OS_WINDOWS : bool)
    (utils : FramelessManagerTheme.Utils (SystemTheme := SystemTheme)
               (QColor := QColor) (DwmColorizationArea := DwmColorizationArea)
               (QString := QString)
               (WallpaperAspectStyle := WallpaperAspectStyle))
    (d : FramelessManagerTheme.FramelessManagerPrivate
           (SystemTheme := SystemTheme) (QColor := QColor)
           (DwmColorizationArea := DwmColorizationArea) (QString := QString)
           (WallpaperAspectStyle := WallpaperAspectStyle)) :
  let theme :=
    FramelessManagerTheme.notifySystemThemeHasChangedOrNot Unknown Q_OS_WINDOWS
      utils in
  let paper := FramelessManagerTheme.notifyWallpaperHasChangedOrNot utils in
  (FramelessManagerTheme.m_systemTheme (theme d)
   = FramelessManagerTheme.getSystemTheme utils
   /\ FramelessManagerTheme.systemAccentColor (theme d)
      = FramelessManagerTheme.getAccentColor utils
   /\ (FramelessManagerTheme.isThemeOverrided Unknown d = false ->
       FramelessManagerTheme.systemTheme Unknown (theme d)
       = FramelessManagerTheme.getSystemTheme utils))
  /\ (FramelessManagerTheme.wallpaper (paper d)
      = FramelessManagerTheme.getWallpaperFilePath utils
      /\ FramelessManagerTheme.wallpaperAspectStyle (paper d)
         = FramelessManagerTheme.getWallpaperAspectStyle utils)
  /\ (theme (theme d) = theme d /\ paper (paper d) = paper d)
  /\ (FramelessManagerTheme.m_systemTheme d
      <> FramelessManagerTheme.getSystemTheme utils ->
      FramelessManagerTheme.isThemeOverrided Unknown d = false ->
      FramelessManagerTheme.emitted (theme d)
      = FramelessManagerTheme.emitted d
        ++ [FramelessManagerTheme.systemThemeChanged])
  /\ (FramelessManagerTheme.m_wallpaper d
      <> FramelessManagerTheme.getWallpaperFilePath utils ->
      FramelessManagerTheme.emitted (paper d)
      = FramelessManagerTheme.emitted d
        ++ [FramelessManagerTheme.wallpaperChanged])
  /\ (FramelessManagerTheme.systemTheme Unknown (paper d)
      = FramelessManagerTheme.systemTheme Unknown d
      /\ FramelessManagerTheme.wallpaper (theme d)
         = FramelessManagerTheme.wallpaper d
      /\ FramelessManagerTheme.wallpaperAspectStyle (theme d)
         = FramelessManagerTheme.wallpaperAspectStyle d).
Proof.
  intros theme paper.
  destruct (notifySystemTheme_fields Unknown Q_OS_WINDOWS utils d)
    as (Ht & Hc & Ha & Ho & Hw & Hs & _).
  destruct (notifyWallpaper_fields utils d)
    as (Pw & Ps & Pt & Po & _).
  fold (theme d) in Ht, Hc, Ha, Ho, Hw, Hs.
  fold (paper d) in Pw, Ps, Pt, Po.
  split.
  { split; [exact Ht|]. split; [exact Hc|].
    intros Hn. unfold FramelessManagerTheme.systemTheme,
      FramelessManagerTheme.isThemeOverrided in *.
    rewrite Ho, Hn. exact Ht. }
  split; [split; [exact Pw|exact Ps]|].
  split.
  { split.
    - apply notifySystemTheme_fixpoint; [exact Ht|exact Hc|].
      intros ->. exact Ha.
    - apply notifyWallpaper_fixpoint; [exact Pw|exact Ps]. }
  split.
  { intros Hne Hn. subst theme.
    unfold FramelessManagerTheme.notifySystemThemeHasChangedOrNot.
    rewrite (bool_decide_eq_false_2 _ Hne). cbn [negb orb].
    unfold FramelessManagerTheme.isThemeOverrided in *.
    cbn [FramelessManagerTheme.m_overrideTheme]. rewrite Hn. reflexivity. }
  split.
  { intros Hne. subst paper.
    unfold FramelessManagerTheme.notifyWallpaperHasChangedOrNot.
    rewrite (bool_decide_eq_false_2 _ Hne). reflexivity. }
  split.
  { unfold FramelessManagerTheme.systemTheme,
      FramelessManagerTheme.isThemeOverrided. rewrite Po, Pt. reflexivity. }
  split; [exact Hw|exact Hs].
Qed.

(** X29. [initialize] reads the system: a notification of either kind that
    follows it with the same answers of the system changes nothing and
    emits nothing, and [initialize] itself emits nothing and keeps the
    override.  The global flag is written by the first [initialize] only:
    when it has been written exactly if the static flag is set, and then
    once, this stays so under [initialize] and under both notifications,
    and after [initialize] it holds exactly one value, which a second
    [initialize] does not replace. *)
Theorem initialize_reads_system_once
    {SystemTheme QColor DwmColorizationArea QString WallpaperAspectStyle : Type}
    `{EqDecision SystemTheme} `{EqDecision QColor}
    `{EqDecision DwmColorizationArea} `{EqDecision QString}
    `{EqDecision WallpaperAspectStyle}
    (Unknown : SystemTheme) (Q_OS_WINDOWS : bool) (version : Z)
    (utils utils' : FramelessManagerTheme.Utils (SystemTheme := SystemTheme)
               (QColor := QColor) (DwmColorizationArea := DwmColorizationArea)
               (QString := QString)
               (WallpaperAspectStyle := WallpaperAspectStyle))
    (d : FramelessManagerTheme.FramelessManagerPrivate
           (SystemTheme := SystemTheme) (QColor := QColor)
           (DwmColorizationArea := DwmColorizationArea) (QString := QString)
           (WallpaperAspectStyle := WallpaperAspectStyle)) :
  Invariants.flag_ok d ->
  let init := FramelessManagerTheme.initialize Q_OS_WINDOWS version in
  let theme :=
    FramelessManagerTheme.notifySystemThemeHasChangedOrNot Unknown
      Q_OS_WINDOWS in
  let paper := FramelessManagerTheme.notifyWallpaperHasChangedOrNot in
  theme utils (init utils d) = init utils d
  /\ paper utils (init utils d) = init utils d
  /\ FramelessManagerTheme.emitted (init utils d)
     = FramelessManagerTheme.emitted d
  /\ FramelessManagerTheme.m_overrideTheme (init utils d)
     = FramelessManagerTheme.m_overrideTheme d
  /\ Invariants.flag_ok (init utils d)
  /\ Invariants.flag_ok (theme utils' d)
  /\ Invariants.flag_ok (paper utils' d)
  /\ length (FramelessManagerTheme.globalFlag (init utils d)) = 1%nat
  /\ FramelessManagerTheme.globalFlag (init utils' (init utils d))
     = FramelessManagerTheme.globalFlag (init utils d)
  /\ (FramelessManagerTheme.flagSet d = false ->
      FramelessManagerTheme.globalFlag (theme utils' (init utils d))
      = [version]).
Proof.
  intros [Hf Hl] init theme paper.
  split.
  { apply notifySystemTheme_fixpoint; [reflexivity|reflexivity|].
    intros ->. reflexivity. }
  split; [apply notifyWallpaper_fixpoint; reflexivity|].
  split; [reflexivity|]. split; [reflexivity|].
  assert (Hinit : length (FramelessManagerTheme.globalFlag (init utils d))
                  = 1%nat
                  -> Invariants.flag_ok (init utils d)).
  { intros H1. split; [discriminate|]. intros _. exact H1. }
  assert (H1 : length (FramelessManagerTheme.globalFlag (init utils d))
               = 1%nat).
  { subst init. unfold FramelessManagerTheme.initialize.
    cbn [FramelessManagerTheme.globalFlag].
    destruct (FramelessManagerTheme.flagSet d) eqn:E.
    - exact (Hl eq_refl).
    - rewrite (Hf eq_refl). reflexivity. }
  split; [exact (Hinit H1)|].
  destruct (notifySystemTheme_fields Unknown Q_OS_WINDOWS utils' d)
    as (_ & _ & _ & _ & _ & _ & Tf & Tg).
  destruct (notifyWallpaper_fields utils' d)
    as (_ & _ & _ & _ & _ & _ & Pf & Pg).
  fold (theme utils' d) in Tf, Tg. fold (paper utils' d) in Pf, Pg.
  split; [split; rewrite Tf, Tg; [exact Hf|exact Hl]|].
  split; [split; rewrite Pf, Pg; [exact Hf|exact Hl]|].
  split; [exact H1|]. split; [reflexivity|].
  intros Hfalse.
  destruct (notifySystemTheme_fields Unknown Q_OS_WINDOWS utils'
              (init utils d)) as (_ & _ & _ & _ & _ & _ & _ & Tg').
  fold (theme utils' (init utils d)) in Tg'. rewrite Tg'.
  subst init. unfold FramelessManagerTheme.initialize.
  cbn [FramelessManagerTheme.globalFlag]. rewrite Hfalse, (Hf Hfalse).
  reflexivity.
Qed.

Lemma initialize_reads_system_once_witness :
  let utils := {| FramelessManagerTheme.getSystemTheme := 2;
                  FramelessManagerTheme.getDwmColorizationArea := 0;
                  FramelessManagerTheme.getAccentColor := 5;
                  FramelessManagerTheme.getWallpaperFilePath := 3;
                  FramelessManagerTheme.getWallpaperAspectStyle := 1 |} in
  let d := {| FramelessManagerTheme.m_systemTheme := 0;
              FramelessManagerTheme.m_overrideTheme := None;
              FramelessManagerTheme.m_accentColor := 0;
              FramelessManagerTheme.m_colorizationArea := 0;
              FramelessManagerTheme.m_wallpaper := 0;
              FramelessManagerTheme.m_wallpaperAspectStyle := 0;
              FramelessManagerTheme.emitted := [];
              FramelessManagerTheme.flagSet := false;
              FramelessManagerTheme.globalFlag := [] |} in
  Invariants.flag_ok d
  /\ FramelessManagerTheme.notifySystemThemeHasChangedOrNot 0 true utils
       (FramelessManagerTheme.initialize true 20300 utils d)
     = FramelessManagerTheme.initialize true 20300 utils d.
Proof.
  intros utils d.
  assert (Hd : Invariants.flag_ok d) by (split; [reflexivity|discriminate]).
  split; [exact Hd|].
  exact (proj1 (initialize_reads_system_once 0 true 20300 utils utils d Hd)).
Defined.

(** ** Start-up of the library *)

(** X30. [FramelessHelper::Core::initialize] acts once: whatever the
    options of a later call, the later call changes nothing, so only the
    options of the first call count.  The first call sets the rounding
    policy of the scale factor to [Round] unless its options say not to
    touch it, registers each of the nine meta types once, and once more by
    name on Qt 5; it asks for the highest DPI awareness on Windows only and
    sets the high DPI attributes on Qt 5 only, each unless the options say
    otherwise.  The calls made before are kept. *)
Theorem core_initialize_acts_once
    {Options : Type} (has : Options -> FramelessHelperCore.Option_ -> bool)
    (Q_OS_WINDOWS Qt6 : bool) (o1 o2 : Options)
    (app : FramelessHelperCore.Application) :
  let init := FramelessHelperCore.initialize has Q_OS_WINDOWS Qt6 in
  init o2 (init o1 app) = init o1 app
  /\ FramelessHelperCore.inited (init o1 app) = true
  /\ (FramelessHelperCore.inited app = false ->
      FramelessHelperCore.roundingPolicy (init o1 app)
      = (if has o1 FramelessHelperCore.DontTouchScaleFactorRoundingPolicy
         then FramelessHelperCore.roundingPolicy app else Qt.Round)
      /\ exists cs,
           FramelessHelperCore.initCalls (init o1 app)
           = FramelessHelperCore.initCalls app ++ cs
           /\ (forall t,
                 CoreCalls.occurrences
                   (FramelessHelperCore.qRegisterMetaType t) cs = 1%nat
                 /\ CoreCalls.occurrences
                      (FramelessHelperCore.qRegisterMetaType_named t) cs
                    = (if Qt6 then 0 else 1)%nat)
           /\ CoreCalls.occurrences
                FramelessHelperCore.tryToEnableHighestDpiAwarenessLevel cs
              = (if Q_OS_WINDOWS
                    && negb (has o1
                       FramelessHelperCore.DontTouchProcessDpiAwarenessLevel)
                 then 1 else 0)%nat
           /\ CoreCalls.occurrences
                (FramelessHelperCore.setAttribute
                   FramelessHelperCore.AA_DontCreateNativeWidgetSiblings) cs
              = (if has o1
                      FramelessHelperCore.DontEnsureNonNativeWidgetSiblings
                 then 0 else 1)%nat
           /\ (forall a,
                 a <> FramelessHelperCore.AA_DontCreateNativeWidgetSiblings ->
                 CoreCalls.occurrences (FramelessHelperCore.setAttribute a) cs
                 = (if negb Qt6
                       && negb (has o1
                          FramelessHelperCore.DontTouchHighDpiScalingPolicy)
                    then 1 else 0)%nat)).
Proof.
  intros init. subst init. unfold FramelessHelperCore.initialize.
  split.
  { destruct (FramelessHelperCore.inited app) eqn:E; cbn; [rewrite E|];
      reflexivity. }
  split.
  { destruct (FramelessHelperCore.inited app) eqn:E; [exact E|reflexivity]. }
  intros E. rewrite E. cbn [FramelessHelperCore.roundingPolicy
                            FramelessHelperCore.initCalls].
  split.
  { destruct (has o1 FramelessHelperCore.DontTouchScaleFactorRoundingPolicy);
      reflexivity. }
  eexists. split; [reflexivity|].
  destruct Q_OS_WINDOWS, Qt6,
    (has o1 FramelessHelperCore.DontTouchProcessDpiAwarenessLevel),
    (has o1 FramelessHelperCore.DontEnsureNonNativeWidgetSiblings),
    (has o1 FramelessHelperCore.DontTouchHighDpiScalingPolicy);
    (split; [intros t; destruct t; split; vm_compute; reflexivity|];
     split; [vm_compute; reflexivity|];
     split; [vm_compute; reflexivity|];
     intros a Ha; destruct a; try congruence; vm_compute; reflexivity).
Qed.
